(** * NeuronModel::compute: batch splitting and the windowed pipeline

    A shallow embedding of [src/runtime/model.cc] (aws-neuron-tensorflow):
    the size validator ([get_tensor_size], [get_io_tensor_sizes],
    [check_input_tensors]), the two status macros ([TFNN_ASSERT],
    [RIE_IGNORE_ABORTED]) and [NeuronModel::compute] with its batch analysis,
    its request builder and its fill / steady / drain pipeline.

    Calls that leave the file (the OpKernelContext, the NeuronDevice, the
    tensor helpers, [NeuronModel::initialize] seen from [compute]) are logged
    as events; the status each of them returns is read from an oracle, so
    that every failure path of [compute] is a run of the model.

    [NeuronModel::initialize] itself is embedded in module [Init], with the
    members of the model passed in and out, and [LogLevelStrToInt] of
    [src/util/logging.cc] in module [logging]. *)

From stdpp Require Import base decidable option list list_numbers strings.
From Stdlib Require Import ZArith Lia.
From Stdlib Require Ascii DecimalString DecimalPos.
Import (notations) Stdlib.Strings.Ascii.
Import Stdlib.Strings.Ascii (ascii(..)).

Open Scope Z_scope.

(** ** Fixed-width integers *)

Definition int64_min : Z := - 2 ^ 63.
Definition int64_max : Z := 2 ^ 63 - 1.

(** [int64_t] arithmetic, two's complement wrap-around written out. *)
Definition wrap64 (z : Z) : Z := (z + 2 ^ 63) mod 2 ^ 64 - 2 ^ 63.
Definition add64 (a b : Z) : Z := wrap64 (a + b).
Definition sub64 (a b : Z) : Z := wrap64 (a - b).
Definition mul64 (a b : Z) : Z := wrap64 (a * b).
(** C++ [/] truncates towards zero. *)
Definition div64 (a b : Z) : Z := wrap64 (a ÷ b).

Definition in_int64 (z : Z) : Prop := int64_min <= z <= int64_max.

(** [size_t] product (64-bit unsigned). *)
Definition size_t_mul (a b : Z) : Z := (a * b) mod 2 ^ 64.
Definition to_size_t (a : Z) : Z := a mod 2 ^ 64.

(** magic number for uninitialized batch size *)
Definition UNINIT_BATCH_SIZE : Z := -8.

(** ** Status *)

Inductive Code : Type :=
| OK | CANCELLED | UNKNOWN | INVALID_ARGUMENT | DEADLINE_EXCEEDED | NOT_FOUND
| ALREADY_EXISTS | PERMISSION_DENIED | UNAUTHENTICATED | RESOURCE_EXHAUSTED
| FAILED_PRECONDITION | ABORTED | OUT_OF_RANGE | UNIMPLEMENTED | INTERNAL
| UNAVAILABLE | DATA_LOSS.

Global Instance Code_eq_dec : EqDecision Code.
Proof. solve_decision. Defined.

(** A status keeps its code and the leading literal of its message (the
    source appends names and sizes with StrCat). *)
Record Status : Type := mkStatus { code : Code; error_message : string }.

Global Instance Status_eq_dec : EqDecision Status.
Proof. solve_decision. Defined.

Definition Status_OK : Status := mkStatus OK "".
Definition ok (s : Status) : bool := bool_decide (code s = OK).

Module errors.
Definition FailedPrecondition (msg : string) : Status := mkStatus FAILED_PRECONDITION msg.
Definition InvalidArgument (msg : string) : Status := mkStatus INVALID_ARGUMENT msg.
Definition Internal (msg : string) : Status := mkStatus INTERNAL msg.
End errors.

(** ** Outcomes

    What a piece of the code can do: fall through with a value, return a
    non-OK status to the caller, or leave defined behaviour (division by
    zero, an access outside a vector, a null pointer followed, a vector of
    negative length, a CHECK of TensorShape). *)
Inductive Outcome (A : Type) : Type :=
| Ret (a : A)
| Fail (s : Status)
| Undefined.
Arguments Ret {A} a.
Arguments Fail {A} s.
Arguments Undefined {A}.

Definition obind {A B} (m : Outcome A) (f : A -> Outcome B) : Outcome B :=
  match m with
  | Ret a => f a
  | Fail s => Fail s
  | Undefined => Undefined
  end.

Definition is_Ret {A} (r : Outcome A) : Prop := exists a, r = Ret a.

(** ** Tensors and the static metadata *)

Definition TensorShape : Type := list Z.

Definition num_elements (s : TensorShape) : Z := foldr Z.mul 1 s.

(** [TensorShape(shape_proto)], the constructor of the framework: it adds the
    dimensions of the proto one by one and CHECKs each of them.  The size is
    not negative, there is room for one more dimension and the number of
    elements stays within [int64]; a CHECK that fails ends the process. *)
Definition MaxDimensions : nat := 254.

Fixpoint AddDims (ndims : nat) (num_elements : Z) (dims : list Z) : bool :=
  match dims with
  | [] => true
  | size :: dims' =>
      bool_decide (0 <= size)
      && bool_decide (ndims < MaxDimensions)%nat
      && bool_decide (num_elements * size <= int64_max)
      && AddDims (S ndims) (num_elements * size) dims'
  end.

Definition TensorShape_of (shape_proto : list Z) : Outcome TensorShape :=
  if AddDims 0 1 shape_proto then Ret shape_proto else Undefined.

(** [shape.set_dim(0, d)] *)
Definition set_dim0 (d : Z) (s : TensorShape) : TensorShape :=
  match s with
  | [] => []
  | _ :: rest => d :: rest
  end.

(** Whose memory a tensor reads or writes. *)
Inductive Buffer : Type :=
| buf_input (idx : nat)                 (* the caller's idx-th input tensor *)
| buf_output (idx : nat)                (* handed out by ctx->allocate_output(idx, ..) *)
| buf_temp (idx : nat)                  (* handed out by ctx->allocate_temp *)
| buf_pad (batch_idx : Z) (idx : nat).  (* Tensor(dtype, ps_shape), line 277 *)

Global Instance Buffer_eq_dec : EqDecision Buffer.
Proof. solve_decision. Defined.

(** What a tensor handed to a collaborator covers: its buffer, its first row
    and its shape. *)
Record Region : Type := mkRegion {
  region_buf : Buffer;
  region_row0 : Z;
  region_shape : TensorShape
}.

Global Instance Region_eq_dec : EqDecision Region.
Proof. solve_decision. Defined.

(** ** Collaborator calls

    A runtime I/O handle is named after the request it was made for. *)
Inductive IO : Type :=
| io_profile                (* the extra up-front inference of the profiler *)
| io_batch (bidx : Z)       (* scoped_io_queue entry of sub-batch bidx *)
| io_single.                (* the single-shot path *)

Global Instance IO_eq_dec : EqDecision IO.
Proof. solve_decision. Defined.

Inductive Call : Type :=
| allocate_output (idx : nat) (dim0 : option Z)
| allocate_temp (idx : nat)
| tensor_memset (batch_idx : Z) (idx : nat) (row_start row_limit : Z)
| tensor_memcpy (batch_idx : Z) (idx : nat) (row_start row_limit : Z)
| initialize
| get_session
| setup_scoped_runtime_io (io : IO) (inputs outputs : list Region)
| infer_with_profiling (io : IO)
| infer (io : IO)
| finish (io : IO)
| acquire_mutex
| start_model_unsafe
| start_ping
| acquire_sem
| release_sem
| setup_infer (io : IO) (post_bidx : Z)
| post_infer (io : IO)
| setup_infer_post (io : IO) (post_bidx : Z)
| post_infer_post (io : IO)
| wait_infer (io : IO)
| wait_infer_post (io : IO)
| infer_wait (io : IO) (with_timestamps : bool).

Global Instance Call_eq_dec : EqDecision Call.
Proof. solve_decision. Defined.

(** How the call site treats the returned status. *)
Inductive Policy : Type :=
| by_TF_RETURN_IF_ERROR
| by_RIE_IGNORE_ABORTED
| no_status.                 (* void call *)

Global Instance Policy_eq_dec : EqDecision Policy.
Proof. solve_decision. Defined.

Record Event : Type := mkEvent {
  ev_call : Call;
  ev_policy : Policy;
  ev_status : Status
}.

Definition calls_of (t : list Event) : list Call := ev_call <$> t.

(** The collaborators: the status of the [n]-th call of the invocation. *)
Definition Oracle : Type := nat -> Call -> Status.

Definition shift (k : nat) (o : Oracle) : Oracle := fun n => o (k + n)%nat.

Definition all_ok : Oracle := fun _ _ => Status_OK.

(** ** The monad of [compute]: a log of calls and an outcome *)

Definition M (A : Type) : Type := Oracle -> list Event * Outcome A.

Definition ret {A} (a : A) : M A := fun _ => ([], Ret a).
Definition undefined {A} : M A := fun _ => ([], Undefined).

Definition bind {A B} (m : M A) (f : A -> M B) : M B := fun o =>
  match m o with
  | (t1, Ret a) =>
      let '(t2, r) := f a (shift (length t1) o) in (t1 ++ t2, r)
  | (t1, Fail s) => (t1, Fail s)
  | (t1, Undefined) => (t1, Undefined)
  end.

Definition lift {A} (r : Outcome A) : M A := fun _ => ([], r).

Declare Scope m_scope.
Delimit Scope m_scope with M.
Notation "x <- m ;; k" := (bind m (fun x => k))
  (at level 100, m at next level, right associativity) : m_scope.
Notation "m ;; k" := (bind m (fun _ => k))
  (at level 100, right associativity) : m_scope.
Open Scope m_scope.

(** [TF_RETURN_IF_ERROR(call)] *)
Definition TF_RETURN_IF_ERROR (c : Call) : M unit := fun o =>
  let status := o 0%nat c in
  ([mkEvent c by_TF_RETURN_IF_ERROR status],
   if ok status then Ret tt else Fail status).

(** [RIE_IGNORE_ABORTED(call)], lines 28-34. *)
Definition RIE_IGNORE_ABORTED (c : Call) : M unit := fun o =>
  let status := o 0%nat c in
  ([mkEvent c by_RIE_IGNORE_ABORTED status],
   if bool_decide (code status <> ABORTED)
   then (if ok status then Ret tt else Fail status)
   else Ret tt).

(** A call that returns no status. *)
Definition call_void (c : Call) : M unit := fun _ =>
  ([mkEvent c no_status Status_OK], Ret tt).

(** [TFNN_ASSERT(cond, error)], lines 21-25. *)
Definition TFNN_ASSERT (cond : bool) (error : Status) : Outcome unit :=
  if cond then Ret tt else Fail error.

(** [for (i = ...; ...; ++i) body], the loop variable ranging over [l],
    the loop-carried locals in [st]. *)
Fixpoint for_each {I St} (l : list I) (body : I -> St -> M St) (st : St) : M St :=
  match l with
  | [] => ret st
  | i :: l' => st' <- body i st ;; for_each l' body st'
  end.

Fixpoint ofor_each {I St} (l : list I) (body : I -> St -> Outcome St) (st : St)
  : Outcome St :=
  match l with
  | [] => Ret st
  | i :: l' => obind (body i st) (ofor_each l' body)
  end.

Definition trace {A} (m : M A) (o : Oracle) : list Call := calls_of (m o).1.
Definition outcome {A} (m : M A) (o : Oracle) : Outcome A := (m o).2.

Section Model.

(** [DataType] and [DataTypeSize] belong to the framework. *)
Context {DataType : Type}.
Variable DataTypeSize : DataType -> Z.

Record Tensor : Type := mkTensor {
  dtype : DataType;
  shape : TensorShape;
  buf : Buffer;
  row0 : Z              (* first row of the buffer this tensor covers *)
}.

(** [t.Slice(dim0_start, dim0_limit)]: same buffer, no copy. *)
Definition Slice (t : Tensor) (dim0_start dim0_limit : Z) : Tensor :=
  mkTensor (dtype t) (set_dim0 (dim0_limit - dim0_start) (shape t))
           (buf t) (row0 t + dim0_start).

Definition region_of (t : Tensor) : Region :=
  mkRegion (buf t) (row0 t) (shape t).

(** [t.tensor_data().size()] *)
Definition tensor_data_size (t : Tensor) : Z :=
  size_t_mul (to_size_t (DataTypeSize (dtype t))) (to_size_t (num_elements (shape t))).

(** The attributes of the node that [compute] reads. *)
Record NodeDef : Type := mkNodeDef {
  input_names : list string;
  input_dtypes : list DataType;
  input_shapes : list TensorShape;
  output_names : list string;
  output_dtypes : list DataType;
  output_shapes : list TensorShape;
  input_batch_axis : list Z;
  output_batch_axis : list Z
}.

(** The members of the model that [compute] reads once [initialize] has
    returned. *)
Record NeuronModel : Type := mkNeuronModel {
  neuron_device_ : bool;        (* false: nullptr, no device was assigned *)
  max_num_infers_ : Z;
  infer_sem_ : bool;            (* false: null, NEURON_UNLIMITED_THREADS *)
  profile_enabled_ : bool
}.

(** ** Tensor Size Validator *)

(** Lines 43-47.  The shape is built from the proto first. *)
Definition get_tensor_size (dype : DataType) (shape_proto : list Z) : Outcome Z :=
  let dtype_size := to_size_t (DataTypeSize dype) in
  obind (TensorShape_of shape_proto) (fun shape =>
  let num_elements := to_size_t (num_elements shape) in
  Ret (size_t_mul dtype_size num_elements)).

(** One of the two loops of lines 73-86, over idx < type_size(), which the
    checks of lines 59 and 66 made the common length of the dtype and shape
    lists. *)
Definition tensor_sizes (dtypes : list DataType) (shapes : list TensorShape)
  : Outcome (list Z) :=
  ofor_each (zip dtypes shapes)
    (fun p sizes =>
       obind (get_tensor_size p.1 p.2) (fun tensor_size =>
       Ret (sizes ++ [tensor_size])))
    [].

(** [get_io_tensor_sizes], lines 49-88.  Each of the first two arguments
    tells whether the caller passes a vector ([false]: nullptr); the vectors
    are returned, empty where none was passed. *)
Definition get_io_tensor_sizes (input_tensor_sizes output_tensor_sizes : bool)
    (node_def : NodeDef) : Outcome (list Z * list Z) :=
  if bool_decide (length (input_names node_def) <> length (input_dtypes node_def))
     || bool_decide (length (input_names node_def) <> length (input_shapes node_def))
  then Fail (errors.FailedPrecondition "incorrect number of inputs: input_names size ")
  else
  if bool_decide (length (output_names node_def) <> length (output_dtypes node_def))
     || bool_decide (length (output_names node_def) <> length (output_shapes node_def))
  then Fail (errors.FailedPrecondition "incorrect number of outputs: output_names size ")
  else
  obind (if input_tensor_sizes
         then tensor_sizes (input_dtypes node_def) (input_shapes node_def)
         else Ret [])
  (fun input_tensor_sizes =>
  obind (if output_tensor_sizes
         then tensor_sizes (output_dtypes node_def) (output_shapes node_def)
         else Ret [])
  (fun output_tensor_sizes =>
  Ret (input_tensor_sizes, output_tensor_sizes))).

(** [check_input_tensors], lines 90-109. *)
Definition check_input_tensors (input_tensors : list Tensor) (node_def : NodeDef)
  : Outcome unit :=
  obind (get_io_tensor_sizes true false node_def) (fun sizes =>
  let input_tensor_sizes := sizes.1 in
  if bool_decide (length input_tensors <> length (input_names node_def))
  then Fail (errors.Internal "incorrect number of input tensors, input_tensors size ")
  else
  ofor_each (zip input_tensors input_tensor_sizes)
    (fun p _ =>
       let tensor_data_size := tensor_data_size p.1 in
       if bool_decide (tensor_data_size <> p.2)
       then Fail (errors.Internal "incorrect input tensor size ")
       else Ret tt)
    tt).

(** ** Batch Planner: the batch analysis of [compute], lines 173-247 *)

Record BatchInfo : Type := mkBatchInfo {
  batch_size : Z;
  k_batch_size : Z;
  is_batch_input_tensors : list bool;
  is_batch_output_tensors : list bool;
  use_dynamic_batch_size : bool
}.

(** Lines 173-177. *)
Definition init_batch_info (num_inputs num_outputs : nat) : BatchInfo :=
  mkBatchInfo UNINIT_BATCH_SIZE UNINIT_BATCH_SIZE
              (replicate num_inputs false) (replicate num_outputs false) false.

(** Lines 183-188. *)
Definition enable_dynamic_batch_size (node_def : NodeDef) : bool :=
  existsb (fun axis => bool_decide (-1 <> axis)) (input_batch_axis node_def).

(** One turn of the loop over the inputs, lines 192-227. *)
Definition analyse_input (node_def : NodeDef) (idx : nat) (tptr : Tensor)
    (bi : BatchInfo) : Outcome BatchInfo :=
  let shape := shape tptr in
  let k_shape := input_shapes node_def !!! idx in
  if bool_decide (0 = input_batch_axis node_def !!! idx) then
    obind (TFNN_ASSERT (bool_decide (0 < length shape)%nat)
             (errors.InvalidArgument "no batch-dimension found on input tensor "))
    (fun _ =>
    obind
      (if bool_decide (UNINIT_BATCH_SIZE = batch_size bi) then
         match k_shape with
         | [] => Undefined               (* k_shape.dim_size(0) of a scalar *)
         | kd :: _ =>
             let batch_size := hd 0 shape in
             let k_batch_size := kd in
             obind (TFNN_ASSERT (bool_decide (batch_size > 0))
                      (errors.Internal
                         "incorrect internal batch size inferred from input tensor "))
             (fun _ => Ret (batch_size, k_batch_size))
         end
       else
         obind (TFNN_ASSERT (bool_decide (batch_size bi = hd 0 shape))
                  (errors.InvalidArgument "incorrect batch size found on input tensor "))
         (fun _ => Ret (batch_size bi, k_batch_size bi)))
    (fun bk =>
    let '(batch_size, k_batch_size) := bk in
    match k_shape with
    | [] => Undefined                    (* k_shape.RemoveDim(0) of a scalar *)
    | _ :: k_shape =>
        let shape := tl shape in
        let is_batch_tensor := bool_decide (batch_size <> k_batch_size) in
        let use_dynamic_batch_size := is_batch_tensor in
        obind (TFNN_ASSERT (bool_decide (shape = k_shape))
                 (errors.InvalidArgument "incorrect shape found on input tensor "))
        (fun _ =>
        Ret (mkBatchInfo batch_size k_batch_size
               (<[idx := is_batch_tensor]> (is_batch_input_tensors bi))
               (is_batch_output_tensors bi)
               use_dynamic_batch_size))
    end))
  else
    let is_batch_tensor := false in
    obind (TFNN_ASSERT (bool_decide (shape = k_shape))
             (errors.InvalidArgument "incorrect shape found on input tensor "))
    (fun _ =>
    Ret (mkBatchInfo (batch_size bi) (k_batch_size bi)
           (<[idx := is_batch_tensor]> (is_batch_input_tensors bi))
           (is_batch_output_tensors bi)
           (use_dynamic_batch_size bi))).

(** One turn of the loop over the outputs, lines 228-246.  The flag vector
    has [ctx->num_outputs()] slots and the loop runs over the output names:
    a write past the end is outside defined behaviour. *)
Definition analyse_output (node_def : NodeDef) (idx : nat) (bi : BatchInfo)
  : Outcome BatchInfo :=
  obind
    (if bool_decide (0 = output_batch_axis node_def !!! idx) then
       let k_shape := output_shapes node_def !!! idx in
       obind (TFNN_ASSERT (bool_decide (0 < length k_shape)%nat)
                (errors.InvalidArgument "no batch-dimension found on output tensor "))
       (fun _ =>
       obind (TFNN_ASSERT (bool_decide (k_batch_size bi = hd 0 k_shape))
                (errors.InvalidArgument "incorrect batch size found on output tensor "))
       (fun _ => Ret (bool_decide (batch_size bi <> hd 0 k_shape))))
     else Ret false)
  (fun is_batch_tensor =>
  if bool_decide (idx < length (is_batch_output_tensors bi))%nat then
    Ret (mkBatchInfo (batch_size bi) (k_batch_size bi)
           (is_batch_input_tensors bi)
           (<[idx := is_batch_tensor]> (is_batch_output_tensors bi))
           (use_dynamic_batch_size bi))
  else Undefined).

(** Lines 173-247. *)
Definition batch_analysis (num_outputs : nat) (node_def : NodeDef)
    (input_tensors : list Tensor) : Outcome BatchInfo :=
  let bi := init_batch_info (length input_tensors) num_outputs in
  if enable_dynamic_batch_size node_def
     && bool_decide (length (input_names node_def) = length (input_batch_axis node_def))
     && bool_decide (length (output_names node_def) = length (output_batch_axis node_def))
  then
    obind (ofor_each (zip (seq 0 (length input_tensors)) input_tensors)
             (fun p => analyse_input node_def p.1 p.2) bi)
    (fun bi =>
    ofor_each (seq 0 (length (output_names node_def))) (analyse_output node_def) bi)
  else Ret bi.

(** ** Batch plan arithmetic, lines 255 and 267 *)

Definition pad_batch_size_of (batch_size k_batch_size : Z) : Z :=
  mul64 (add64 (div64 (sub64 batch_size 1) k_batch_size) 1) k_batch_size.

Definition num_batches_of (batch_size k_batch_size : Z) : Z :=
  div64 (pad_batch_size_of batch_size k_batch_size) k_batch_size.

(** Lines 300-301. *)
Definition window_size_of (max_num_infers_ num_batches : Z) : Z :=
  let window_size := if bool_decide (max_num_infers_ > 1) then max_num_infers_ else 1 in
  Z.min window_size num_batches.

(** ** Output allocation, lines 256-265 (dynamic) and 473-477 (single shot)

    The loops run over idx < ctx->num_outputs(), the common length of the
    output lists once the checks of lines 66 and 248 have passed. *)
Definition output_dim0 (flags : option (list bool * Z)) (idx : nat) : option Z :=
  match flags with
  | Some (is_batch_output_tensors, batch_size) =>
      if default false (is_batch_output_tensors !! idx) then Some batch_size else None
  | None => None
  end.

Definition allocated_output (flags : option (list bool * Z))
    (p : nat * (DataType * TensorShape)) : Tensor :=
  let '(idx, (dt, shape)) := p in
  let shape :=
    match output_dim0 flags idx with
    | Some batch_size => set_dim0 batch_size shape
    | None => shape
    end in
  mkTensor dt shape (buf_output idx) 0.

Definition allocate_outputs (flags : option (list bool * Z)) (num_outputs : nat)
    (node_def : NodeDef) : M (list Tensor) :=
  for_each
    (zip (seq 0 num_outputs) (zip (output_dtypes node_def) (output_shapes node_def)))
    (fun p batch_output_tensors =>
       TF_RETURN_IF_ERROR (allocate_output p.1 (output_dim0 flags p.1)) ;;
       ret (batch_output_tensors ++ [allocated_output flags p]))
    [].

(** ** Request Builder *)

(** The input of sub-batch [batch_idx] for one input tensor, lines 273-293.
    [None] stands for the default-constructed placeholder of line 292. *)
Definition build_input (batch_size k_batch_size pad_batch_size num_batches : Z)
    (batch_idx : Z) (idx : nat) (input : Tensor) (is_batch : bool)
  : M (option Tensor) :=
  let dim0_start := mul64 batch_idx k_batch_size in
  let dim0_limit := add64 (mul64 batch_idx k_batch_size) k_batch_size in
  if is_batch then
    if bool_decide (batch_idx = sub64 num_batches 1) then
      let ps_shape := set_dim0 k_batch_size (shape input) in
      let pad_end_slice := mkTensor (dtype input) ps_shape (buf_pad batch_idx idx) 0 in
      TF_RETURN_IF_ERROR
        (tensor_memset batch_idx idx
           (sub64 k_batch_size (sub64 pad_batch_size batch_size)) k_batch_size) ;;
      TF_RETURN_IF_ERROR (tensor_memcpy batch_idx idx dim0_start batch_size) ;;
      ret (Some pad_end_slice)
    else
      ret (Some (Slice input dim0_start dim0_limit))
  else
    ret None.

(** Lines 268-295.  The vector of line 268 is constructed with [num_batches]
    elements: a negative count is refused by the constructor, which throws. *)
Definition build_inputs (batch_size k_batch_size pad_batch_size num_batches : Z)
    (input_tensors : list Tensor) (is_batch_input_tensors : list bool)
  : M (list (list (option Tensor))) :=
  if bool_decide (num_batches < 0) then undefined else
  for_each (seqZ 0 num_batches)
    (fun batch_idx batches_neuron_input_tensors =>
       batch <- for_each
         (zip (seq 0 (length input_tensors)) (zip input_tensors is_batch_input_tensors))
         (fun p batch =>
            let '(idx, (input, is_batch)) := p in
            t <- build_input batch_size k_batch_size pad_batch_size num_batches
                   batch_idx idx input is_batch ;;
            ret (batch ++ [t]))
         [] ;;
       ret (batches_neuron_input_tensors ++ [batch]))
    [].

(** [sliced_inputs], lines 305-309, 345-349 and 398-402.  A placeholder is
    never selected: its flag is false. *)
Definition sliced_inputs_of (is_batch_input_tensors : list bool)
    (batch : list (option Tensor)) (input_tensors : list Tensor) : list Tensor :=
  zip_with (fun (fi : bool * Tensor) (sub : option Tensor) =>
              if fi.1 then default fi.2 sub else fi.2)
           (zip is_batch_input_tensors input_tensors) batch.

(** The destination of sub-batch [post_bidx] in one output, lines 353-363 and
    406-416. *)
Definition output_slice (batch_size k_batch_size post_bidx : Z)
    (batch_output_tensor : Tensor) (is_batch : bool) : option Tensor :=
  let dim0_start := mul64 post_bidx k_batch_size in
  let dim0_limit := add64 (mul64 post_bidx k_batch_size) k_batch_size in
  if is_batch
  then Some (Slice batch_output_tensor dim0_start (Z.min dim0_limit batch_size))
  else None.

Definition sliced_outputs_of (batch_size k_batch_size post_bidx : Z)
    (batch_output_tensors : list Tensor) (is_batch_output_tensors : list bool)
  : list (option Tensor) :=
  zip_with (output_slice batch_size k_batch_size post_bidx)
           batch_output_tensors is_batch_output_tensors.

(** [output_tensors], lines 364-368 and 417-421. *)
Definition output_tensors_of (batch_output_tensors : list Tensor)
    (sliced : list (option Tensor)) : list Tensor :=
  zip_with (fun whole (s : option Tensor) => default whole s) batch_output_tensors sliced.

(** [session_alive = neuron_device_->get_session()], lines 298 and 479.  An
    ABORTED status of [initialize] is ignored on the line before, also when it
    comes from apply_for_device (lines 129-134) and no device was assigned. *)
Definition session_alive (model : NeuronModel) : M unit :=
  if neuron_device_ model then call_void get_session else undefined.

(** ** Windowed Pipeline Scheduler *)

(** The locals of [compute] that the pipeline loops update. *)
Record Pipeline : Type := mkPipeline {
  scoped_io_queue : list IO;
  need_wait_infer_post : list IO;
  batches_sliced_outputs : list (list (option Tensor))
}.

(** What the dynamic path has computed when the pipeline starts. *)
Record Plan : Type := mkPlan {
  plan_info : BatchInfo;
  plan_num_batches : Z;
  plan_window_size : Z;
  plan_inputs : list (list (option Tensor));   (* batches_neuron_input_tensors *)
  plan_outputs : list Tensor                   (* batch_output_tensors *)
}.

Section Pipeline.

Variable model : NeuronModel.
Variable node_def : NodeDef.
Variable input_tensors : list Tensor.
Variable plan : Plan.

Let bi := plan_info plan.
Let num_batches := plan_num_batches plan.
Let window_size := plan_window_size plan.

(** Line 336. *)
Definition first_need_wait_infer_post_bidx : Z := sub64 num_batches window_size.

(** The part the two loops share: inputs, outputs, a new queue entry and its
    runtime I/O (lines 344-372 and 397-425). *)
Definition prepare_request (post_bidx : Z) (st : Pipeline) : M Pipeline :=
  let sliced_inputs :=
    sliced_inputs_of (is_batch_input_tensors bi)
      (plan_inputs plan !!! Z.to_nat post_bidx) input_tensors in
  lift (check_input_tensors sliced_inputs node_def) ;;
  let sliced :=
    sliced_outputs_of (batch_size bi) (k_batch_size bi) post_bidx
      (plan_outputs plan) (is_batch_output_tensors bi) in
  let output_tensors := output_tensors_of (plan_outputs plan) sliced in
  let st := mkPipeline (scoped_io_queue st ++ [io_batch post_bidx])
                       (need_wait_infer_post st)
                       (<[Z.to_nat post_bidx := sliced]> (batches_sliced_outputs st)) in
  match last (scoped_io_queue st) with
  | None => undefined
  | Some back =>
      RIE_IGNORE_ABORTED
        (setup_scoped_runtime_io back (region_of <$> sliced_inputs)
           (region_of <$> output_tensors)) ;;
      ret st
  end.

Definition push_need_wait (runtime_io : IO) (st : Pipeline) : Pipeline :=
  mkPipeline (scoped_io_queue st) (need_wait_infer_post st ++ [runtime_io])
             (batches_sliced_outputs st).

Definition pop_scoped_io (st : Pipeline) : Pipeline :=
  mkPipeline (tl (scoped_io_queue st)) (need_wait_infer_post st)
             (batches_sliced_outputs st).

(** post ninfer ones: one turn of the loop of lines 343-393. *)
Definition fill_body (post_bidx : Z) (st : Pipeline) : M Pipeline :=
  st <- prepare_request post_bidx st ;;
  (if infer_sem_ model then TF_RETURN_IF_ERROR acquire_sem else ret tt) ;;
  match last (scoped_io_queue st) with
  | None => undefined
  | Some runtime_io =>
      if bool_decide (post_bidx >= first_need_wait_infer_post_bidx) then
        TF_RETURN_IF_ERROR (setup_infer_post runtime_io post_bidx) ;;
        TF_RETURN_IF_ERROR (post_infer_post runtime_io) ;;
        ret (push_need_wait runtime_io st)
      else
        TF_RETURN_IF_ERROR (setup_infer runtime_io post_bidx) ;;
        TF_RETURN_IF_ERROR (post_infer runtime_io) ;;
        ret st
  end.

(** wait one and post one: one turn of the loop of lines 396-446. *)
Definition steady_body (post_bidx : Z) (st : Pipeline) : M Pipeline :=
  st <- prepare_request post_bidx st ;;
  match last (scoped_io_queue st), head (scoped_io_queue st) with
  | Some runtime_io_back, Some runtime_io_front =>
      (if bool_decide (post_bidx >= first_need_wait_infer_post_bidx)
       then TF_RETURN_IF_ERROR (setup_infer_post runtime_io_back post_bidx)
       else TF_RETURN_IF_ERROR (setup_infer runtime_io_back post_bidx)) ;;
      (* wait one *)
      TF_RETURN_IF_ERROR (wait_infer runtime_io_front) ;;
      (* post next one *)
      st <- (if bool_decide (post_bidx >= first_need_wait_infer_post_bidx)
             then TF_RETURN_IF_ERROR (post_infer_post runtime_io_back) ;;
                  ret (push_need_wait runtime_io_back st)
             else TF_RETURN_IF_ERROR (post_infer runtime_io_back) ;;
                  ret st) ;;
      RIE_IGNORE_ABORTED (finish runtime_io_front) ;;
      ret (pop_scoped_io st)
  | _, _ => undefined
  end.

(** Lines 451-455. *)
Fixpoint wait_posts (n : nat) (need_wait : list IO) : M unit :=
  match n with
  | O => ret tt
  | S n' =>
      match need_wait with
      | [] => undefined                  (* front() of an empty queue *)
      | runtime_io_front :: rest =>
          TF_RETURN_IF_ERROR (wait_infer_post runtime_io_front) ;;
          wait_posts n' rest
      end
  end.

(** The two posting loops, lines 343-446. *)
Definition post_requests (st : Pipeline) : M Pipeline :=
  st <- for_each (seqZ 0 window_size) fill_body st ;;
  for_each (seqZ window_size (num_batches - window_size)) steady_body st.

(** The block that holds the device lock, lines 333-456. *)
Definition locked_section (batches_sliced_outputs : list (list (option Tensor)))
  : M Pipeline :=
  let st := mkPipeline [] [] batches_sliced_outputs in
  call_void acquire_mutex ;;
  RIE_IGNORE_ABORTED start_model_unsafe ;;
  RIE_IGNORE_ABORTED start_ping ;;
  st <- post_requests st ;;
  (* ensure all infer_post calls are queued up by RT before releasing eg lock *)
  lift (TFNN_ASSERT (bool_decide (Z.of_nat (length (need_wait_infer_post st)) = window_size))
          (errors.Internal "incorrect queue length -- race condition likely")) ;;
  wait_posts (Z.to_nat window_size) (need_wait_infer_post st) ;;
  ret st.

(** wait for remaining ones in the queue, lines 459-470. *)
Fixpoint drain (wait_bidxs : list Z) (queue : list IO) : M unit :=
  match wait_bidxs with
  | [] => ret tt
  | wait_bidx :: rest =>
      match queue with
      | [] => ret tt                     (* break *)
      | runtime_io_front :: queue' =>
          let wait_timestamps := bool_decide (window_size - 1 = wait_bidx) in
          TF_RETURN_IF_ERROR (infer_wait runtime_io_front wait_timestamps) ;;
          TF_RETURN_IF_ERROR release_sem ;;
          RIE_IGNORE_ABORTED (finish runtime_io_front) ;;
          drain rest queue'
      end
  end.

(** What ctx->allocate_temp hands out for output [idx], lines 311-315. *)
Definition temp_output (p : nat * (DataType * TensorShape)) : Tensor :=
  mkTensor p.2.1 p.2.2 (buf_temp p.1) 0.

(** run an extra inference upfront if profiler is enabled, lines 304-327. *)
Definition profile_run : M unit :=
  let sliced_inputs :=
    sliced_inputs_of (is_batch_input_tensors bi) (plan_inputs plan !!! 0%nat)
      input_tensors in
  lift (check_input_tensors sliced_inputs node_def) ;;
  temp_outputs <-
    for_each
      (zip (seq 0 (length (output_dtypes node_def)))
           (zip (output_dtypes node_def) (output_shapes node_def)))
      (fun p temp_outputs =>
         TF_RETURN_IF_ERROR (allocate_temp p.1) ;;
         ret (temp_outputs ++ [temp_output p]))
      [] ;;
  RIE_IGNORE_ABORTED
    (setup_scoped_runtime_io io_profile (region_of <$> sliced_inputs)
       (region_of <$> temp_outputs)) ;;
  TF_RETURN_IF_ERROR (infer_with_profiling io_profile) ;;
  RIE_IGNORE_ABORTED (finish io_profile).

(** Lines 297-471, from [initialize] on. *)
Definition pipeline : M Pipeline :=
  RIE_IGNORE_ABORTED initialize ;;
  session_alive model ;;
  (if profile_enabled_ model then profile_run else ret tt) ;;
  st <- locked_section (replicate (Z.to_nat num_batches) []) ;;
  drain (seqZ 0 window_size) (scoped_io_queue st) ;;
  ret st.

End Pipeline.

(** The dynamic-batch branch, lines 254-471. *)
Definition dynamic_path (model : NeuronModel) (num_outputs : nat) (node_def : NodeDef)
    (input_tensors : list Tensor) (bi : BatchInfo) : M Pipeline :=
  let batch_size := batch_size bi in
  let k_batch_size := k_batch_size bi in
  (* a zero divisor; a negative one is refused by the TensorShape constructor *)
  if bool_decide (k_batch_size <= 0) then undefined else
  let pad_batch_size := pad_batch_size_of batch_size k_batch_size in
  batch_output_tensors <-
    allocate_outputs (Some (is_batch_output_tensors bi, batch_size)) num_outputs node_def ;;
  let num_batches := num_batches_of batch_size k_batch_size in
  batches_neuron_input_tensors <-
    build_inputs batch_size k_batch_size pad_batch_size num_batches
      input_tensors (is_batch_input_tensors bi) ;;
  let window_size := window_size_of (max_num_infers_ model) num_batches in
  pipeline model node_def input_tensors
    (mkPlan bi num_batches window_size batches_neuron_input_tensors batch_output_tensors).

(** The single-shot branch, lines 472-494. *)
Definition single_shot (model : NeuronModel) (num_outputs : nat) (node_def : NodeDef)
    (input_tensors : list Tensor) : M unit :=
  output_tensors <- allocate_outputs None num_outputs node_def ;;
  RIE_IGNORE_ABORTED initialize ;;
  session_alive model ;;
  lift (check_input_tensors input_tensors node_def) ;;
  RIE_IGNORE_ABORTED
    (setup_scoped_runtime_io io_single (region_of <$> input_tensors)
       (region_of <$> output_tensors)) ;;
  (if profile_enabled_ model
   then RIE_IGNORE_ABORTED (infer_with_profiling io_single)
   else RIE_IGNORE_ABORTED (infer io_single)) ;;
  RIE_IGNORE_ABORTED (finish io_single).

(** Lines 164-171: the checks that precede everything else.  Every shape of
    the metadata goes through the TensorShape constructor at line 171, before
    the places that build a shape from it again (lines 196, 231, 259, 314
    and 476). *)
Definition check_arguments (node_def : NodeDef) (input_tensors : list Tensor)
  : Outcome (list Z * list Z) :=
  obind (TFNN_ASSERT (bool_decide (length input_tensors = length (input_names node_def)))
           (errors.InvalidArgument "incorrect number of input tensors"))
  (fun _ => get_io_tensor_sizes true true node_def).

(** The branch taken at line 254. *)
Definition run_branch (model : NeuronModel) (num_outputs : nat) (node_def : NodeDef)
    (input_tensors : list Tensor) (bi : BatchInfo) : M unit :=
  if use_dynamic_batch_size bi
  then dynamic_path model num_outputs node_def input_tensors bi ;; ret tt
  else single_shot model num_outputs node_def input_tensors.

(** [NeuronModel::compute], lines 158-498. *)
Definition compute (model : NeuronModel) (num_outputs : nat) (node_def : NodeDef)
    (input_tensors : list Tensor) : M unit :=
  lift (check_arguments node_def input_tensors) ;;
  bi <- lift (batch_analysis num_outputs node_def input_tensors) ;;
  lift (TFNN_ASSERT (bool_decide (num_outputs = length (output_names node_def)))
          (errors.InvalidArgument "incorrect number of output tensors")) ;;
  run_branch model num_outputs node_def input_tensors bi.

End Model.

Arguments Tensor DataType : clear implicits.
Arguments NodeDef DataType : clear implicits.
Arguments Pipeline DataType : clear implicits.
Arguments Plan DataType : clear implicits.

(** ** The calls of a run that no collaborator cuts short

    [compute] never branches on what a collaborator answered, except to
    return: the calls of any run are a prefix of the lists below. *)

Section Scripts.

Context {DataType : Type}.
Variable model : NeuronModel.
Variable node_def : NodeDef DataType.
Variable input_tensors : list (Tensor DataType).
Variable plan : Plan DataType.

Let bi := plan_info plan.
Let n := plan_num_batches plan.
Let w := plan_window_size plan.
Let first := first_need_wait_infer_post_bidx plan.

(** The runtime I/O of request [b], with the tensors it is set up on. *)
Definition request_call (b : Z) : Call :=
  setup_scoped_runtime_io (io_batch b)
    (region_of
       <$> sliced_inputs_of (is_batch_input_tensors bi)
             (plan_inputs plan !!! Z.to_nat b) input_tensors)
    (region_of
       <$> output_tensors_of (plan_outputs plan)
             (sliced_outputs_of (batch_size bi) (k_batch_size bi) b
                (plan_outputs plan) (is_batch_output_tensors bi))).

Definition setup_call (b : Z) : Call :=
  if bool_decide (b >= first)
  then setup_infer_post (io_batch b) b else setup_infer (io_batch b) b.

Definition post_call (b : Z) : Call :=
  if bool_decide (b >= first)
  then post_infer_post (io_batch b) else post_infer (io_batch b).

Definition fill_calls (b : Z) : list Call :=
  [request_call b]
  ++ (if infer_sem_ model then [acquire_sem] else [])
  ++ [setup_call b; post_call b].

Definition steady_calls (b : Z) : list Call :=
  [request_call b; setup_call b;
   wait_infer (io_batch (b - w)); post_call b; finish (io_batch (b - w))].

Definition wait_posts_calls (need_wait : list IO) : list Call :=
  wait_infer_post <$> need_wait.

Fixpoint drain_calls (wait_bidxs : list Z) (queue : list IO) : list Call :=
  match wait_bidxs, queue with
  | wait_bidx :: rest, runtime_io_front :: queue' =>
      [infer_wait runtime_io_front (bool_decide (w - 1 = wait_bidx));
       release_sem; finish runtime_io_front] ++ drain_calls rest queue'
  | _, _ => []
  end.

Definition profile_calls : list Call :=
  ((fun p : nat * (DataType * TensorShape) => allocate_temp p.1)
     <$> zip (seq 0 (length (output_dtypes node_def)))
             (zip (output_dtypes node_def) (output_shapes node_def)))
  ++ [setup_scoped_runtime_io io_profile
        (region_of
           <$> sliced_inputs_of (is_batch_input_tensors bi)
                 (plan_inputs plan !!! 0%nat) input_tensors)
        (region_of
           <$> (temp_output
                  <$> zip (seq 0 (length (output_dtypes node_def)))
                          (zip (output_dtypes node_def) (output_shapes node_def))));
      infer_with_profiling io_profile; finish io_profile].

(** The locals of the pipeline once sub-batches [0 .. i-1] have been
    through their turn of a posting loop. *)
Definition state_at (i : Z) : Pipeline DataType :=
  mkPipeline
    (io_batch <$> seqZ (Z.max 0 (i - w)) (Z.min i w))
    (io_batch <$> seqZ first (i - first))
    (((fun b => sliced_outputs_of (batch_size bi) (k_batch_size bi) b
                  (plan_outputs plan) (is_batch_output_tensors bi))
        <$> seqZ 0 i)
     ++ replicate (Z.to_nat (n - i)) []).

Definition post_requests_calls : list Call :=
  flat_map fill_calls (seqZ 0 w) ++ flat_map steady_calls (seqZ w (n - w)).

Definition locked_calls : list Call :=
  [acquire_mutex; start_model_unsafe; start_ping]
  ++ post_requests_calls
  ++ wait_posts_calls (need_wait_infer_post (state_at n)).


Definition pipeline_calls : list Call :=
  [initialize; get_session]
  ++ (if profile_enabled_ model then profile_calls else [])
  ++ locked_calls
  ++ drain_calls (seqZ 0 w) (scoped_io_queue (state_at n)).

End Scripts.

Section DynamicScript.

Context {DataType : Type}.
Variable model : NeuronModel.
Variable num_outputs : nat.
Variable node_def : NodeDef DataType.
Variable input_tensors : list (Tensor DataType).

Definition alloc_calls (flags : option (list bool * Z)) : list Call :=
  (fun p : nat * (DataType * TensorShape) => allocate_output p.1 (output_dim0 flags p.1))
    <$> zip (seq 0 num_outputs) (zip (output_dtypes node_def) (output_shapes node_def)).

Definition alloc_value (flags : option (list bool * Z)) : list (Tensor DataType) :=
  allocated_output flags
    <$> zip (seq 0 num_outputs) (zip (output_dtypes node_def) (output_shapes node_def)).

Definition build_input_calls (batch_size k_batch_size pad_batch_size num_batches : Z)
    (batch_idx : Z) (idx : nat) (is_batch : bool) : list Call :=
  if is_batch && bool_decide (batch_idx = sub64 num_batches 1)
  then [tensor_memset batch_idx idx
          (sub64 k_batch_size (sub64 pad_batch_size batch_size)) k_batch_size;
        tensor_memcpy batch_idx idx (mul64 batch_idx k_batch_size) batch_size]
  else [].

Definition build_input_value (k_batch_size num_batches : Z)
    (batch_idx : Z) (idx : nat) (input : Tensor DataType) (is_batch : bool)
  : option (Tensor DataType) :=
  if is_batch then
    if bool_decide (batch_idx = sub64 num_batches 1)
    then Some (mkTensor (dtype input) (set_dim0 k_batch_size (shape input))
                 (buf_pad batch_idx idx) 0)
    else Some (Slice input (mul64 batch_idx k_batch_size)
                 (add64 (mul64 batch_idx k_batch_size) k_batch_size))
  else None.

Definition build_calls (batch_size k_batch_size pad_batch_size num_batches : Z)
    (flags : list bool) : list Call :=
  flat_map
    (fun batch_idx =>
       flat_map
         (fun p : nat * (Tensor DataType * bool) =>
            build_input_calls batch_size k_batch_size pad_batch_size num_batches
              batch_idx p.1 p.2.2)
         (zip (seq 0 (length input_tensors)) (zip input_tensors flags)))
    (seqZ 0 num_batches).

Definition build_value (k_batch_size num_batches : Z) (flags : list bool)
  : list (list (option (Tensor DataType))) :=
  (fun batch_idx =>
     (fun p : nat * (Tensor DataType * bool) =>
        build_input_value k_batch_size num_batches batch_idx p.1 p.2.1 p.2.2)
       <$> zip (seq 0 (length input_tensors)) (zip input_tensors flags))
    <$> seqZ 0 num_batches.

(** The plan [dynamic_path] hands to [pipeline]. *)
Definition dynamic_plan (bi : BatchInfo) : Plan DataType :=
  let num_batches := num_batches_of (batch_size bi) (k_batch_size bi) in
  mkPlan bi num_batches
    (window_size_of (max_num_infers_ model) num_batches)
    (build_value (k_batch_size bi) num_batches (is_batch_input_tensors bi))
    (alloc_value (Some (is_batch_output_tensors bi, batch_size bi))).

Definition dynamic_calls (bi : BatchInfo) : list Call :=
  alloc_calls (Some (is_batch_output_tensors bi, batch_size bi))
  ++ build_calls (batch_size bi) (k_batch_size bi)
       (pad_batch_size_of (batch_size bi) (k_batch_size bi))
       (num_batches_of (batch_size bi) (k_batch_size bi))
       (is_batch_input_tensors bi)
  ++ pipeline_calls model node_def input_tensors (dynamic_plan bi).

Definition single_shot_calls : list Call :=
  alloc_calls None
  ++ [initialize; get_session;
      setup_scoped_runtime_io io_single (region_of <$> input_tensors)
        (region_of <$> alloc_value None);
      if profile_enabled_ model then infer_with_profiling io_single else infer io_single;
      finish io_single].

End DynamicScript.

(** ** Vocabulary of the statements *)

(** [m] issues the calls [s], in order and up to where it stops, and when it
    falls through it has issued all of them and yields [v]. *)
Definition Follows {A} (m : M A) (s : list Call) (v : A) : Prop :=
  forall o : Oracle,
    calls_of (m o).1 `prefix_of` s /\
    (forall a, (m o).2 = Ret a -> calls_of (m o).1 = s /\ a = v).

(** No event of [m] is at a call site wrapped by [RIE_IGNORE_ABORTED]. *)
Definition NoIgnoreAborted {A} (m : M A) : Prop :=
  forall o : Oracle,
    Forall (fun e => ev_policy e <> by_RIE_IGNORE_ABORTED) (m o).1.

Definition ceil_div (a b : Z) : Z := - (- a / b).

(** The padded total fits [int64_t]: no arithmetic of the plan wraps. *)
Definition plan_fits (R H : Z) : Prop := ceil_div R H * H <= int64_max.

(** The rows of its buffer that a tensor covers. *)
Definition tensor_rows {DataType} (t : Tensor DataType) : list Z :=
  seqZ (row0 t) (hd 0 (shape t)).

Definition slice_rows {DataType} (t : option (Tensor DataType)) : list Z :=
  match t with
  | Some t => tensor_rows t
  | None => []
  end.

Definition count_calls (p : Call -> bool) (l : list Call) : nat :=
  length (List.filter p l).



(** [a] is issued, and later [b]. *)
Definition occurs_before (a b : Call) (l : list Call) : Prop :=
  exists l1 l2 l3, l = l1 ++ a :: l2 ++ b :: l3.

(** The calls [s] are issued one right after the other. *)
Definition segment_of (s l : list Call) : Prop :=
  exists pre suf, l = pre ++ s ++ suf.

Fixpoint occurs_beforeb (a b : Call) (l : list Call) : bool :=
  match l with
  | [] => false
  | x :: l' =>
      (bool_decide (x = a) && bool_decide (b ∈ l')) || occurs_beforeb a b l'
  end.

(** A collaborator that answers ABORTED to the call [c0] and OK to all
    others, and one that answers UNAVAILABLE to it. *)
Definition aborts_at (c0 : Call) : Oracle := fun _ c =>
  if bool_decide (c = c0) then mkStatus ABORTED "aborted" else Status_OK.

Definition unavailable_at (c0 : Call) : Oracle := fun _ c =>
  if bool_decide (c = c0) then mkStatus UNAVAILABLE "unavailable" else Status_OK.

(** A request is a call that hands a sub-batch to the device. *)
Definition is_post (c : Call) : bool :=
  match c with
  | post_infer _ | post_infer_post _ => true
  | _ => false
  end.


(** A flag is raised only when the runtime and the hardware batch size
    differ; before the first batched input has been seen, none is. *)
Definition flags_sound (bi : BatchInfo) : Prop :=
  Forall (fun f => f = true -> batch_size bi <> k_batch_size bi)
         (is_batch_input_tensors bi)
  /\ Forall (fun f => f = true -> batch_size bi <> k_batch_size bi)
            (is_batch_output_tensors bi)
  /\ (use_dynamic_batch_size bi = true -> batch_size bi <> k_batch_size bi)
  /\ (batch_size bi = UNINIT_BATCH_SIZE ->
      k_batch_size bi = UNINIT_BATCH_SIZE
      /\ Forall (fun f => f = false) (is_batch_input_tensors bi)
      /\ use_dynamic_batch_size bi = false).

(** Every event at a RIE_IGNORE_ABORTED call site comes after
    ctx->allocate_output has been called for each of the outputs. *)
Definition allocated_before (num_outputs : nat) (t : list Event) : Prop :=
  forall pre e suf,
    t = pre ++ e :: suf ->
    ev_policy e = by_RIE_IGNORE_ABORTED ->
    forall idx, (idx < num_outputs)%nat ->
      exists dim0, allocate_output idx dim0 ∈ calls_of pre.

(** The lists of the static metadata disagree in length, lines 59 and 66. *)
Definition metadata_mismatch {DataType} (node_def : NodeDef DataType) : Prop :=
  length (input_names node_def) <> length (input_dtypes node_def)
  \/ length (input_names node_def) <> length (input_shapes node_def)
  \/ length (output_names node_def) <> length (output_dtypes node_def)
  \/ length (output_names node_def) <> length (output_shapes node_def).

(** ** A small model to run: one float input [R x 3], compiled for 4 rows *)

Inductive SampleType : Type := DT_FLOAT | DT_HALF.

Definition SampleTypeSize (t : SampleType) : Z :=
  match t with DT_FLOAT => 4 | DT_HALF => 2 end.

Definition sample_node_def : NodeDef SampleType :=
  mkNodeDef ["x"] [DT_FLOAT] [[4; 3]] ["y"] [DT_FLOAT] [[4; 2]] [0] [0].

Definition sample_inputs (R : Z) : list (Tensor SampleType) :=
  [mkTensor DT_FLOAT [R; 3] (buf_input 0) 0].

Definition sample_model (max_num_infers : Z) : NeuronModel :=
  mkNeuronModel true max_num_infers true false.


Definition sample_info (R : Z) : BatchInfo :=
  mkBatchInfo R 4 [true] [true] true.

(** Metadata with a name and no type for its input. *)
Definition mismatched_node_def : NodeDef SampleType :=
  mkNodeDef ["x"] [] [[4; 3]] ["y"] [DT_FLOAT] [[4; 2]] [0] [0].

(** Metadata whose batch-axis list is longer than its name list. *)
Definition misaligned_node_def : NodeDef SampleType :=
  mkNodeDef ["x"] [DT_FLOAT] [[4; 3]] ["y"] [DT_FLOAT] [[4; 2]] [0; 0] [0].

Definition sample_plan (R max_num_infers : Z) : Plan SampleType :=
  dynamic_plan (sample_model max_num_infers) 1 sample_node_def (sample_inputs R)
    (sample_info R).

(** The dynamic path on the sample, no collaborator failing. *)
Definition sample_run (R max_num_infers : Z) : list Event * Outcome (Pipeline SampleType) :=
  dynamic_path SampleTypeSize (sample_model max_num_infers) 1 sample_node_def
    (sample_inputs R) (sample_info R) all_ok.

Definition returned {A} (d : A) (r : Outcome A) : A :=
  match r with
  | Ret a => a
  | _ => d
  end.

Definition sample_state (R max_num_infers : Z) : Pipeline SampleType :=
  returned (mkPipeline [] [] []) (sample_run R max_num_infers).2.

(** ** Vocabulary of the further properties *)

(** The bytes of a tensor of the given type and shape. *)
Definition byte_size {DataType} (DataTypeSize : DataType -> Z) (dt : DataType)
    (shape : TensorShape) : Z :=
  size_t_mul (to_size_t (DataTypeSize dt)) (to_size_t (num_elements shape)).

(** The byte sizes that the metadata declares for the inputs, lines 73-79. *)
Definition declared_input_sizes {DataType} (DataTypeSize : DataType -> Z)
    (node_def : NodeDef DataType) : list Z :=
  zip_with (byte_size DataTypeSize) (input_dtypes node_def) (input_shapes node_def).

(** The TensorShape constructor takes the shape. *)
Definition shape_accepted (shape_proto : list Z) : Prop := AddDims 0 1 shape_proto = true.


(** The guard of line 189: the batch analysis runs. *)
Definition analysis_enabled {DataType} (node_def : NodeDef DataType) : bool :=
  enable_dynamic_batch_size node_def
  && bool_decide (length (input_names node_def) = length (input_batch_axis node_def))
  && bool_decide (length (output_names node_def) = length (output_batch_axis node_def)).

(** What the loop of lines 191-227 has checked of an input tensor, and the
    flag it has left for it. *)
Definition input_analysed {DataType} (bi : BatchInfo) (axis : Z) (k_shape : TensorShape)
    (flag : bool) (t : Tensor DataType) : Prop :=
  if bool_decide (0 = axis)
  then k_shape <> []
       /\ shape t = batch_size bi :: tl k_shape
       /\ flag = bool_decide (batch_size bi <> k_batch_size bi)
  else shape t = k_shape /\ flag = false.

(** The same for a declared output, lines 228-246. *)
Definition output_analysed (bi : BatchInfo) (axis : Z) (k_shape : TensorShape)
    (flag : bool) : Prop :=
  if bool_decide (0 = axis)
  then k_shape = k_batch_size bi :: tl k_shape
       /\ flag = bool_decide (batch_size bi <> k_batch_size bi)
  else flag = false.

(** [j0] is the first of the inputs before [k] whose batch axis is 0. *)
Definition first_batch_input {DataType} (node_def : NodeDef DataType) (k j0 : nat) : Prop :=
  (j0 < k)%nat
  /\ 0 = input_batch_axis node_def !!! j0
  /\ forall j, (j < j0)%nat -> 0 <> input_batch_axis node_def !!! j.

(** The locals of the analysis after [k] turns of the loop over the inputs. *)
Definition inputs_analysed {DataType} (num_outputs : nat) (node_def : NodeDef DataType)
    (input_tensors : list (Tensor DataType)) (k : nat) (bi : BatchInfo) : Prop :=
  length (is_batch_input_tensors bi) = length input_tensors
  /\ is_batch_output_tensors bi = replicate num_outputs false
  /\ (forall j t, (j < k)%nat -> input_tensors !! j = Some t ->
        exists flag, is_batch_input_tensors bi !! j = Some flag
                     /\ input_analysed bi (input_batch_axis node_def !!! j)
                          (input_shapes node_def !!! j) flag t)
  /\ ((batch_size bi = UNINIT_BATCH_SIZE
       /\ k_batch_size bi = UNINIT_BATCH_SIZE
       /\ use_dynamic_batch_size bi = false
       /\ forall j, (j < k)%nat -> 0 <> input_batch_axis node_def !!! j)
      \/ (batch_size bi > 0
          /\ use_dynamic_batch_size bi = bool_decide (batch_size bi <> k_batch_size bi)
          /\ exists j0, first_batch_input node_def k j0
                        /\ hd 0 (input_shapes node_def !!! j0) = k_batch_size bi)).

(** The locals after [k] turns of the loop over the outputs, which started
    from [bi1]. *)
Definition outputs_analysed {DataType} (num_outputs : nat) (node_def : NodeDef DataType)
    (bi1 : BatchInfo) (k : nat) (bi : BatchInfo) : Prop :=
  batch_size bi = batch_size bi1
  /\ k_batch_size bi = k_batch_size bi1
  /\ is_batch_input_tensors bi = is_batch_input_tensors bi1
  /\ use_dynamic_batch_size bi = use_dynamic_batch_size bi1
  /\ length (is_batch_output_tensors bi) = num_outputs
  /\ (k <= num_outputs)%nat
  /\ (forall j, (j < k)%nat ->
        exists flag, is_batch_output_tensors bi !! j = Some flag
                     /\ output_analysed bi1 (output_batch_axis node_def !!! j)
                          (output_shapes node_def !!! j) flag)
  /\ (forall j, (k <= j < num_outputs)%nat -> is_batch_output_tensors bi !! j = Some false).


(** ** A second sample: a batched and a fixed input, a batched and a fixed output *)

Definition wide_node_def : NodeDef SampleType :=
  mkNodeDef ["x"; "m"] [DT_FLOAT; DT_HALF] [[4; 3]; [5]]
            ["y"; "s"] [DT_FLOAT; DT_HALF] [[4; 2]; [7]]
            [0; -1] [0; -1].

Definition wide_inputs (R : Z) : list (Tensor SampleType) :=
  [mkTensor DT_FLOAT [R; 3] (buf_input 0) 0; mkTensor DT_HALF [5] (buf_input 1) 0].

Definition wide_info (R : Z) : BatchInfo :=
  mkBatchInfo R 4 [true; false] [true; false] true.


(** ** How a run ends *)

(** The call site lets the run go on with the status it got. *)
Definition passes (e : Event) : bool :=
  match ev_policy e with
  | by_TF_RETURN_IF_ERROR => ok (ev_status e)
  | by_RIE_IGNORE_ABORTED =>
      ok (ev_status e) || bool_decide (code (ev_status e) = ABORTED)
  | no_status => true
  end.

(** The log holds, for every call that returns a status, the status that the
    collaborators gave at that position. *)
Definition recorded (o : Oracle) (t : list Event) : Prop :=
  forall k e, t !! k = Some e -> ev_policy e <> no_status ->
              ev_status e = o k (ev_call e).

Section Propagation.

(** The statuses the code may build itself, and whether it may leave defined
    behaviour. *)
Variable own : Status -> Prop.
Variable ub : Prop.

Definition lift_ok {A} (r : Outcome A) : Prop :=
  match r with
  | Ret _ => True
  | Fail s => own s
  | Undefined => ub
  end.

(** Every call before the last was let through; a run that returns a status
    returns the one that its last call was refused with, unless the status is
    one of the code's own. *)
Definition stops_at_first_error {A} (o : Oracle) (run : list Event * Outcome A) : Prop :=
  recorded o run.1
  /\ match run.2 with
     | Ret _ => Forall (fun e => passes e = true) run.1
     | Fail s =>
         (exists t e, run.1 = t ++ [e]
                      /\ Forall (fun e => passes e = true) t
                      /\ passes e = false
                      /\ ev_status e = s)
         \/ (own s /\ Forall (fun e => passes e = true) run.1)
     | Undefined => ub
     end.

Definition Propagates {A} (m : M A) : Prop :=
  forall o : Oracle, stops_at_first_error o (m o).

End Propagation.

(** The statuses that [model.cc] builds, by their leading literal. *)
Definition compute_errors : list Status :=
  [errors.FailedPrecondition "incorrect number of inputs: input_names size ";
   errors.FailedPrecondition "incorrect number of outputs: output_names size ";
   errors.Internal "incorrect number of input tensors, input_tensors size ";
   errors.Internal "incorrect input tensor size ";
   errors.InvalidArgument "incorrect number of input tensors";
   errors.InvalidArgument "no batch-dimension found on input tensor ";
   errors.Internal "incorrect internal batch size inferred from input tensor ";
   errors.InvalidArgument "incorrect batch size found on input tensor ";
   errors.InvalidArgument "incorrect shape found on input tensor ";
   errors.InvalidArgument "no batch-dimension found on output tensor ";
   errors.InvalidArgument "incorrect batch size found on output tensor ";
   errors.InvalidArgument "incorrect number of output tensors";
   errors.Internal "incorrect queue length -- race condition likely"].

Definition own_error (s : Status) : Prop := s ∈ compute_errors.


(** The validator's verdict on the inputs of sub-batch [b]. *)
Definition check_sub_batch {DataType} (DataTypeSize : DataType -> Z)
    (node_def : NodeDef DataType) (input_tensors : list (Tensor DataType))
    (plan : Plan DataType) (b : Z) : Outcome unit :=
  check_input_tensors DataTypeSize
    (sliced_inputs_of (is_batch_input_tensors (plan_info plan))
       (plan_inputs plan !!! Z.to_nat b) input_tensors)
    node_def.


(** An input tensor that the validator will accept for every sub-batch: the
    element size of its type is the declared one, and its shape is the
    declared shape, up to the leading dimension when it is split. *)
Definition input_conforms {DataType} (DataTypeSize : DataType -> Z) (R H : Z)
    (t : Tensor DataType) (flag : bool) (dt : DataType) (k_shape : TensorShape) : Prop :=
  DataTypeSize (dtype t) = DataTypeSize dt
  /\ if flag
     then exists rest, k_shape = H :: rest /\ shape t = R :: rest
     else shape t = k_shape.


(** Every input declared with batch axis 0 is declared with the hardware
    batch size as its leading dimension. *)
Definition uniform_batch_dim {DataType} (node_def : NodeDef DataType) (H : Z) : Prop :=
  forall idx k_shape,
    input_batch_axis node_def !! idx = Some 0 ->
    input_shapes node_def !! idx = Some k_shape ->
    hd 0 k_shape = H.

(** The element size of every tensor's type is that of the declared type. *)
Definition dtype_sizes_agree {DataType} (DataTypeSize : DataType -> Z)
    (node_def : NodeDef DataType) (input_tensors : list (Tensor DataType)) : Prop :=
  Forall2 (fun t dt => DataTypeSize (dtype t) = DataTypeSize dt)
          input_tensors (input_dtypes node_def).


(** ** The order of the requests *)

(** The request a call sets up, posts, waits for or finishes. *)
Definition set_up (c : Call) : option IO :=
  match c with
  | setup_scoped_runtime_io io _ _ => Some io
  | _ => None
  end.

Definition posted (c : Call) : option IO :=
  match c with
  | post_infer io | post_infer_post io => Some io
  | _ => None
  end.

Definition waited (c : Call) : option IO :=
  match c with
  | wait_infer io | infer_wait io _ => Some io
  | _ => None
  end.

Definition finished (c : Call) : option IO :=
  match c with
  | finish io => Some io
  | _ => None
  end.

(** The requests of the dynamic path, in the order of their sub-batches,
    after the profiler's own when there is one. *)
Definition requests_in_order (model : NeuronModel) (n : Z) : list IO :=
  (if profile_enabled_ model then [io_profile] else []) ++ (io_batch <$> seqZ 0 n).


(** ** Requests in flight *)

Definition is_wait (c : Call) : bool :=
  match c with
  | wait_infer _ | infer_wait _ _ => true
  | _ => false
  end.

(** Neither a post nor a wait. *)
Definition idle (c : Call) : Prop := is_post c = false /\ is_wait c = false.

(** The number of requests posted and not yet waited for once the calls [l]
    have been issued, [d] of them being in flight before; [None] as soon as
    the number would leave [0 .. w]. *)
Fixpoint in_flight (w : Z) (l : list Call) (d : Z) : option Z :=
  match l with
  | [] => Some d
  | c :: l' =>
      if is_post c
      then (if bool_decide (d + 1 <= w) then in_flight w l' (d + 1) else None)
      else if is_wait c
      then (if bool_decide (0 <= d - 1) then in_flight w l' (d - 1) else None)
      else in_flight w l' d
  end.


(** The request and the timestamps flag of a wait of the drain loop, the
    request of a wait of the steady loop. *)
Definition drained (c : Call) : option (IO * bool) :=
  match c with
  | infer_wait io with_timestamps => Some (io, with_timestamps)
  | _ => None
  end.

Definition waited_in_loop (c : Call) : option IO :=
  match c with
  | wait_infer io => Some io
  | _ => None
  end.


(** ** What the batch analysis accepts *)

(** The flags the analysis leaves for a list of batch axes: an entry with
    axis 0 is flagged when the batch size differs from the hardware batch
    size. *)
Definition expected_flags (R H : Z) (axes : list Z) : list bool :=
  (fun axis => bool_decide (0 = axis) && bool_decide (R <> H)) <$> axes.

Definition expected_info {DataType} (num_outputs : nat) (node_def : NodeDef DataType)
    (R H : Z) : BatchInfo :=
  mkBatchInfo R H
    (expected_flags R H (input_batch_axis node_def))
    (expected_flags R H (output_batch_axis node_def)
     ++ replicate (num_outputs - length (output_names node_def)) false)
    (bool_decide (R <> H)).

(** The locals after [k] turns of the loop over [m] inputs, the first
    batched one being input [j0]. *)
Definition inputs_state {DataType} (num_outputs : nat) (node_def : NodeDef DataType)
    (R H : Z) (m j0 k : nat) : BatchInfo :=
  let seen := bool_decide (j0 < k)%nat in
  mkBatchInfo (if seen then R else UNINIT_BATCH_SIZE)
              (if seen then H else UNINIT_BATCH_SIZE)
              (take k (expected_flags R H (input_batch_axis node_def))
               ++ replicate (m - k) false)
              (replicate num_outputs false)
              (seen && bool_decide (R <> H)).

(** The locals after [k] turns of the loop over the outputs. *)
Definition outputs_state {DataType} (num_outputs : nat) (node_def : NodeDef DataType)
    (R H : Z) (k : nat) : BatchInfo :=
  mkBatchInfo R H
    (expected_flags R H (input_batch_axis node_def))
    (take k (expected_flags R H (output_batch_axis node_def))
     ++ replicate (num_outputs - k) false)
    (bool_decide (R <> H)).

(** The shape the analysis asks of an input tensor, and of a declared
    output. *)
Definition input_shape_ok {DataType} (R : Z) (axis : Z) (k_shape : TensorShape)
    (t : Tensor DataType) : Prop :=
  if bool_decide (0 = axis)
  then k_shape <> [] /\ shape t = R :: tl k_shape
  else shape t = k_shape.

Definition output_shape_ok (H : Z) (axis : Z) (k_shape : TensorShape) : Prop :=
  0 = axis -> k_shape = H :: tl k_shape.


(** The request of a post that the runtime is asked to queue, and of the
    wait for its being queued. *)
Definition posted_queued (c : Call) : option IO :=
  match c with
  | post_infer_post io => Some io
  | _ => None
  end.

Definition confirmed (c : Call) : option IO :=
  match c with
  | wait_infer_post io => Some io
  | _ => None
  end.

(** The calls of the dynamic path up to the end of the two posting loops. *)
Definition posting_calls {DataType} (model : NeuronModel) (num_outputs : nat)
    (node_def : NodeDef DataType) (input_tensors : list (Tensor DataType))
    (bi : BatchInfo) : list Call :=
  alloc_calls num_outputs node_def (Some (is_batch_output_tensors bi, batch_size bi))
  ++ build_calls input_tensors (batch_size bi) (k_batch_size bi)
       (pad_batch_size_of (batch_size bi) (k_batch_size bi))
       (num_batches_of (batch_size bi) (k_batch_size bi))
       (is_batch_input_tensors bi)
  ++ [initialize; get_session]
  ++ (if profile_enabled_ model
      then profile_calls node_def input_tensors
             (dynamic_plan model num_outputs node_def input_tensors bi)
      else [])
  ++ [acquire_mutex; start_model_unsafe; start_ping]
  ++ post_requests_calls model input_tensors
       (dynamic_plan model num_outputs node_def input_tensors bi).




(** ** [NeuronModel::initialize], lines 112-156

    The members of the model are passed in and out; what leaves the file
    (the profiler, the model configuration, the device manager, the device,
    the environment) is logged as a call, and what it hands back is read from
    [Answers]. *)

Module Init.

Inductive Call : Type :=
| profile_initialize
| profile_dump_info
| parse_opt_device_size
| parse_device_index
| apply_for_device
| parse_timeout
| parse_ninfer
| load
| make_semaphore (capacity : Z).

Global Instance Call_eq_dec : EqDecision Call.
Proof. solve_decision. Defined.

Record Answers : Type := mkAnswers {
  profile_enabled : bool;            (* profile_.enabled_ once profile_.initialize is back *)
  apply_for_device_status : Status;
  device_assigned : bool;            (* neuron_device_ non-null once apply_for_device is back *)
  load_status : Status;
  config_max_num_infers : Z;         (* model_config.max_num_infers_ *)
  semaphore_factor : Z;              (* neuron_device_->semaphore_factor() *)
  unlimited_threads : string         (* env_get("NEURON_UNLIMITED_THREADS", "") *)
}.

Record Members : Type := mkMembers {
  neuron_device_ : bool;             (* false: nullptr *)
  max_num_infers_ : Z;
  infer_sem_ : option Z;             (* None: null; Some c: a semaphore of capacity c *)
  profile_enabled_ : bool
}.

Definition set_profile_enabled (b : bool) (m : Members) : Members :=
  mkMembers (neuron_device_ m) (max_num_infers_ m) (infer_sem_ m) b.

Definition set_neuron_device (d : bool) (m : Members) : Members :=
  mkMembers d (max_num_infers_ m) (infer_sem_ m) (profile_enabled_ m).

Definition set_max_num_infers (v : Z) (m : Members) : Members :=
  mkMembers (neuron_device_ m) v (infer_sem_ m) (profile_enabled_ m).

Definition set_infer_sem (s : option Z) (m : Members) : Members :=
  mkMembers (neuron_device_ m) (max_num_infers_ m) s (profile_enabled_ m).

Section Initialize.

Context {DataType : Type}.
Variable DataTypeSize : DataType -> Z.

(** [max_num_infers_ = a; max_num_infers_ *= b] in the type of the member,
    which model.h declares. *)
Variable scale : Z -> Z -> Z.

(** The calls made, the status returned and the members left. *)
Definition initialize (a : Answers) (executable : string) (node_def : NodeDef DataType)
    (m : Members) : list Call * Outcome unit * Members :=
  if neuron_device_ m then ([], Ret tt, m) else
  if bool_decide (String.length executable = 0%nat)
  then ([], Fail (errors.InvalidArgument "Neuron executable (neff) is empty."), m) else
  let m := set_profile_enabled (profile_enabled a) m in
  let calls :=
    [profile_initialize]
    ++ (if profile_enabled_ m then [profile_dump_info] else [])
    ++ [parse_opt_device_size; parse_device_index; apply_for_device] in
  let m := set_neuron_device (device_assigned a) m in
  if negb (ok (apply_for_device_status a))
  then (calls, Fail (apply_for_device_status a), m) else
  let calls := calls ++ [parse_timeout] in
  (* neuron_device_->num_cores() *)
  if negb (neuron_device_ m) then (calls, Undefined, m) else
  let calls := calls ++ [parse_ninfer; load] in
  if negb (ok (load_status a)) then (calls, Fail (load_status a), m) else
  (* check argument sizes *)
  match get_io_tensor_sizes DataTypeSize false false node_def with
  | Fail s => (calls, Fail s, m)
  | Undefined => (calls, Undefined, m)
  | Ret _ =>
      let m := set_max_num_infers
                 (scale (config_max_num_infers a) (semaphore_factor a)) m in
      if negb (bool_decide (is_Some (infer_sem_ m)))
         && negb (bool_decide ("yes"%string = unlimited_threads a))
      then (calls ++ [make_semaphore (max_num_infers_ m)], Ret tt,
            set_infer_sem (Some (max_num_infers_ m)) m)
      else (calls, Ret tt, m)
  end.

End Initialize.

(** The members as [compute] reads them. *)
Definition as_model (m : Members) : NeuronModel :=
  mkNeuronModel (neuron_device_ m) (max_num_infers_ m)
                (bool_decide (is_Some (infer_sem_ m))) (profile_enabled_ m).

End Init.


(** A model as constructed, and what the collaborators answer when all goes
    well: a profiler that is off, four requests at a time on a device with a
    semaphore factor of two. *)
Definition fresh_members : Init.Members := Init.mkMembers false 5 None false.

Definition fine_answers : Init.Answers :=
  Init.mkAnswers false Status_OK true Status_OK 4 2 "".

(** The device is obtained and the load is refused. *)
Definition load_refused : Init.Answers :=
  Init.mkAnswers false Status_OK true (mkStatus UNAVAILABLE "unavailable") 4 2 "".


(** ** [LogLevelStrToInt], src/util/logging.cc

    [ss >> level] is the formatted extraction of an [int] from a
    [std::istringstream] in the classic locale: leading white space is
    skipped, an optional sign and the decimal digits that follow are read, and
    the stream fails when there is no digit or when the number is not an
    [int].  What follows the digits stays in the stream.  A character string
    ends at its first NUL, which is neither a space, a sign nor a digit: the
    extraction stops there as it does at the end. *)

Module logging.

Definition INT_MIN : Z := - 2 ^ 31.
Definition INT_MAX : Z := 2 ^ 31 - 1.

(** [std::isspace]: space, \t, \n, \v, \f, \r. *)
Definition isspace (c : ascii) : bool :=
  let n := Stdlib.Strings.Ascii.N_of_ascii c in
  (n =? 32)%N || ((9 <=? n)%N && (n <=? 13)%N).

Definition digit (c : ascii) : option Z :=
  let n := Stdlib.Strings.Ascii.N_of_ascii c in
  if ((48 <=? n)%N && (n <=? 57)%N)%bool then Some (Z.of_N n - 48) else None.

Fixpoint skip_whitespace (s : string) : string :=
  match s with
  | EmptyString => EmptyString
  | String c s' => if isspace c then skip_whitespace s' else s
  end.

(** The digits at the head of [s], read from the left; [acc] is [None] as
    long as no digit has been read. *)
Fixpoint read_digits (s : string) (acc : option Z) : option Z :=
  match s with
  | EmptyString => acc
  | String c s' =>
      match digit c with
      | Some d => read_digits s' (Some (10 * default 0 acc + d))
      | None => acc
      end
  end.

(** [ss >> level]: the value stored, or [None] when the stream fails. *)
Definition extract_int (s : string) : option Z :=
  let s := skip_whitespace s in
  let signed :=
    match s with
    | String "-" s' => (true, s')
    | String "+" s' => (false, s')
    | _ => (false, s)
    end in
  match read_digits signed.2 None with
  | None => None
  | Some v =>
      let v := if signed.1 then - v else v in
      if bool_decide (INT_MIN <= v <= INT_MAX) then Some v else None
  end.

Definition LogLevelStrToInt (tf_env_var_val : option string) : Z :=
  match tf_env_var_val with
  | None => -1
  | Some min_log_level =>
      match extract_int min_log_level with
      | Some level => level
      | None => 0    (* Invalid vlog level setting, set level to default (0) *)
      end
  end.

End logging.

(** The decimal digits of an integer, with a minus sign when negative. *)
Definition decimal (z : Z) : string :=
  DecimalString.NilZero.string_of_int (Z.to_int z).

(** Only white space. *)
Definition blank (s : string) : Prop := logging.skip_whitespace s = EmptyString.

(** Nothing, or something that does not start with a digit. *)
Definition no_digit_ahead (s : string) : Prop :=
  match s with
  | EmptyString => True
  | String c _ => logging.digit c = None
  end.

(** ** What the calls show of the batch plan *)

(** The output a call allocates and the leading dimension it asks for, the
    rows of a padded input that a call zeroes, and the output regions that a
    sub-batch request writes. *)
Definition allocated (c : Call) : option (nat * option Z) :=
  match c with
  | allocate_output idx dim0 => Some (idx, dim0)
  | _ => None
  end.

Definition zeroed (c : Call) : option (Z * nat * Z * Z) :=
  match c with
  | tensor_memset batch_idx idx row_start row_limit =>
      Some (batch_idx, idx, row_start, row_limit)
  | _ => None
  end.

Definition written (c : Call) : option (list Region) :=
  match c with
  | setup_scoped_runtime_io (io_batch _) _ outputs => Some outputs
  | _ => None
  end.

(** Neither an output allocation nor a call of the request builder. *)
Definition after_build (c : Call) : Prop :=
  match c with
  | allocate_output _ _ | tensor_memset _ _ _ _ | tensor_memcpy _ _ _ _ => False
  | _ => True
  end.

(** A call agrees with the plan for [R] rows on a model compiled for [H]:
    a batched output is allocated with [R] rows, a padded input belongs to
    the last of the [ceil (R / H)] sub-batches, its rows from
    [H - (padded total - R)] on are zeroed and the rows of the caller's tensor
    from [(n - 1) * H] to [R] are copied into it. *)
Definition agrees_with_plan (R H : Z) (is_batch_output_tensors : list bool) (c : Call)
  : Prop :=
  match c with
  | allocate_output idx dim0 =>
      dim0 = if default false (is_batch_output_tensors !! idx) then Some R else None
  | tensor_memset batch_idx _ row_start row_limit =>
      batch_idx = ceil_div R H - 1
      /\ row_start = H - (ceil_div R H * H - R) /\ row_limit = H
  | tensor_memcpy batch_idx _ row_start row_limit =>
      batch_idx = ceil_div R H - 1
      /\ row_start = (ceil_div R H - 1) * H /\ row_limit = R
  | _ => True
  end.

(** ** The semaphore calls of a run, lines 373-375 and 467 *)

(** A call that takes or returns a token, that posts a request, or that
    waits for a request in the drain loop. *)
Inductive SemCall : Type :=
| sem_acquire
| sem_post (io : IO)
| sem_wait (io : IO)
| sem_release.

Global Instance SemCall_eq_dec : EqDecision SemCall.
Proof. solve_decision. Defined.










(** ** A model that was given no device *)



(** * Proofs *)

(** ** Arithmetic of the plan *)

Lemma wrap64_small z : in_int64 z -> wrap64 z = z.
Proof.
  unfold in_int64, int64_min, int64_max, wrap64. intros Hz.
  rewrite Z.mod_small; lia.
Qed.

Lemma ceil_div_floor R H :
  1 <= R -> 1 <= H -> ceil_div R H = (R - 1) / H + 1.
Proof.
  intros HR HH. unfold ceil_div.
  pose proof (Z.div_mod (R - 1) H ltac:(lia)) as Hdm.
  pose proof (Z.mod_pos_bound (R - 1) H ltac:(lia)) as Hb.
  rewrite <- (Z.div_unique (- R) H (- ((R - 1) / H) - 1) (H - 1 - (R - 1) mod H));
    [lia | lia | lia].
Qed.

Lemma ceil_div_bounds R H :
  1 <= R -> 1 <= H ->
  1 <= ceil_div R H /\ (ceil_div R H - 1) * H < R <= ceil_div R H * H.
Proof.
  intros HR HH. rewrite ceil_div_floor by lia.
  pose proof (Z.div_mod (R - 1) H ltac:(lia)) as Hdm.
  pose proof (Z.mod_pos_bound (R - 1) H ltac:(lia)) as Hb.
  pose proof (Z.div_pos (R - 1) H ltac:(lia) ltac:(lia)).
  split; [lia | nia].
Qed.

Lemma plan_arith R H :
  1 <= R -> 1 <= H -> plan_fits R H ->
  pad_batch_size_of R H = ceil_div R H * H /\
  num_batches_of R H = ceil_div R H.
Proof.
  intros HR HH Hfit. unfold plan_fits, int64_max in Hfit.
  destruct (ceil_div_bounds R H HR HH) as [Hn [Hlo Hhi]].
  pose proof (ceil_div_floor R H HR HH) as Hc.
  assert (Hq : (R - 1) ÷ H = (R - 1) / H) by (apply Z.quot_div_nonneg; lia).
  assert (Hpad : pad_batch_size_of R H = ceil_div R H * H).
  { unfold pad_batch_size_of, mul64, add64, div64, sub64.
    rewrite (wrap64_small (R - 1)) by (unfold in_int64, int64_min, int64_max; nia).
    rewrite Hq.
    rewrite (wrap64_small ((R - 1) / H)) by (unfold in_int64, int64_min, int64_max; nia).
    rewrite (wrap64_small ((R - 1) / H + 1)) by (unfold in_int64, int64_min, int64_max; nia).
    rewrite <- Hc.
    apply wrap64_small. unfold in_int64, int64_min, int64_max; nia. }
  split; [exact Hpad|].
  unfold num_batches_of, div64. rewrite Hpad.
  rewrite Z.quot_mul by lia.
  apply wrap64_small. unfold in_int64, int64_min, int64_max; nia.
Qed.

Lemma mul64_small b H n :
  0 <= b -> b < n -> 1 <= H -> n * H <= int64_max -> mul64 b H = b * H.
Proof.
  intros. apply wrap64_small. unfold in_int64, int64_min, int64_max in *. nia.
Qed.

Lemma row_limit_small b H n :
  0 <= b -> b < n -> 1 <= H -> n * H <= int64_max ->
  add64 (mul64 b H) H = b * H + H.
Proof.
  intros. rewrite (mul64_small b H n) by lia.
  apply wrap64_small. unfold in_int64, int64_min, int64_max in *. nia.
Qed.

Lemma sub64_small a b :
  0 <= b -> b <= a -> a <= int64_max -> sub64 a b = a - b.
Proof.
  intros. apply wrap64_small. unfold in_int64, int64_min, int64_max in *. lia.
Qed.

Lemma window_size_bounds m n :
  1 <= n -> 1 <= window_size_of m n <= n.
Proof.
  intros Hn. unfold window_size_of. case_bool_decide; lia.
Qed.

(** From here on the wrap-around is used through the lemmas above only. *)
Opaque wrap64.

(** ** Runs of the monad *)

Lemma calls_of_app (t1 t2 : list Event) :
  calls_of (t1 ++ t2) = calls_of t1 ++ calls_of t2.
Proof. unfold calls_of. apply fmap_app. Qed.

Section FollowsRules.

Context {A B : Type}.

Lemma Follows_ret (v : A) : Follows (ret v) [] v.
Proof.
  intros o; simpl. split; [done|]. intros a [= <-]. done.
Qed.

Lemma Follows_bind (m : M A) (f : A -> M B) s1 s2 v1 v2 :
  Follows m s1 v1 -> Follows (f v1) s2 v2 -> Follows (bind m f) (s1 ++ s2) v2.
Proof.
  intros Hm Hf o. unfold bind.
  destruct (Hm o) as [Hp Hr]. destruct (m o) as [t1 [a|e|]]; simpl in *.
  - destruct (Hr a eq_refl) as [Hc ->].
    destruct (Hf (shift (length t1) o)) as [Hp2 Hr2].
    destruct (f v1 (shift (length t1) o)) as [t2 r2]; simpl in *.
    rewrite calls_of_app, Hc. split; [by apply prefix_app|].
    intros b Hb. destruct (Hr2 b Hb) as [-> ->]. done.
  - split; [by apply prefix_app_r|]. intros b [=].
  - split; [by apply prefix_app_r|]. intros b [=].
Qed.

(** A check of the code itself: it logs nothing and either falls through or
    ends the run. *)
Lemma Follows_lift_bind (r : Outcome A) (f : A -> M B) s v :
  (forall a, r = Ret a -> Follows (f a) s v) -> Follows (bind (lift r) f) s v.
Proof.
  intros Hf o. unfold bind, lift. destruct r as [a|e|]; simpl.
  - destruct (Hf a eq_refl (shift 0 o)) as [Hp Hr].
    destruct (f a (shift 0 o)) as [t2 r2]; simpl in *. done.
  - split; [apply prefix_nil|]. intros b [=].
  - split; [apply prefix_nil|]. intros b [=].
Qed.

End FollowsRules.

Lemma Follows_TF_RETURN_IF_ERROR c : Follows (TF_RETURN_IF_ERROR c) [c] tt.
Proof.
  intros o. unfold TF_RETURN_IF_ERROR; simpl. split; [done|].
  intros []. done.
Qed.

Lemma Follows_RIE_IGNORE_ABORTED c : Follows (RIE_IGNORE_ABORTED c) [c] tt.
Proof.
  intros o. unfold RIE_IGNORE_ABORTED; simpl. split; [done|].
  intros []. done.
Qed.

Lemma Follows_call_void c : Follows (call_void c) [c] tt.
Proof.
  intros o. unfold call_void; simpl. split; [done|]. intros []. done.
Qed.

Lemma Follows_undefined {A} s (v : A) : Follows undefined s v.
Proof. intros o. split; [apply prefix_nil|]. intros a [=]. Qed.

Lemma Follows_session_alive model : Follows (session_alive model) [get_session] tt.
Proof.
  unfold session_alive. destruct (neuron_device_ model);
    [apply Follows_call_void | apply Follows_undefined].
Qed.

Lemma Follows_seq {A} (m : M unit) (k : M A) s1 s2 v :
  Follows m s1 tt -> Follows k s2 v -> Follows (m ;; k) (s1 ++ s2) v.
Proof. intros Hm Hk. by apply (Follows_bind m (fun _ => k) s1 s2 tt v). Qed.

(** A loop whose turns issue calls that do not depend on the locals. *)
Lemma Follows_for_each {I St} (l : list I) (body : I -> St -> M St)
    (sc : I -> list Call) (vb : St -> I -> St) :
  (forall i st, i ∈ l -> Follows (body i st) (sc i) (vb st i)) ->
  forall st, Follows (for_each l body st) (flat_map sc l) (foldl vb st l).
Proof.
  induction l as [|i l IH]; intros Hbody st; simpl.
  - apply Follows_ret.
  - eapply Follows_bind.
    + apply Hbody. left.
    + apply IH. intros j st' Hj. apply Hbody. by right.
Qed.

(** A counting loop, the locals known at the start of every turn. *)
Lemma Follows_for_seqZ {St} (body : Z -> St -> M St) (sc : Z -> list Call)
    (sigma : Z -> St) (len : nat) (lo : Z) :
  (forall i, lo <= i < lo + Z.of_nat len ->
             Follows (body i (sigma i)) (sc i) (sigma (i + 1))) ->
  Follows (for_each (seqZ lo (Z.of_nat len)) body (sigma lo))
          (flat_map sc (seqZ lo (Z.of_nat len)))
          (sigma (lo + Z.of_nat len)).
Proof.
  revert lo. induction len as [|len IH]; intros lo Hbody.
  - rewrite seqZ_nil by lia. simpl. replace (lo + Z.of_nat 0) with lo by lia.
    apply Follows_ret.
  - rewrite seqZ_cons by lia. simpl flat_map. simpl for_each.
    replace (Z.pred (Z.of_nat (S len))) with (Z.of_nat len) by lia.
    replace (lo + Z.of_nat (S len)) with (Z.succ lo + Z.of_nat len) by lia.
    eapply Follows_bind.
    + apply Hbody. lia.
    + replace (lo + 1) with (Z.succ lo) by lia.
      apply IH. intros i Hi. apply Hbody. lia.
Qed.

Lemma flat_map_singleton {X Y} (f : X -> Y) (l : list X) :
  flat_map (fun x => [f x]) l = f <$> l.
Proof. induction l as [|x l IH]; simpl; [done | by rewrite IH]. Qed.

Lemma flat_map_split {X} (f : X -> list Call) (l : list X) (x : X) :
  x ∈ l -> exists pre suf, flat_map f l = pre ++ f x ++ suf.
Proof.
  intros Hx. apply list_elem_of_split in Hx as [l1 [l2 ->]].
  exists (flat_map f l1), (flat_map f l2).
  by rewrite flat_map_app.
Qed.

Lemma foldl_snoc {X Y} (g : X -> Y) (l : list X) (acc : list Y) :
  foldl (fun acc x => acc ++ [g x]) acc l = acc ++ (g <$> l).
Proof.
  revert acc. induction l as [|x l IH]; intros acc; simpl.
  - by rewrite app_nil_r.
  - rewrite IH. by rewrite <- app_assoc.
Qed.

(** ** The posting loops *)

Lemma seqZ_snoc m len : 0 <= len -> seqZ m (len + 1) = seqZ m len ++ [m + len].
Proof.
  intros Hlen. rewrite seqZ_app by lia. f_equal.
Qed.

Lemma sliced_step {X} (f : Z -> list X) b n :
  0 <= b < n ->
  <[Z.to_nat b := f b]> ((f <$> seqZ 0 b) ++ replicate (Z.to_nat (n - b)) [])
  = (f <$> seqZ 0 (b + 1)) ++ replicate (Z.to_nat (n - (b + 1))) [].
Proof.
  intros Hb.
  rewrite insert_app_r_alt by (rewrite length_fmap, length_seqZ; lia).
  rewrite length_fmap, length_seqZ, Nat.sub_diag.
  replace (Z.to_nat (n - b)) with (S (Z.to_nat (n - (b + 1)))) by lia.
  simpl. rewrite seqZ_snoc by lia. rewrite fmap_app. simpl.
  rewrite <- app_assoc. done.
Qed.

Section PipelineProofs.

Context {DataType : Type}.
Variable DataTypeSize : DataType -> Z.
Variable model : NeuronModel.
Variable node_def : NodeDef DataType.
Variable input_tensors : list (Tensor DataType).
Variable plan : Plan DataType.

Let n := plan_num_batches plan.
Let w := plan_window_size plan.
Let first := first_need_wait_infer_post_bidx plan.

Hypothesis window_in_range : 0 <= w <= n.
Hypothesis num_batches_fits : n <= int64_max.

Lemma first_need_wait_eq : first = n - w.
Proof.
  unfold first, first_need_wait_infer_post_bidx. fold n w.
  apply sub64_small; lia.
Qed.

Lemma need_wait_step b :
  0 <= b < n ->
  (if bool_decide (b >= first)
   then need_wait_infer_post (state_at plan b) ++ [io_batch b]
   else need_wait_infer_post (state_at plan b))
  = need_wait_infer_post (state_at plan (b + 1)).
Proof.
  intros Hb. pose proof first_need_wait_eq as Hf. simpl. fold first.
  case_bool_decide.
  - replace (b + 1 - first) with (b - first + 1) by lia.
    rewrite seqZ_snoc by lia. rewrite fmap_app. simpl.
    by replace (first + (b - first)) with b by lia.
  - by rewrite !seqZ_nil by lia.
Qed.

Lemma prepare_request_follows b :
  0 <= b < n ->
  Follows (prepare_request DataTypeSize node_def input_tensors plan b (state_at plan b))
          [request_call input_tensors plan b]
          (mkPipeline (scoped_io_queue (state_at plan b) ++ [io_batch b])
                      (need_wait_infer_post (state_at plan b))
                      (batches_sliced_outputs (state_at plan (b + 1)))).
Proof.
  intros Hb. unfold prepare_request.
  apply Follows_lift_bind. intros _ _.
  cbn [scoped_io_queue]. rewrite last_snoc.
  cbn [state_at batches_sliced_outputs need_wait_infer_post scoped_io_queue].
  fold n.
  rewrite (sliced_step
             (fun b => sliced_outputs_of (batch_size (plan_info plan))
                         (k_batch_size (plan_info plan)) b (plan_outputs plan)
                         (is_batch_output_tensors (plan_info plan))) b n) by lia.
  rewrite <- (app_nil_r [request_call input_tensors plan b]).
  eapply Follows_seq; [apply Follows_RIE_IGNORE_ABORTED | apply Follows_ret].
Qed.

Lemma queue_fill_step b :
  0 <= b < w ->
  scoped_io_queue (state_at plan b) ++ [io_batch b]
  = scoped_io_queue (state_at plan (b + 1)).
Proof.
  intros Hb. simpl. fold w.
  rewrite !Z.max_l, !Z.min_l by lia.
  rewrite seqZ_snoc by lia. by rewrite fmap_app.
Qed.

Lemma queue_steady_step b :
  w <= b < n ->
  scoped_io_queue (state_at plan b) ++ [io_batch b]
  = io_batch (b - w) :: scoped_io_queue (state_at plan (b + 1)).
Proof.
  intros Hb. simpl. fold w.
  rewrite !Z.max_r, !Z.min_r by lia.
  change [io_batch b] with (io_batch <$> [b]). rewrite <- fmap_app.
  replace [b] with [b - w + w] by (f_equal; lia).
  rewrite <- seqZ_snoc by lia. rewrite seqZ_cons by lia. simpl.
  do 3 f_equal; lia.
Qed.

Lemma Follows_acquire :
  Follows (if infer_sem_ model then TF_RETURN_IF_ERROR acquire_sem else ret tt)
          (if infer_sem_ model then [acquire_sem] else []) tt.
Proof.
  destruct (infer_sem_ model);
    [apply Follows_TF_RETURN_IF_ERROR | apply Follows_ret].
Qed.

Lemma fill_body_follows b :
  0 <= b < w ->
  Follows (fill_body DataTypeSize model node_def input_tensors plan b (state_at plan b))
          (fill_calls model input_tensors plan b) (state_at plan (b + 1)).
Proof.
  intros Hb. unfold fill_body, fill_calls.
  eapply Follows_bind; [apply prepare_request_follows; lia|].
  eapply Follows_seq; [apply Follows_acquire|].
  cbn [scoped_io_queue]. rewrite last_snoc.
  unfold setup_call, post_call, push_need_wait. cbn [scoped_io_queue need_wait_infer_post
    batches_sliced_outputs].
  pose proof (need_wait_step b ltac:(lia)) as Hnw.
  pose proof (queue_fill_step b Hb) as Hq.
  fold first in Hnw |- *.
  replace (state_at plan (b + 1)) with
    (mkPipeline (scoped_io_queue (state_at plan (b + 1)))
                (need_wait_infer_post (state_at plan (b + 1)))
                (batches_sliced_outputs (state_at plan (b + 1)))) by done.
  rewrite <- Hnw, <- Hq.
  case_bool_decide.
  - change [setup_infer_post (io_batch b) b; post_infer_post (io_batch b)]
      with ([setup_infer_post (io_batch b) b] ++ [post_infer_post (io_batch b)] ++ []).
    eapply Follows_seq; [apply Follows_TF_RETURN_IF_ERROR|].
    eapply Follows_seq; [apply Follows_TF_RETURN_IF_ERROR|].
    apply Follows_ret.
  - change [setup_infer (io_batch b) b; post_infer (io_batch b)]
      with ([setup_infer (io_batch b) b] ++ [post_infer (io_batch b)] ++ []).
    eapply Follows_seq; [apply Follows_TF_RETURN_IF_ERROR|].
    eapply Follows_seq; [apply Follows_TF_RETURN_IF_ERROR|].
    apply Follows_ret.
Qed.

Lemma steady_body_follows b :
  w <= b < n ->
  Follows (steady_body DataTypeSize node_def input_tensors plan b (state_at plan b))
          (steady_calls input_tensors plan b) (state_at plan (b + 1)).
Proof.
  intros Hb. unfold steady_body, steady_calls.
  change (?x :: ?y :: ?l) with ([x] ++ y :: l).
  eapply Follows_bind; [apply prepare_request_follows; lia|].
  cbn [scoped_io_queue]. rewrite last_snoc.
  pose proof (need_wait_step b ltac:(lia)) as Hnw.
  pose proof (queue_steady_step b Hb) as Hq.
  rewrite Hq. cbn [head].
  unfold setup_call, post_call, push_need_wait, pop_scoped_io.
  fold w first in Hnw |- *.
  cbn [scoped_io_queue need_wait_infer_post batches_sliced_outputs tl].
  replace (state_at plan (b + 1)) with
    (mkPipeline (scoped_io_queue (state_at plan (b + 1)))
                (need_wait_infer_post (state_at plan (b + 1)))
                (batches_sliced_outputs (state_at plan (b + 1)))) by done.
  rewrite <- Hnw.
  case_bool_decide.
  - change (?a :: ?b' :: ?c :: ?d :: nil) with ([a] ++ [b'] ++ [c] ++ [d] ++ []).
    eapply Follows_seq; [apply Follows_TF_RETURN_IF_ERROR|].
    eapply Follows_seq; [apply Follows_TF_RETURN_IF_ERROR|].
    eapply Follows_bind.
    { rewrite <- (app_nil_r [post_infer_post (io_batch b)]).
      eapply Follows_seq; [apply Follows_TF_RETURN_IF_ERROR | apply Follows_ret]. }
    cbn [scoped_io_queue need_wait_infer_post batches_sliced_outputs tl].
    eapply Follows_seq; [apply Follows_RIE_IGNORE_ABORTED | apply Follows_ret].
  - change (?a :: ?b' :: ?c :: ?d :: nil) with ([a] ++ [b'] ++ [c] ++ [d] ++ []).
    eapply Follows_seq; [apply Follows_TF_RETURN_IF_ERROR|].
    eapply Follows_seq; [apply Follows_TF_RETURN_IF_ERROR|].
    eapply Follows_bind.
    { rewrite <- (app_nil_r [post_infer (io_batch b)]).
      eapply Follows_seq; [apply Follows_TF_RETURN_IF_ERROR | apply Follows_ret]. }
    cbn [scoped_io_queue need_wait_infer_post batches_sliced_outputs tl].
    eapply Follows_seq; [apply Follows_RIE_IGNORE_ABORTED | apply Follows_ret].
Qed.

Lemma state_at_0 :
  state_at plan 0 = mkPipeline [] [] (replicate (Z.to_nat n) []).
Proof.
  pose proof first_need_wait_eq as Hf.
  unfold state_at. fold n w first.
  rewrite (seqZ_nil _ (Z.min 0 w)) by lia.
  rewrite (seqZ_nil first) by lia. rewrite (seqZ_nil 0 0) by lia.
  simpl. by rewrite Z.sub_0_r.
Qed.

Lemma post_requests_follows :
  Follows (post_requests DataTypeSize model node_def input_tensors plan (state_at plan 0))
          (post_requests_calls model input_tensors plan) (state_at plan n).
Proof.
  unfold post_requests, post_requests_calls. fold n w.
  eapply Follows_bind.
  - replace w with (Z.of_nat (Z.to_nat w)) at 1 2 by lia.
    apply (Follows_for_seqZ _ (fill_calls model input_tensors plan) (state_at plan)).
    intros i Hi. apply fill_body_follows. lia.
  - replace (0 + Z.of_nat (Z.to_nat w)) with w by lia.
    replace n with (w + Z.of_nat (Z.to_nat (n - w))) at 3 by lia.
    replace (n - w) with (Z.of_nat (Z.to_nat (n - w))) at 1 2 by lia.
    apply (Follows_for_seqZ _ (steady_calls input_tensors plan) (state_at plan)).
    intros i Hi. apply steady_body_follows. lia.
Qed.

(** The posted queue when the loops are done: the last [w] requests. *)
Lemma need_wait_at_end :
  need_wait_infer_post (state_at plan n) = io_batch <$> seqZ (n - w) w.
Proof.
  pose proof first_need_wait_eq as Hf. simpl. fold first n.
  rewrite Hf. by replace (n - (n - w)) with w by lia.
Qed.

Lemma wait_posts_follows (q : list IO) :
  Follows (wait_posts (length q) q) (wait_posts_calls q) tt.
Proof.
  induction q as [|io q IH]; simpl.
  - apply Follows_ret.
  - change (wait_infer_post io :: wait_posts_calls q)
      with ([wait_infer_post io] ++ wait_posts_calls q).
    eapply Follows_seq; [apply Follows_TF_RETURN_IF_ERROR | apply IH].
Qed.

Lemma locked_section_follows :
  Follows (locked_section DataTypeSize model node_def input_tensors plan
             (replicate (Z.to_nat n) []))
          (locked_calls model input_tensors plan) (state_at plan n).
Proof.
  unfold locked_section, locked_calls. rewrite <- state_at_0.
  change [acquire_mutex; start_model_unsafe; start_ping]
    with ([acquire_mutex] ++ [start_model_unsafe] ++ [start_ping]).
  rewrite <- !app_assoc.
  eapply Follows_seq; [apply Follows_call_void|].
  eapply Follows_seq; [apply Follows_RIE_IGNORE_ABORTED|].
  eapply Follows_seq; [apply Follows_RIE_IGNORE_ABORTED|].
  eapply Follows_bind; [apply post_requests_follows|].
  apply Follows_lift_bind. intros _ _. fold w.
  rewrite <- (app_nil_r (wait_posts_calls _)).
  eapply Follows_seq; [|apply Follows_ret].
  replace (Z.to_nat w) with (length (need_wait_infer_post (state_at plan n))).
  - apply wait_posts_follows.
  - rewrite need_wait_at_end, length_fmap, length_seqZ. done.
Qed.

Lemma drain_follows (l : list Z) (q : list IO) :
  Follows (drain plan l q) (drain_calls plan l q) tt.
Proof.
  revert q. induction l as [|i l IH]; intros q; simpl.
  - apply Follows_ret.
  - destruct q as [|io q]; [apply Follows_ret|].
    change (?a :: ?b :: ?c :: ?l) with ([a] ++ [b] ++ [c] ++ l).
    eapply Follows_seq; [apply Follows_TF_RETURN_IF_ERROR|].
    eapply Follows_seq; [apply Follows_TF_RETURN_IF_ERROR|].
    eapply Follows_seq; [apply Follows_RIE_IGNORE_ABORTED|].
    apply IH.
Qed.

Lemma profile_run_follows :
  Follows (profile_run DataTypeSize node_def input_tensors plan)
          (profile_calls node_def input_tensors plan) tt.
Proof.
  unfold profile_run, profile_calls.
  apply Follows_lift_bind. intros _ _.
  eapply Follows_bind.
  - rewrite <- flat_map_singleton.
    apply (Follows_for_each _ _
             (fun p : nat * (DataType * TensorShape) => [allocate_temp p.1])
             (fun acc p => acc ++ [temp_output p])).
    intros p acc _.
    rewrite <- (app_nil_r [allocate_temp p.1]).
    eapply Follows_seq; [apply Follows_TF_RETURN_IF_ERROR | apply Follows_ret].
  - rewrite foldl_snoc, app_nil_l.
    change (?a :: ?b :: ?c :: nil) with ([a] ++ [b] ++ [c]).
    eapply Follows_seq; [apply Follows_RIE_IGNORE_ABORTED|].
    eapply Follows_seq; [apply Follows_TF_RETURN_IF_ERROR|].
    apply Follows_RIE_IGNORE_ABORTED.
Qed.

Lemma pipeline_follows :
  Follows (pipeline DataTypeSize model node_def input_tensors plan)
          (pipeline_calls model node_def input_tensors plan) (state_at plan n).
Proof.
  unfold pipeline, pipeline_calls.
  change [initialize; get_session] with ([initialize] ++ [get_session]).
  rewrite <- !app_assoc.
  eapply Follows_seq; [apply Follows_RIE_IGNORE_ABORTED|].
  eapply Follows_seq; [apply Follows_session_alive|].
  eapply Follows_seq.
  { destruct (profile_enabled_ model); [apply profile_run_follows | apply Follows_ret]. }
  eapply Follows_bind; [apply locked_section_follows|].
  rewrite <- (app_nil_r (drain_calls _ _ _)).
  eapply Follows_seq; [apply drain_follows | apply Follows_ret].
Qed.

End PipelineProofs.

(** ** Output allocation, the request builder and the dynamic path *)

Section DynamicProofs.

Context {DataType : Type}.
Variable DataTypeSize : DataType -> Z.
Variable model : NeuronModel.
Variable num_outputs : nat.
Variable node_def : NodeDef DataType.
Variable input_tensors : list (Tensor DataType).

Lemma allocate_outputs_follows flags :
  Follows (allocate_outputs flags num_outputs node_def)
          (alloc_calls num_outputs node_def flags)
          (alloc_value num_outputs node_def flags).
Proof.
  unfold allocate_outputs, alloc_calls, alloc_value.
  rewrite <- flat_map_singleton.
  rewrite <- (app_nil_l (allocated_output flags <$> _)).
  rewrite <- (foldl_snoc (allocated_output flags)).
  apply (Follows_for_each _ _
           (fun p : nat * (DataType * TensorShape) =>
              [allocate_output p.1 (output_dim0 flags p.1)])).
  intros p acc _.
  rewrite <- (app_nil_r [allocate_output p.1 (output_dim0 flags p.1)]).
  eapply Follows_seq; [apply Follows_TF_RETURN_IF_ERROR | apply Follows_ret].
Qed.

Lemma build_input_follows R H pad n b idx (input : Tensor DataType) flag :
  Follows (build_input R H pad n b idx input flag)
          (build_input_calls R H pad n b idx flag)
          (build_input_value H n b idx input flag).
Proof.
  unfold build_input, build_input_calls, build_input_value.
  destruct flag; simpl; [|apply Follows_ret].
  case_bool_decide; [|apply Follows_ret].
  change (?a :: ?b' :: nil) with ([a] ++ [b'] ++ []).
  eapply Follows_seq; [apply Follows_TF_RETURN_IF_ERROR|].
  eapply Follows_seq; [apply Follows_TF_RETURN_IF_ERROR|].
  apply Follows_ret.
Qed.

Lemma build_inputs_follows R H pad n flags :
  Follows (build_inputs R H pad n input_tensors flags)
          (build_calls input_tensors R H pad n flags)
          (build_value input_tensors H n flags).
Proof.
  unfold build_inputs. case_bool_decide; [apply Follows_undefined|].
  unfold build_calls, build_value.
  rewrite <- (app_nil_l (_ <$> seqZ 0 n)).
  rewrite <- (foldl_snoc
    (fun batch_idx =>
       (fun p : nat * (Tensor DataType * bool) =>
          build_input_value H n batch_idx p.1 p.2.1 p.2.2)
         <$> zip (seq 0 (length input_tensors)) (zip input_tensors flags))).
  apply (Follows_for_each _ _
    (fun batch_idx =>
       flat_map
         (fun p : nat * (Tensor DataType * bool) =>
            build_input_calls R H pad n batch_idx p.1 p.2.2)
         (zip (seq 0 (length input_tensors)) (zip input_tensors flags)))).
  intros b acc _.
  rewrite <- (app_nil_r (flat_map _ _)).
  eapply Follows_bind; [|apply Follows_ret].
  rewrite <- (app_nil_l (_ <$> zip _ _)).
  rewrite <- (foldl_snoc
    (fun p : nat * (Tensor DataType * bool) =>
       build_input_value H n b p.1 p.2.1 p.2.2)).
  apply (Follows_for_each _ _
    (fun p : nat * (Tensor DataType * bool) =>
       build_input_calls R H pad n b p.1 p.2.2)).
  intros [idx [input flag]] batch _. simpl.
  rewrite <- (app_nil_r (build_input_calls _ _ _ _ _ _ _)).
  eapply Follows_bind; [apply build_input_follows | apply Follows_ret].
Qed.

Lemma dynamic_plan_in_range bi :
  1 <= batch_size bi -> 1 <= k_batch_size bi ->
  plan_fits (batch_size bi) (k_batch_size bi) ->
  0 <= plan_window_size (dynamic_plan model num_outputs node_def input_tensors bi)
    <= plan_num_batches (dynamic_plan model num_outputs node_def input_tensors bi)
  /\ plan_num_batches (dynamic_plan model num_outputs node_def input_tensors bi)
     <= int64_max.
Proof.
  intros HR HH Hfit. cbn [dynamic_plan plan_window_size plan_num_batches].
  destruct (plan_arith _ _ HR HH Hfit) as [_ Hn].
  destruct (ceil_div_bounds _ _ HR HH) as [Hc _].
  pose proof (window_size_bounds (max_num_infers_ model)
                (num_batches_of (batch_size bi) (k_batch_size bi)) ltac:(lia)).
  unfold plan_fits in Hfit. split; [lia | nia].
Qed.

Lemma dynamic_path_follows bi :
  1 <= batch_size bi -> 1 <= k_batch_size bi ->
  plan_fits (batch_size bi) (k_batch_size bi) ->
  Follows (dynamic_path DataTypeSize model num_outputs node_def input_tensors bi)
          (dynamic_calls model num_outputs node_def input_tensors bi)
          (state_at (dynamic_plan model num_outputs node_def input_tensors bi)
             (plan_num_batches
                (dynamic_plan model num_outputs node_def input_tensors bi))).
Proof.
  intros HR HH Hfit. unfold dynamic_path, dynamic_calls.
  rewrite bool_decide_eq_false_2 by lia.
  eapply Follows_bind; [apply allocate_outputs_follows|].
  eapply Follows_bind; [apply build_inputs_follows|].
  destruct (dynamic_plan_in_range bi HR HH Hfit) as [Hw Hn].
  change (mkPlan _ _ _ _ _)
    with (dynamic_plan model num_outputs node_def input_tensors bi).
  exact (pipeline_follows DataTypeSize model node_def input_tensors
           (dynamic_plan model num_outputs node_def input_tensors bi) Hw Hn).
Qed.

End DynamicProofs.

(** ** C2: the output slices tile the rows of the output *)

Lemma rows_cover (H R : Z) (k : nat) :
  1 <= H -> 0 <= R ->
  concat ((fun b => seqZ (b * H) (Z.min (b * H + H) R - b * H)) <$> seqZ 0 (Z.of_nat k))
  = seqZ 0 (Z.min (Z.of_nat k * H) R).
Proof.
  intros HH HR. induction k as [|k IH].
  - simpl. by rewrite seqZ_nil by lia.
  - replace (Z.of_nat (S k)) with (Z.of_nat k + 1) by lia.
    rewrite seqZ_snoc by lia. rewrite fmap_app, concat_app, IH. simpl.
    rewrite app_nil_r. rewrite Z.add_0_l.
    destruct (Z.le_gt_cases R (Z.of_nat k * H)) as [Hge|Hlt].
    + rewrite (seqZ_nil (Z.of_nat k * H)) by lia. rewrite app_nil_r.
      f_equal. lia.
    + replace (Z.min (Z.of_nat k * H) R) with (Z.of_nat k * H) by lia.
      replace (Z.min ((Z.of_nat k + 1) * H) R)
        with (Z.of_nat k * H + (Z.min (Z.of_nat k * H + H) R - Z.of_nat k * H)) by lia.
      rewrite (seqZ_app 0) by lia. done.
Qed.

Lemma allocated_output_lookup {DataType} (num_outputs : nat) (node_def : NodeDef DataType)
    (flags : list bool) (R : Z) (idx : nat) (out : Tensor DataType) :
  alloc_value num_outputs node_def (Some (flags, R)) !! idx = Some out ->
  flags !! idx = Some true ->
  shape out <> [] ->
  row0 out = 0 /\ exists rest, shape out = R :: rest.
Proof.
  unfold alloc_value. rewrite list_lookup_fmap.
  destruct (zip _ _ !! idx) as [[idx' [dt s]]|] eqn:Hz; [|done].
  apply lookup_zip_Some in Hz as [Hseq _].
  apply lookup_seq in Hseq as [-> _]. simpl.
  intros [= <-] Hflag. simpl. unfold output_dim0. rewrite Hflag. simpl.
  destruct s as [|d rest]; [done|]. simpl. eauto.
Qed.

Section OutputSlices.

Context {DataType : Type}.
Variable DataTypeSize : DataType -> Z.
Variable model : NeuronModel.
Variable num_outputs : nat.
Variable node_def : NodeDef DataType.
Variable input_tensors : list (Tensor DataType).
Variable bi : BatchInfo.

Let R := batch_size bi.
Let H := k_batch_size bi.
Let plan := dynamic_plan model num_outputs node_def input_tensors bi.

Lemma dynamic_plan_num_batches : plan_num_batches plan = num_batches_of R H.
Proof. reflexivity. Qed.

(** What a run of the dynamic path that falls through has done. *)
Lemma dynamic_path_returns o t st :
  1 <= R -> 1 <= H -> plan_fits R H ->
  dynamic_path DataTypeSize model num_outputs node_def input_tensors bi o = (t, Ret st) ->
  calls_of t = dynamic_calls model num_outputs node_def input_tensors bi
  /\ st = state_at plan (num_batches_of R H).
Proof.
  intros HR HH Hfit Hrun.
  destruct (dynamic_path_follows DataTypeSize model num_outputs node_def
              input_tensors bi HR HH Hfit o) as [_ Hret].
  rewrite Hrun in Hret. specialize (Hret st eq_refl) as [Hc Hst].
  split; [exact Hc|]. rewrite Hst. reflexivity.
Qed.

Lemma sliced_outputs_at_end :
  batches_sliced_outputs (state_at plan (num_batches_of R H))
  = (fun b => sliced_outputs_of R H b (plan_outputs plan) (is_batch_output_tensors bi))
      <$> seqZ 0 (num_batches_of R H).
Proof.
  unfold state_at. cbn [batches_sliced_outputs].
  rewrite dynamic_plan_num_batches, Z.sub_diag.
  change (Z.to_nat 0) with 0%nat. cbn [replicate]. apply app_nil_r.
Qed.

End OutputSlices.

Lemma elem_of_flat_map_intro {X} (f : X -> list Call) (l : list X) (x : X) (c : Call) :
  x ∈ l -> c ∈ f x -> c ∈ flat_map f l.
Proof.
  intros Hx Hc. destruct (flat_map_split f l x Hx) as (pre & suf & ->).
  apply elem_of_app. right. apply elem_of_app. by left.
Qed.

Lemma request_call_posted {DataType} model (input_tensors : list (Tensor DataType))
    (plan : Plan DataType) (b : Z) :
  0 <= plan_window_size plan <= plan_num_batches plan ->
  0 <= b < plan_num_batches plan ->
  request_call input_tensors plan b ∈ post_requests_calls model input_tensors plan.
Proof.
  intros Hw Hb. unfold post_requests_calls. apply elem_of_app.
  destruct (Z.lt_ge_cases b (plan_window_size plan)) as [Hlt|Hge].
  - left. apply (elem_of_flat_map_intro _ _ b).
    + apply elem_of_seqZ. lia.
    + unfold fill_calls. left.
  - right. apply (elem_of_flat_map_intro _ _ b).
    + apply elem_of_seqZ. lia.
    + unfold steady_calls. left.
Qed.

(** C2.  On a run of the dynamic-batch path that falls through, with runtime
    batch size [R >= 1] and hardware batch size [H >= 1], [R <> H] (the
    padded total within [int64_t]): for every output that carries the batch
    dimension (its rank is positive, line 232), the slice built for
    sub-batch [b] is the view of rows [b*H .. min (b*H + H) R) of the
    pre-allocated output tensor, and it is what the runtime I/O of request
    [b] is set up on; there is one slice for each of the [num_batches]
    sub-batches, and the rows of the slices, taken in order, are exactly
    rows [0 .. R) of that tensor: no overlap, no gap, nothing of the padded
    region. *)
Theorem C2_output_slices_cover {DataType} (DataTypeSize : DataType -> Z)
    (model : NeuronModel) (num_outputs : nat) (node_def : NodeDef DataType)
    (input_tensors : list (Tensor DataType)) (bi : BatchInfo)
    (o : Oracle) (t : list Event) (st : Pipeline DataType)
    (idx : nat) (out : Tensor DataType) :
  let R := batch_size bi in
  let H := k_batch_size bi in
  let n := num_batches_of R H in
  1 <= R -> 1 <= H -> R <> H -> plan_fits R H ->
  dynamic_path DataTypeSize model num_outputs node_def input_tensors bi o = (t, Ret st) ->
  is_batch_output_tensors bi !! idx = Some true ->
  alloc_value num_outputs node_def (Some (is_batch_output_tensors bi, R)) !! idx
    = Some out ->
  shape out <> [] ->
  (forall b, 0 <= b < n ->
     exists row,
       batches_sliced_outputs st !! Z.to_nat b = Some row
       /\ row !! idx = Some (Some (Slice out (b * H) (Z.min (b * H + H) R)))
       /\ tensor_rows (Slice out (b * H) (Z.min (b * H + H) R))
          = seqZ (b * H) (Z.min (b * H + H) R - b * H)
       /\ b * H < Z.min (b * H + H) R <= R
       /\ exists inputs outputs,
            setup_scoped_runtime_io (io_batch b) inputs outputs ∈ calls_of t
            /\ outputs !! idx
               = Some (region_of (Slice out (b * H) (Z.min (b * H + H) R))))
  /\ Z.of_nat (length (batches_sliced_outputs st)) = n
  /\ concat ((fun row => slice_rows (default None (row !! idx)))
               <$> batches_sliced_outputs st)
     = seqZ 0 R
  /\ tensor_rows out = seqZ 0 R.
Proof.
  intros R H n HR HH Hne Hfit Hrun Hflag Hout Hrank.
  destruct (dynamic_path_returns DataTypeSize model num_outputs node_def
              input_tensors bi o t st HR HH Hfit Hrun) as [Hcalls ->].
  rewrite sliced_outputs_at_end. fold R H n.
  destruct (allocated_output_lookup _ _ _ _ _ _ Hout Hflag Hrank) as [Hrow0 [rest Hshape]].
  destruct (plan_arith R H HR HH Hfit) as [_ Hn]. fold n in Hn.
  destruct (ceil_div_bounds R H HR HH) as [Hn1 [Hlo Hhi]]. rewrite <- Hn in Hn1, Hlo, Hhi.
  assert (Hmax : n * H <= int64_max) by (unfold plan_fits in Hfit; by rewrite Hn).
  destruct (dynamic_plan_in_range model num_outputs node_def input_tensors bi
              HR HH Hfit) as [Hw _].
  set (plan := dynamic_plan model num_outputs node_def input_tensors bi) in *.
  assert (Hslice : forall b, 0 <= b < n ->
            sliced_outputs_of R H b (plan_outputs plan) (is_batch_output_tensors bi) !! idx
            = Some (Some (Slice out (b * H) (Z.min (b * H + H) R)))).
  { intros b Hb. unfold sliced_outputs_of. apply lookup_zip_with_Some.
    exists out, true. split_and!; [|exact Hout|exact Hflag].
    unfold output_slice.
    by rewrite (row_limit_small b H n), (mul64_small b H n) by lia. }
  assert (Hrows : forall b, 0 <= b < n ->
            tensor_rows (Slice out (b * H) (Z.min (b * H + H) R))
            = seqZ (b * H) (Z.min (b * H + H) R - b * H)).
  { intros b Hb. unfold tensor_rows, Slice. cbn [row0 shape].
    rewrite Hshape, Hrow0. cbn [set_dim0 hd]. by rewrite Z.add_0_l. }
  split_and!.
  - intros b Hb. eexists. split_and!.
    + rewrite list_lookup_fmap, lookup_seqZ_lt by lia. simpl.
      by rewrite Z2Nat.id by lia.
    + by apply Hslice.
    + by apply Hrows.
    + nia.
    + lia.
    + eexists _, _. split.
      * rewrite Hcalls. unfold dynamic_calls. fold plan.
        do 2 (apply elem_of_app; right). unfold pipeline_calls.
        do 2 (apply elem_of_app; right). apply elem_of_app. left.
        unfold locked_calls. apply elem_of_app. right. apply elem_of_app. left.
        apply (request_call_posted model input_tensors plan b Hw Hb).
      * rewrite list_lookup_fmap. unfold output_tensors_of.
        rewrite lookup_zip_with. change (plan_outputs plan !! idx) with
          (alloc_value num_outputs node_def
             (Some (is_batch_output_tensors bi, R)) !! idx).
        rewrite Hout. cbn [mbind option_bind].
        change (plan_info plan) with bi. fold R H.
        rewrite (Hslice b Hb). reflexivity.
  - by rewrite length_fmap, length_seqZ, Z2Nat.id by lia.
  - rewrite <- list_fmap_compose.
    transitivity
      (concat ((fun b => seqZ (b * H) (Z.min (b * H + H) R - b * H))
                 <$> seqZ 0 (Z.of_nat (Z.to_nat n)))).
    + rewrite Z2Nat.id by lia. f_equal.
      apply list_fmap_ext. intros i b Hib.
      apply lookup_seqZ in Hib as [-> Hi]. simpl.
      rewrite Hslice by lia. simpl. apply Hrows. lia.
    + rewrite rows_cover by lia. f_equal. rewrite Z2Nat.id; lia.
  - unfold tensor_rows. rewrite Hshape, Hrow0. done.
Qed.

(** On the sample, 10 rows in sub-batches of 4: the three slices tile rows 0 to 9. *)
Lemma C2_output_slices_cover_witness :
  concat ((fun row => slice_rows (default None (row !! 0%nat)))
            <$> batches_sliced_outputs (sample_state 10 1))
  = seqZ 0 10.
Proof.
  refine (proj1 (proj2 (proj2
    (C2_output_slices_cover SampleTypeSize (sample_model 1) 1 sample_node_def
       (sample_inputs 10) (sample_info 10) all_ok (sample_run 10 1).1
       (sample_state 10 1) 0 (mkTensor DT_FLOAT [10; 2] (buf_output 0) 0)
       _ _ _ _ _ _ _ _)))).
  - simpl; lia.
  - simpl; lia.
  - simpl; lia.
  - vm_compute; discriminate.
  - vm_compute; reflexivity.
  - reflexivity.
  - reflexivity.
  - discriminate.
Defined.

(** ** Counting calls *)




Lemma prefix_app_cases {X} (p l1 l2 : list X) :
  p `prefix_of` l1 ++ l2 ->
  p `prefix_of` l1 \/ exists p', p = l1 ++ p' /\ p' `prefix_of` l2.
Proof.
  revert p. induction l1 as [|x l1 IH]; intros p Hp.
  - right. by exists p.
  - destruct p as [|y p]; [left; apply prefix_nil|].
    simpl in Hp. destruct Hp as [k Hk]. injection Hk as -> Hk.
    destruct (IH p) as [Hl|[p' [-> Hp']]]; [by exists k| |].
    + left. by apply prefix_cons.
    + right. by exists p'.
Qed.


(** ** C4: the posted queue holds [window_size] requests *)

Lemma filter_all {X} (p : X -> bool) (l : list X) :
  (forall x, x ∈ l -> p x = true) -> List.filter p l = l.
Proof.
  induction l as [|x l IH]; intros Hp; simpl; [done|].
  rewrite Hp by left. f_equal. apply IH. intros y Hy. apply Hp. by right.
Qed.

Lemma filter_none {X} (p : X -> bool) (l : list X) :
  (forall x, x ∈ l -> p x = false) -> List.filter p l = [].
Proof.
  induction l as [|x l IH]; intros Hp; simpl; [done|].
  rewrite Hp by left. apply IH. intros y Hy. apply Hp. by right.
Qed.

(** C4.  With [1 <= window_size <= num_batches]: the sub-batches whose index
    is at least [first_need_wait_infer_post_bidx = num_batches - window_size]
    are exactly [window_size] many, and whenever the two posting loops have
    run to their end the queue of posted requests has length [window_size],
    so the TFNN_ASSERT of line 449 falls through: its internal-error branch
    is never taken. *)
Theorem C4_posted_queue_length {DataType} (DataTypeSize : DataType -> Z)
    (model : NeuronModel) (node_def : NodeDef DataType)
    (input_tensors : list (Tensor DataType)) (plan : Plan DataType) :
  let n := plan_num_batches plan in
  let w := plan_window_size plan in
  1 <= w <= n -> n <= int64_max ->
  length (List.filter
            (fun b => bool_decide (b >= first_need_wait_infer_post_bidx plan))
            (seqZ 0 n))
  = Z.to_nat w
  /\ forall (o : Oracle) (t : list Event) (st : Pipeline DataType),
       post_requests DataTypeSize model node_def input_tensors plan
         (mkPipeline [] [] (replicate (Z.to_nat n) [])) o = (t, Ret st) ->
       need_wait_infer_post st = io_batch <$> seqZ (n - w) w
       /\ Z.of_nat (length (need_wait_infer_post st)) = w
       /\ forall error,
            TFNN_ASSERT
              (bool_decide (Z.of_nat (length (need_wait_infer_post st)) = w)) error
            = Ret tt.
Proof.
  intros n w Hw Hn.
  assert (Hw0 : 0 <= w <= n) by lia.
  pose proof (first_need_wait_eq plan Hw0 Hn) as Hfirst.
  pose proof (need_wait_at_end plan Hw0 Hn) as Hend.
  pose proof (state_at_0 plan Hw0 Hn) as H0.
  pose proof (post_requests_follows DataTypeSize model node_def input_tensors
                plan Hw0 Hn) as Hfollows.
  fold n w in Hfirst, Hend, H0, Hfollows.
  split.
  - rewrite Hfirst.
    replace (seqZ 0 n) with (seqZ 0 ((n - w) + w)) by (f_equal; lia).
    rewrite seqZ_app by lia. rewrite List.filter_app, length_app.
    rewrite filter_none, filter_all.
    + rewrite length_seqZ. reflexivity.
    + intros x Hx. apply elem_of_seqZ in Hx. apply bool_decide_eq_true_2. lia.
    + intros x Hx. apply elem_of_seqZ in Hx. apply bool_decide_eq_false_2. lia.
  - intros o t st Hrun.
    destruct (Hfollows o) as [_ Hret].
    rewrite H0, Hrun in Hret. destruct (Hret st eq_refl) as [_ ->].
    rewrite Hend.
    assert (Hlen : Z.of_nat (length (io_batch <$> seqZ (n - w) w)) = w).
    { rewrite length_fmap, length_seqZ. lia. }
    split_and!; [done|exact Hlen|].
    intros error. rewrite Hlen. by rewrite bool_decide_eq_true_2.
Qed.

(** Three sub-batches with a window of two: two of them are posted with
    confirmation, and on the run that no collaborator cuts short the two
    posting loops leave requests 1 and 2 in the queue, which has the length
    that line 449 asks for. *)
Lemma C4_posted_queue_length_witness :
  length (List.filter
            (fun b => bool_decide
                        (b >= first_need_wait_infer_post_bidx (sample_plan 10 2)))
            (seqZ 0 3))
  = 2%nat
  /\ (let st :=
        returned (mkPipeline [] [] [])
          (post_requests SampleTypeSize (sample_model 2) sample_node_def
             (sample_inputs 10) (sample_plan 10 2)
             (mkPipeline [] []
                (replicate (Z.to_nat (plan_num_batches (sample_plan 10 2))) []))
             all_ok).2 in
      need_wait_infer_post st = [io_batch 1; io_batch 2]
      /\ TFNN_ASSERT
           (bool_decide (Z.of_nat (length (need_wait_infer_post st))
                         = plan_window_size (sample_plan 10 2)))
           (errors.Internal "incorrect queue length -- race condition likely")
         = Ret tt).
Proof.
  assert (Hw : 1 <= plan_window_size (sample_plan 10 2)
               <= plan_num_batches (sample_plan 10 2))
    by (vm_compute; split; discriminate).
  assert (Hn : plan_num_batches (sample_plan 10 2) <= int64_max)
    by (vm_compute; discriminate).
  destruct (C4_posted_queue_length SampleTypeSize (sample_model 2)
              sample_node_def (sample_inputs 10) (sample_plan 10 2) Hw Hn)
    as [Hcount Hrun].
  split; [exact Hcount|].
  destruct (post_requests SampleTypeSize (sample_model 2) sample_node_def
              (sample_inputs 10) (sample_plan 10 2)
              (mkPipeline [] []
                 (replicate (Z.to_nat (plan_num_batches (sample_plan 10 2))) []))
              all_ok) as [t r] eqn:Heq.
  assert (Hr : exists st, r = Ret st).
  { pose proof Heq as Heq'. vm_compute in Heq'. injection Heq' as _ <-. by eexists. }
  destruct Hr as [st ->].
  destruct (Hrun all_ok t st Heq) as (Hq & _ & Hassert).
  cbn [snd returned]. split; [|apply Hassert].
  rewrite Hq. vm_compute. reflexivity.
Defined.

(** ** C1: set up, wait, post *)

Lemma occurs_before_sound a b l :
  occurs_before a b l -> occurs_beforeb a b l = true.
Proof.
  intros (l1 & l2 & l3 & ->). induction l1 as [|x l1 IH]; simpl.
  - rewrite bool_decide_eq_true_2 by done.
    rewrite bool_decide_eq_true_2; [done|].
    apply elem_of_app. right. left.
  - rewrite IH. apply orb_true_r.
Qed.

Lemma segment_of_app_r s l k : segment_of s l -> segment_of s (k ++ l).
Proof.
  intros (pre & suf & ->). exists (k ++ pre), suf. by rewrite <- app_assoc.
Qed.

Lemma segment_of_app_l s l k : segment_of s l -> segment_of s (l ++ k).
Proof.
  intros (pre & suf & ->). exists pre, (suf ++ k). by rewrite <- !app_assoc.
Qed.

Lemma segment_of_flat_map {X} (f : X -> list Call) (l : list X) (x : X) :
  x ∈ l -> segment_of (f x) (flat_map f l).
Proof. apply flat_map_split. Qed.

Lemma segment_occurs_before a b pre mid suf l :
  segment_of (pre ++ a :: mid ++ b :: suf) l -> occurs_before a b l.
Proof.
  intros (l1 & l2 & ->). exists (l1 ++ pre), mid, (suf ++ l2).
  rewrite <- !app_assoc. simpl. rewrite <- !app_assoc. done.
Qed.

(** C1 as stated fails: with a window of one request and three sub-batches
    (runtime batch 10, hardware batch 4), on a run in which no call fails,
    the post of request 1 is not issued before the wait on request 0; the
    wait comes first. *)
Lemma C1_post_before_wait_counterexample :
  window_size_of 1 (num_batches_of 10 4) = 1
  /\ num_batches_of 10 4 = 3
  /\ outcome (compute SampleTypeSize (sample_model 1) 1 sample_node_def
                (sample_inputs 10)) all_ok = Ret tt
  /\ ~ occurs_before (post_infer (io_batch 1)) (wait_infer (io_batch 0))
        (trace (compute SampleTypeSize (sample_model 1) 1 sample_node_def
                  (sample_inputs 10)) all_ok)
  /\ occurs_before (wait_infer (io_batch 0)) (post_infer (io_batch 1))
        (trace (compute SampleTypeSize (sample_model 1) 1 sample_node_def
                  (sample_inputs 10)) all_ok).
Proof.
  split_and!.
  - vm_compute; reflexivity.
  - vm_compute; reflexivity.
  - vm_compute; reflexivity.
  - intros Hb. apply occurs_before_sound in Hb. vm_compute in Hb. discriminate.
  - set (l := trace _ _).
    exists (take 14 l), [], (drop 16 l). vm_compute. reflexivity.
Qed.

(** C1, amended.  On a run of the dynamic-batch path that falls through,
    for every sub-batch [b] of the steady phase
    ([window_size <= b < num_batches]) the calls are, one right after the
    other: the runtime I/O of request [b] is set up, its inference is set up
    (setup_infer or setup_infer_post), the oldest outstanding request
    [b - window_size] is waited for, request [b] is posted (post_infer or
    post_infer_post), and request [b - window_size] is finished.  So the
    set-up of [b] precedes the wait, and the post of [b] follows it. *)
Theorem C1_steady_setup_wait_post {DataType} (DataTypeSize : DataType -> Z)
    (model : NeuronModel) (num_outputs : nat) (node_def : NodeDef DataType)
    (input_tensors : list (Tensor DataType)) (bi : BatchInfo)
    (o : Oracle) (t : list Event) (st : Pipeline DataType) (b : Z) :
  let R := batch_size bi in
  let H := k_batch_size bi in
  let n := num_batches_of R H in
  let w := window_size_of (max_num_infers_ model) n in
  let plan := dynamic_plan model num_outputs node_def input_tensors bi in
  1 <= R -> 1 <= H -> plan_fits R H ->
  dynamic_path DataTypeSize model num_outputs node_def input_tensors bi o = (t, Ret st) ->
  w <= b < n ->
  segment_of
    [request_call input_tensors plan b; setup_call plan b;
     wait_infer (io_batch (b - w)); post_call plan b; finish (io_batch (b - w))]
    (calls_of t)
  /\ occurs_before (setup_call plan b) (wait_infer (io_batch (b - w))) (calls_of t)
  /\ occurs_before (wait_infer (io_batch (b - w))) (post_call plan b) (calls_of t).
Proof.
  intros R H n w plan HR HH Hfit Hrun Hb.
  destruct (dynamic_path_returns DataTypeSize model num_outputs node_def
              input_tensors bi o t st HR HH Hfit Hrun) as [Hcalls _].
  assert (Hseg : segment_of (steady_calls input_tensors plan b) (calls_of t)).
  { rewrite Hcalls. unfold dynamic_calls.
    do 2 apply segment_of_app_r. fold plan. unfold pipeline_calls.
    do 2 apply segment_of_app_r. apply segment_of_app_l.
    unfold locked_calls. apply segment_of_app_r, segment_of_app_l.
    unfold post_requests_calls. apply segment_of_app_r.
    apply segment_of_flat_map. apply elem_of_seqZ.
    change (plan_window_size plan) with w. change (plan_num_batches plan) with n.
    lia. }
  unfold steady_calls in Hseg.
  replace (plan_window_size plan) with w in Hseg by reflexivity.
  split_and!.
  - exact Hseg.
  - apply (segment_occurs_before _ _ [request_call input_tensors plan b] []
             [post_call plan b; finish (io_batch (b - w))]).
    exact Hseg.
  - apply (segment_occurs_before _ _
             [request_call input_tensors plan b; setup_call plan b] []
             [finish (io_batch (b - w))]).
    exact Hseg.
Qed.

(** Three sub-batches with a window of one: the steady turn of request 1. *)
Lemma C1_steady_setup_wait_post_witness :
  segment_of
    [request_call (sample_inputs 10) (sample_plan 10 1) 1; setup_call (sample_plan 10 1) 1;
     wait_infer (io_batch (1 - 1)); post_call (sample_plan 10 1) 1;
     finish (io_batch (1 - 1))]
    (calls_of (sample_run 10 1).1).
Proof.
  refine (proj1
    (C1_steady_setup_wait_post SampleTypeSize (sample_model 1) 1 sample_node_def
       (sample_inputs 10) (sample_info 10) all_ok (sample_run 10 1).1
       (sample_state 10 1) 1 _ _ _ _ _)).
  - simpl; lia.
  - simpl; lia.
  - vm_compute; discriminate.
  - vm_compute; reflexivity.
  - vm_compute. split; [discriminate | reflexivity].
Defined.

(** ** C6: semaphore calls of a run *)


Lemma Forall_flat_map_intro {X} (P : Call -> Prop) (f : X -> list Call) (l : list X) :
  (forall x, Forall P (f x)) -> Forall P (flat_map f l).
Proof.
  intros Hf. induction l as [|x l IH]; simpl; [constructor|].
  apply Forall_app. split; [apply Hf | exact IH].
Qed.





Section SemaphoreCounts.

Context {DataType : Type}.
Variable model : NeuronModel.
Variable node_def : NodeDef DataType.
Variable input_tensors : list (Tensor DataType).
Variable plan : Plan DataType.

Let n := plan_num_batches plan.
Let w := plan_window_size plan.

Hypothesis window_in_range : 0 <= w <= n.











End SemaphoreCounts.


(** ** C5: which sub-batch inputs are copies *)

Lemma segment_of_trans s l l' : segment_of s l -> segment_of l l' -> segment_of s l'.
Proof.
  intros (p1 & s1 & ->) (p2 & s2 & ->). exists (p2 ++ p1), (s1 ++ s2).
  by rewrite <- !app_assoc.
Qed.

Lemma segment_of_refl l : segment_of l l.
Proof. exists [], []. by rewrite app_nil_r. Qed.

(** C5 as stated fails: with a runtime batch of 8 rows and a hardware batch
    of 4, an exact multiple, the input of the last sub-batch is still a
    freshly allocated tensor filled by tensor_memcpy, not a slice view. *)
Lemma C5_copy_when_divisible_counterexample :
  8 mod 4 = 0
  /\ outcome (compute SampleTypeSize (sample_model 5) 1 sample_node_def
                (sample_inputs 8)) all_ok = Ret tt
  /\ tensor_memcpy 1 0 4 8
       ∈ trace (compute SampleTypeSize (sample_model 5) 1 sample_node_def
                  (sample_inputs 8)) all_ok
  /\ (build_inputs 8 4 (pad_batch_size_of 8 4) (num_batches_of 8 4)
        (sample_inputs 8) [true] all_ok).2
     = Ret [[Some (mkTensor DT_FLOAT [4; 3] (buf_input 0) 0)];
            [Some (mkTensor DT_FLOAT [4; 3] (buf_pad 1 0) 0)]].
Proof.
  split_and!.
  - reflexivity.
  - vm_compute; reflexivity.
  - refine (bool_decide_unpack _ _). vm_compute. exact I.
  - vm_compute; reflexivity.
Qed.

(** C5, amended.  For an input that carries the batch dimension (runtime
    batch [R >= 1], hardware batch [H >= 1], padded total within [int64_t]),
    on a run of the request builder that falls through: the input of the
    last sub-batch [num_batches - 1] is always a freshly allocated
    hardware-sized tensor, zeroed from row [H - (pad - R)] on and filled by
    tensor_memcpy from rows [b*H .. R) of the caller's tensor, whether or
    not [H] divides [R]; the input of every earlier sub-batch [b] is the
    slice view of rows [b*H .. b*H + H) of the caller's tensor; and the
    builder issues tensor_memset and tensor_memcpy for the last sub-batch
    only. *)
Theorem C5_copy_for_last_sub_batch {DataType}
    (input_tensors : list (Tensor DataType)) (flags : list bool) (R H : Z)
    (o : Oracle) (t : list Event) (batches : list (list (option (Tensor DataType))))
    (b : Z) (idx : nat) (input : Tensor DataType) :
  let n := num_batches_of R H in
  let pad := pad_batch_size_of R H in
  1 <= R -> 1 <= H -> plan_fits R H ->
  build_inputs R H pad n input_tensors flags o = (t, Ret batches) ->
  0 <= b < n ->
  input_tensors !! idx = Some input ->
  flags !! idx = Some true ->
  (exists row sub,
     batches !! Z.to_nat b = Some row
     /\ row !! idx = Some (Some sub)
     /\ (b = n - 1 ->
         sub = mkTensor (dtype input) (set_dim0 H (shape input)) (buf_pad b idx) 0
         /\ segment_of [tensor_memset b idx (H - (pad - R)) H;
                        tensor_memcpy b idx (b * H) R] (calls_of t))
     /\ (b <> n - 1 ->
         sub = Slice input (b * H) (b * H + H) /\ buf sub = buf input))
  /\ Forall (fun c => exists idx' s l,
                 c = tensor_memset (n - 1) idx' s l
                 \/ c = tensor_memcpy (n - 1) idx' s l) (calls_of t).
Proof.
  intros n pad HR HH Hfit Hrun Hb Hinput Hflag.
  destruct (build_inputs_follows input_tensors R H pad n flags o) as [_ Hret].
  rewrite Hrun in Hret. destruct (Hret batches eq_refl) as [Hcalls ->]. clear Hret.
  cbn [fst] in Hcalls.
  destruct (plan_arith R H HR HH Hfit) as [Hpad Hn]. fold n in Hn. fold pad in Hpad.
  destruct (ceil_div_bounds R H HR HH) as [Hn1 [Hlo Hhi]].
  rewrite <- Hn in Hn1, Hlo, Hhi, Hpad.
  assert (Hmax : n * H <= int64_max) by (unfold plan_fits in Hfit; by rewrite Hn).
  assert (Hn64 : n <= int64_max) by nia.
  assert (Hlast : sub64 n 1 = n - 1) by (apply sub64_small; lia).
  assert (Hz : zip (seq 0 (length input_tensors)) (zip input_tensors flags) !! idx
               = Some (idx, (input, true))).
  { apply lookup_zip_Some. split.
    - apply lookup_seq. split; [done|]. by apply lookup_lt_Some in Hinput.
    - by apply lookup_zip_Some. }
  assert (Hrow : build_value input_tensors H n flags !! Z.to_nat b
                 = Some ((fun p : nat * (Tensor DataType * bool) =>
                            build_input_value H n b p.1 p.2.1 p.2.2)
                           <$> zip (seq 0 (length input_tensors))
                                   (zip input_tensors flags))).
  { unfold build_value. rewrite list_lookup_fmap, lookup_seqZ_lt by lia.
    rewrite Z.add_0_l, Z2Nat.id by lia. reflexivity. }
  assert (Hsub : ((fun p : nat * (Tensor DataType * bool) =>
                     build_input_value H n b p.1 p.2.1 p.2.2)
                    <$> zip (seq 0 (length input_tensors)) (zip input_tensors flags))
                 !! idx
                 = Some (build_input_value H n b idx input true)).
  { by rewrite list_lookup_fmap, Hz. }
  split.
  - destruct (decide (b = n - 1)) as [Heq|Hne].
    + eexists _, _. split_and!; [exact Hrow | | | lia].
      * rewrite Hsub. unfold build_input_value. rewrite Hlast.
        rewrite bool_decide_eq_true_2 by done. reflexivity.
      * intros _. split; [done|].
        rewrite Hcalls. unfold build_calls.
        eapply segment_of_trans;
          [|apply (segment_of_flat_map _ _ b); apply elem_of_seqZ; lia].
        eapply segment_of_trans;
          [|apply (segment_of_flat_map _ _ (idx, (input, true)));
            by eapply list_elem_of_lookup_2].
        unfold build_input_calls. cbn [fst snd andb]. rewrite Hlast.
        rewrite bool_decide_eq_true_2 by lia.
        rewrite (mul64_small b H n) by lia.
        rewrite (sub64_small pad R) by lia.
        rewrite (sub64_small H (pad - R)) by nia.
        apply segment_of_refl.
    + eexists _, _. split_and!; [exact Hrow | | lia | ].
      * rewrite Hsub. unfold build_input_value. rewrite Hlast.
        rewrite bool_decide_eq_false_2 by done. reflexivity.
      * intros _.
        rewrite (row_limit_small b H n), (mul64_small b H n) by lia. done.
  - rewrite Hcalls. unfold build_calls.
    apply Forall_flat_map_intro. intros b'.
    apply Forall_flat_map_intro. intros [idx' [input' flag']].
    unfold build_input_calls. cbn [fst snd]. rewrite Hlast.
    destruct flag'; [|constructor]. cbn [andb].
    case_bool_decide as Hb'; [|constructor]. subst b'.
    repeat constructor; eauto.
Qed.

(** On the sample with 10 rows the builder copies for sub-batch 2 only. *)
Lemma C5_copy_for_last_sub_batch_witness :
  Forall (fun c => exists idx' s l,
              c = tensor_memset (num_batches_of 10 4 - 1) idx' s l
              \/ c = tensor_memcpy (num_batches_of 10 4 - 1) idx' s l)
    (calls_of (build_inputs 10 4 (pad_batch_size_of 10 4) (num_batches_of 10 4)
                 (sample_inputs 10) [true] all_ok).1).
Proof.
  refine (proj2
    (C5_copy_for_last_sub_batch (sample_inputs 10) [true] 10 4 all_ok
       (build_inputs 10 4 (pad_batch_size_of 10 4) (num_batches_of 10 4)
          (sample_inputs 10) [true] all_ok).1
       (returned [] (build_inputs 10 4 (pad_batch_size_of 10 4) (num_batches_of 10 4)
          (sample_inputs 10) [true] all_ok).2)
       2 0%nat (mkTensor DT_FLOAT [10; 3] (buf_input 0) 0) _ _ _ _ _ _ _)).
  - lia.
  - lia.
  - vm_compute; discriminate.
  - vm_compute; reflexivity.
  - vm_compute. split; [discriminate | reflexivity].
  - reflexivity.
  - reflexivity.
Defined.

(** ** C7: equal batch sizes bypass dynamic batching *)

Lemma ofor_each_invariant {I St} (P : St -> Prop) (l : list I)
    (body : I -> St -> Outcome St) :
  (forall i st st', P st -> body i st = Ret st' -> P st') ->
  forall st st', P st -> ofor_each l body st = Ret st' -> P st'.
Proof.
  intros Hbody. induction l as [|i l IH]; intros st st' HP; simpl.
  - by intros [= <-].
  - destruct (body i st) as [st1| |] eqn:Hb; simpl; [|done|done].
    apply IH. by eapply Hbody.
Qed.

Lemma TFNN_ASSERT_Ret cond error u : TFNN_ASSERT cond error = Ret u -> cond = true.
Proof. unfold TFNN_ASSERT. by destruct cond. Qed.

Lemma init_batch_info_sound num_inputs num_outputs :
  flags_sound (init_batch_info num_inputs num_outputs).
Proof.
  unfold flags_sound, init_batch_info. cbn. split_and!.
  - apply Forall_replicate. done.
  - apply Forall_replicate. done.
  - done.
  - intros _. split_and!; [done | by apply Forall_replicate | done].
Qed.

Lemma analyse_input_sound {DataType} (node_def : NodeDef DataType) idx
    (tptr : Tensor DataType) bi bi' :
  flags_sound bi ->
  Forall (fun f => f = false) (is_batch_output_tensors bi) ->
  analyse_input node_def idx tptr bi = Ret bi' ->
  flags_sound bi' /\ Forall (fun f => f = false) (is_batch_output_tensors bi').
Proof.
  intros (Hin & Hout & Hdyn & Huninit) Hfalse. unfold analyse_input.
  case_bool_decide as Haxis.
  - destruct (TFNN_ASSERT _ _) as [[]| |]; cbn [obind]; [|done|done].
    case_bool_decide as Hun.
    + destruct (input_shapes node_def !!! idx) as [|kd krest] eqn:Hk;
        cbn [obind]; [done|].
      destruct (TFNN_ASSERT (bool_decide (hd 0 (shape tptr) > 0)) _) as [[]| |] eqn:Hpos;
        cbn [obind]; [|done|done].
      apply TFNN_ASSERT_Ret, bool_decide_eq_true_1 in Hpos.
      destruct (TFNN_ASSERT _ _) as [[]| |]; cbn [obind]; [|done|done].
      intros [= <-].
      destruct (Huninit (eq_sym Hun)) as (_ & Hallfalse & _).
      unfold flags_sound. cbn. split_and!.
      * apply Forall_insert; [|by intros ?%bool_decide_eq_true_1].
        eapply Forall_impl; [exact Hallfalse|]. by intros f ->.
      * eapply Forall_impl; [exact Hfalse|]. by intros f ->.
      * by intros ?%bool_decide_eq_true_1.
      * unfold UNINIT_BATCH_SIZE. lia.
      * exact Hfalse.
    + destruct (TFNN_ASSERT _ _) as [[]| |]; cbn [obind]; [|done|done].
      destruct (input_shapes node_def !!! idx) as [|kd krest] eqn:Hk; [done|].
      destruct (TFNN_ASSERT _ _) as [[]| |]; cbn [obind]; [|done|done].
      intros [= <-]. unfold flags_sound. cbn. split_and!.
      * apply Forall_insert; [exact Hin|]. by intros ?%bool_decide_eq_true_1.
      * exact Hout.
      * by intros ?%bool_decide_eq_true_1.
      * intros Heq. by destruct Hun.
      * exact Hfalse.
  - destruct (TFNN_ASSERT _ _) as [[]| |]; cbn [obind]; [|done|done].
    intros [= <-]. unfold flags_sound. cbn. split_and!.
    + apply Forall_insert; [exact Hin | done].
    + exact Hout.
    + exact Hdyn.
    + intros Heq. destruct (Huninit Heq) as (Hk & Hall & Hd).
      split_and!; [exact Hk | by apply Forall_insert | exact Hd].
    + exact Hfalse.
Qed.

Lemma analyse_output_sound {DataType} (node_def : NodeDef DataType) idx bi bi' :
  flags_sound bi ->
  analyse_output node_def idx bi = Ret bi' ->
  flags_sound bi'.
Proof.
  intros (Hin & Hout & Hdyn & Huninit). unfold analyse_output.
  case_bool_decide as Haxis.
  - destruct (TFNN_ASSERT _ _) as [[]| |]; cbn [obind]; [|done|done].
    destruct (TFNN_ASSERT (bool_decide (k_batch_size bi = _)) _) as [[]| |] eqn:Hk;
      cbn [obind]; [|done|done].
    apply TFNN_ASSERT_Ret, bool_decide_eq_true_1 in Hk.
    case_bool_decide; [|done]. intros [= <-].
    unfold flags_sound. cbn. split_and!; [exact Hin | | exact Hdyn | exact Huninit].
    apply Forall_insert; [exact Hout|].
    intros ?%bool_decide_eq_true_1. by rewrite Hk.
  - cbn [obind]. case_bool_decide; [|done]. intros [= <-].
    unfold flags_sound. cbn. split_and!; [exact Hin | | exact Hdyn | exact Huninit].
    apply Forall_insert; [exact Hout | done].
Qed.

Lemma batch_analysis_sound {DataType} num_outputs (node_def : NodeDef DataType)
    (input_tensors : list (Tensor DataType)) bi :
  batch_analysis num_outputs node_def input_tensors = Ret bi -> flags_sound bi.
Proof.
  unfold batch_analysis.
  pose proof (init_batch_info_sound (length input_tensors) num_outputs) as H0.
  destruct (_ && _); [|by intros [= <-]].
  destruct (ofor_each (zip _ _) _ _) as [bi1| |] eqn:Hin; cbn [obind]; [|done|done].
  assert (H1 : flags_sound bi1
               /\ Forall (fun f => f = false) (is_batch_output_tensors bi1)).
  { revert Hin.
    apply (ofor_each_invariant
             (fun b => flags_sound b
                       /\ Forall (fun f => f = false) (is_batch_output_tensors b))).
    - intros [idx tptr] st st' [Hs Hf] Hb. by eapply analyse_input_sound.
    - split; [exact H0|]. cbn. by apply Forall_replicate. }
  apply (ofor_each_invariant flags_sound).
  - intros idx st st' Hs Hb. by eapply analyse_output_sound.
  - apply H1.
Qed.

Lemma single_shot_follows {DataType} (DataTypeSize : DataType -> Z) model num_outputs
    (node_def : NodeDef DataType) (input_tensors : list (Tensor DataType)) :
  Follows (single_shot DataTypeSize model num_outputs node_def input_tensors)
          (single_shot_calls model num_outputs node_def input_tensors) tt.
Proof.
  unfold single_shot, single_shot_calls.
  eapply Follows_bind; [apply allocate_outputs_follows|].
  change (?a :: ?b :: ?c :: ?d :: ?e :: nil) with ([a] ++ [b] ++ [c] ++ [d] ++ [e]).
  eapply Follows_seq; [apply Follows_RIE_IGNORE_ABORTED|].
  eapply Follows_seq; [apply Follows_session_alive|].
  apply Follows_lift_bind. intros _ _.
  eapply Follows_seq; [apply Follows_RIE_IGNORE_ABORTED|].
  eapply Follows_seq; [|apply Follows_RIE_IGNORE_ABORTED].
  destruct (profile_enabled_ model); apply Follows_RIE_IGNORE_ABORTED.
Qed.

(** [compute] with the batch analysis known to have produced [bi]. *)
Lemma compute_with_info {DataType} (DataTypeSize : DataType -> Z) model num_outputs
    (node_def : NodeDef DataType) (input_tensors : list (Tensor DataType)) bi o :
  batch_analysis num_outputs node_def input_tensors = Ret bi ->
  compute DataTypeSize model num_outputs node_def input_tensors o
  = (lift (check_arguments DataTypeSize node_def input_tensors) ;;
     lift (TFNN_ASSERT (bool_decide (num_outputs = length (output_names node_def)))
             (errors.InvalidArgument "incorrect number of output tensors")) ;;
     run_branch DataTypeSize model num_outputs node_def input_tensors bi) o.
Proof.
  intros Hbi. unfold compute, bind, lift. rewrite Hbi.
  destruct (check_arguments DataTypeSize node_def input_tensors); [|done|done].
  cbn [length]. destruct (TFNN_ASSERT _ _); [|done|done].
  cbn [length]. change (shift 0 (shift 0 (shift 0 o))) with (shift 0 (shift 0 o)).
  by destruct (run_branch _ _ _ _ _ _ _).
Qed.

(** C7.  Whenever the batch analysis completes with the runtime batch size
    equal to the hardware batch size, every carries-batch flag of the inputs
    and of the outputs is false and so is use_dynamic_batch_size; [compute]
    then takes the single-shot branch, whose calls are those of the
    single-shot list only: the outputs allocated at their declared shape and
    one request, set up on the caller's input tensors and on these outputs
    as they are.  Nothing is sliced or padded. *)
Theorem C7_equal_batch_sizes_single_shot {DataType} (DataTypeSize : DataType -> Z)
    (model : NeuronModel) (num_outputs : nat) (node_def : NodeDef DataType)
    (input_tensors : list (Tensor DataType)) (bi : BatchInfo) :
  batch_analysis num_outputs node_def input_tensors = Ret bi ->
  batch_size bi = k_batch_size bi ->
  Forall (fun f => f = false) (is_batch_input_tensors bi)
  /\ Forall (fun f => f = false) (is_batch_output_tensors bi)
  /\ use_dynamic_batch_size bi = false
  /\ run_branch DataTypeSize model num_outputs node_def input_tensors bi
     = single_shot DataTypeSize model num_outputs node_def input_tensors
  /\ (forall o : Oracle,
        compute DataTypeSize model num_outputs node_def input_tensors o
        = (lift (check_arguments DataTypeSize node_def input_tensors) ;;
           lift (TFNN_ASSERT (bool_decide (num_outputs = length (output_names node_def)))
                   (errors.InvalidArgument "incorrect number of output tensors")) ;;
           single_shot DataTypeSize model num_outputs node_def input_tensors) o)
  /\ (forall o : Oracle,
        trace (single_shot DataTypeSize model num_outputs node_def input_tensors) o
          `prefix_of` single_shot_calls model num_outputs node_def input_tensors).
Proof.
  intros Hbi Heq.
  destruct (batch_analysis_sound _ _ _ _ Hbi) as (Hin & Hout & Hdyn & _).
  assert (Hfalse : forall l : list bool,
            Forall (fun f => f = true -> batch_size bi <> k_batch_size bi) l ->
            Forall (fun f => f = false) l).
  { intros l Hl. eapply Forall_impl; [exact Hl|].
    intros [] Hf; [by destruct (Hf eq_refl) | done]. }
  assert (Hd : use_dynamic_batch_size bi = false).
  { destruct (use_dynamic_batch_size bi); [by destruct (Hdyn eq_refl) | done]. }
  assert (Hbranch : run_branch DataTypeSize model num_outputs node_def input_tensors bi
                    = single_shot DataTypeSize model num_outputs node_def input_tensors).
  { unfold run_branch. by rewrite Hd. }
  split_and!; [by apply Hfalse | by apply Hfalse | exact Hd | exact Hbranch | |].
  - intros o. rewrite (compute_with_info _ _ _ _ _ bi o Hbi). by rewrite Hbranch.
  - intros o. apply single_shot_follows.
Qed.

(** Four rows on a model compiled for four: the single-shot calls. *)
Lemma C7_equal_batch_sizes_single_shot_witness :
  trace (compute SampleTypeSize (sample_model 5) 1 sample_node_def (sample_inputs 4))
        all_ok
  = [allocate_output 0 None; initialize; get_session;
     setup_scoped_runtime_io io_single [mkRegion (buf_input 0) 0 [4; 3]]
       [mkRegion (buf_output 0) 0 [4; 2]];
     infer io_single; finish io_single].
Proof.
  assert (Ha : batch_analysis 1 sample_node_def (sample_inputs 4)
               = Ret (mkBatchInfo 4 4 [false] [false] false))
    by (vm_compute; reflexivity).
  unfold trace.
  rewrite (proj1 (proj2 (proj2 (proj2 (proj2
    (C7_equal_batch_sizes_single_shot SampleTypeSize (sample_model 5) 1
       sample_node_def (sample_inputs 4) (mkBatchInfo 4 4 [false] [false] false)
       Ha eq_refl))))) all_ok).
  vm_compute. reflexivity.
Defined.

(** ** C10: misaligned batch-axis lists *)

(** C10.  When some input declares a batch axis other than -1 but the input
    batch-axis list and the input names differ in length, or the output
    batch-axis list and the output names do, the batch analysis does nothing
    and raises nothing: it leaves batch size and flags as initialised, with
    use_dynamic_batch_size false, and [compute] goes on as if the block were
    not there, into the single-shot branch. *)
Theorem C10_misaligned_axis_lists_skip_analysis {DataType}
    (DataTypeSize : DataType -> Z) (model : NeuronModel) (num_outputs : nat)
    (node_def : NodeDef DataType) (input_tensors : list (Tensor DataType)) :
  enable_dynamic_batch_size node_def = true ->
  length (input_batch_axis node_def) <> length (input_names node_def)
  \/ length (output_batch_axis node_def) <> length (output_names node_def) ->
  batch_analysis num_outputs node_def input_tensors
  = Ret (init_batch_info (length input_tensors) num_outputs)
  /\ use_dynamic_batch_size (init_batch_info (length input_tensors) num_outputs) = false
  /\ forall o : Oracle,
       compute DataTypeSize model num_outputs node_def input_tensors o
       = (lift (check_arguments DataTypeSize node_def input_tensors) ;;
          lift (TFNN_ASSERT (bool_decide (num_outputs = length (output_names node_def)))
                  (errors.InvalidArgument "incorrect number of output tensors")) ;;
          single_shot DataTypeSize model num_outputs node_def input_tensors) o.
Proof.
  intros Hen Hlen.
  assert (Hbi : batch_analysis num_outputs node_def input_tensors
                = Ret (init_batch_info (length input_tensors) num_outputs)).
  { unfold batch_analysis. rewrite Hen. cbn [andb].
    destruct Hlen as [Hl|Hl].
    - by rewrite (bool_decide_eq_false_2 (length (input_names node_def) = _)).
    - rewrite (bool_decide_eq_false_2 (length (output_names node_def) = _)) by done.
      by rewrite andb_false_r. }
  split_and!; [exact Hbi | done |].
  intros o. by rewrite (compute_with_info _ _ _ _ _ _ o Hbi).
Qed.

(** Two batch axes declared for one input name: the single-shot calls. *)
Lemma C10_misaligned_axis_lists_skip_analysis_witness :
  trace (compute SampleTypeSize (sample_model 5) 1 misaligned_node_def (sample_inputs 4))
        all_ok
  = [allocate_output 0 None; initialize; get_session;
     setup_scoped_runtime_io io_single [mkRegion (buf_input 0) 0 [4; 3]]
       [mkRegion (buf_output 0) 0 [4; 2]];
     infer io_single; finish io_single].
Proof.
  assert (Hlen : length (input_batch_axis misaligned_node_def)
                 <> length (input_names misaligned_node_def)
                 \/ length (output_batch_axis misaligned_node_def)
                    <> length (output_names misaligned_node_def))
    by (left; vm_compute; discriminate).
  unfold trace.
  rewrite (proj2 (proj2
    (C10_misaligned_axis_lists_skip_analysis SampleTypeSize (sample_model 5) 1
       misaligned_node_def (sample_inputs 4) eq_refl Hlen)) all_ok).
  vm_compute. reflexivity.
Defined.

(** ** C9: malformed metadata fails before any call *)

Lemma get_io_tensor_sizes_mismatch {DataType} (DataTypeSize : DataType -> Z)
    (ins outs : bool) (node_def : NodeDef DataType) :
  metadata_mismatch node_def ->
  exists s, get_io_tensor_sizes DataTypeSize ins outs node_def = Fail s
            /\ code s = FAILED_PRECONDITION.
Proof.
  unfold metadata_mismatch, get_io_tensor_sizes. intros Hm.
  repeat case_bool_decide; cbn [orb]; eauto; tauto.
Qed.

Lemma get_io_tensor_sizes_Ret {DataType} (DataTypeSize : DataType -> Z)
    (ins outs : bool) (node_def : NodeDef DataType) sizes :
  get_io_tensor_sizes DataTypeSize ins outs node_def = Ret sizes ->
  ~ metadata_mismatch node_def.
Proof.
  intros Hr Hm. destruct (get_io_tensor_sizes_mismatch DataTypeSize ins outs node_def Hm)
    as (s & Hs & _). congruence.
Qed.

(** C9 as stated fails: with a name and no type for the input, and so no
    input tensor, the invocation fails with an invalid-argument error, not a
    precondition error. *)
Lemma C9_precondition_error_counterexample :
  metadata_mismatch mismatched_node_def
  /\ compute SampleTypeSize (sample_model 5) 1 mismatched_node_def [] all_ok
     = ([], Fail (errors.InvalidArgument "incorrect number of input tensors"))
  /\ code (errors.InvalidArgument "incorrect number of input tensors")
     <> FAILED_PRECONDITION.
Proof.
  split_and!.
  - left. vm_compute. discriminate.
  - vm_compute. reflexivity.
  - discriminate.
Qed.

(** C9, amended.  When the name, type and shape lists of the static metadata
    disagree in length, on the input or on the output side, [compute] fails
    before any call to a collaborator, whatever they would have answered:
    with a precondition error when the number of input tensors equals the
    number of input names, and with the invalid-argument error of the check
    of line 167, which comes first, when it does not. *)
Theorem C9_metadata_mismatch_fails_first {DataType} (DataTypeSize : DataType -> Z)
    (model : NeuronModel) (num_outputs : nat) (node_def : NodeDef DataType)
    (input_tensors : list (Tensor DataType)) (o : Oracle) :
  metadata_mismatch node_def ->
  exists s,
    compute DataTypeSize model num_outputs node_def input_tensors o = ([], Fail s)
    /\ (length input_tensors = length (input_names node_def) ->
        code s = FAILED_PRECONDITION)
    /\ (length input_tensors <> length (input_names node_def) ->
        s = errors.InvalidArgument "incorrect number of input tensors").
Proof.
  intros Hm.
  destruct (get_io_tensor_sizes_mismatch DataTypeSize true true node_def Hm)
    as (s & Hs & Hcode).
  unfold compute, bind, lift, check_arguments, TFNN_ASSERT.
  case_bool_decide as Hlen; cbn [obind].
  - rewrite Hs. exists s. split_and!; [done | done | done].
  - eexists. split_and!; [done | done | done].
Qed.

(** A name without a type for the input: no call is made. *)
Lemma C9_metadata_mismatch_fails_first_witness :
  exists s,
    compute SampleTypeSize (sample_model 5) 1 mismatched_node_def (sample_inputs 10)
      all_ok = ([], Fail s)
    /\ (length (sample_inputs 10) = length (input_names mismatched_node_def) ->
        code s = FAILED_PRECONDITION)
    /\ (length (sample_inputs 10) <> length (input_names mismatched_node_def) ->
        s = errors.InvalidArgument "incorrect number of input tensors").
Proof.
  apply (C9_metadata_mismatch_fails_first SampleTypeSize (sample_model 5) 1
           mismatched_node_def (sample_inputs 10) all_ok).
  left. vm_compute. discriminate.
Defined.

(** ** C8: the ignore-aborted call sites *)

Lemma NoIgnoreAborted_ret {A} (a : A) : NoIgnoreAborted (ret a).
Proof. intros o. constructor. Qed.

Lemma NoIgnoreAborted_TF_RETURN_IF_ERROR c : NoIgnoreAborted (TF_RETURN_IF_ERROR c).
Proof. intros o. repeat constructor. done. Qed.

Lemma NoIgnoreAborted_bind {A B} (m : M A) (f : A -> M B) :
  NoIgnoreAborted m -> (forall a, NoIgnoreAborted (f a)) -> NoIgnoreAborted (bind m f).
Proof.
  intros Hm Hf o. unfold bind. specialize (Hm o).
  destruct (m o) as [t1 [a| |]]; cbn [fst] in *; [|done|done].
  specialize (Hf a (shift (length t1) o)).
  destruct (f a (shift (length t1) o)) as [t2 r]. cbn [fst] in *.
  apply Forall_app. done.
Qed.

Lemma NoIgnoreAborted_for_each {I St} (l : list I) (body : I -> St -> M St) :
  (forall i st, NoIgnoreAborted (body i st)) ->
  forall st, NoIgnoreAborted (for_each l body st).
Proof.
  intros Hbody. induction l as [|i l IH]; intros st; simpl.
  - apply NoIgnoreAborted_ret.
  - apply NoIgnoreAborted_bind; [apply Hbody | apply IH].
Qed.

Lemma allocate_outputs_no_ignore_aborted {DataType} flags num_outputs
    (node_def : NodeDef DataType) :
  NoIgnoreAborted (allocate_outputs flags num_outputs node_def).
Proof.
  unfold allocate_outputs. apply NoIgnoreAborted_for_each. intros p acc.
  apply NoIgnoreAborted_bind; [apply NoIgnoreAborted_TF_RETURN_IF_ERROR|].
  intros _. apply NoIgnoreAborted_ret.
Qed.

Lemma alloc_calls_complete {DataType} flags num_outputs (node_def : NodeDef DataType)
    (idx : nat) :
  num_outputs = length (output_dtypes node_def) ->
  num_outputs = length (output_shapes node_def) ->
  (idx < num_outputs)%nat ->
  allocate_output idx (output_dim0 flags idx) ∈ alloc_calls num_outputs node_def flags.
Proof.
  intros Hd Hs Hidx. unfold alloc_calls.
  destruct (lookup_lt_is_Some_2 (output_dtypes node_def) idx ltac:(lia)) as [dt Hdt].
  destruct (lookup_lt_is_Some_2 (output_shapes node_def) idx ltac:(lia)) as [sh Hsh].
  apply list_elem_of_fmap. exists (idx, (dt, sh)). split; [done|].
  apply (list_elem_of_lookup_2 _ idx). apply lookup_zip_Some. split.
  - apply lookup_seq. split; [done | lia].
  - by apply lookup_zip_Some.
Qed.

Lemma split_after_prefix {X} (P : X -> Prop) (t1 t2 pre suf : list X) (e : X) :
  Forall P t1 -> ~ P e -> t1 ++ t2 = pre ++ e :: suf ->
  exists pre', pre = t1 ++ pre'.
Proof.
  revert pre. induction t1 as [|x t1 IH]; intros pre Ht1 He Heq.
  - by exists pre.
  - apply Forall_cons in Ht1 as [Hx Ht1].
    destruct pre as [|y pre]; simpl in Heq.
    + injection Heq as -> _. done.
    + injection Heq as -> Heq. destruct (IH pre Ht1 He Heq) as [pre' ->].
      by exists pre'.
Qed.

Lemma allocated_before_nil n : allocated_before n [].
Proof. intros pre e suf Heq. by destruct pre. Qed.

(** Once a block that allocates every output and has no ignore-aborted site
    has run, whatever follows comes after the allocations. *)
Lemma allocated_before_bind {A B} (n : nat) (m : M A) (f : A -> M B) (o : Oracle) :
  NoIgnoreAborted m ->
  (forall t1 a, m o = (t1, Ret a) ->
     forall idx, (idx < n)%nat -> exists dim0, allocate_output idx dim0 ∈ calls_of t1) ->
  allocated_before n (bind m f o).1.
Proof.
  intros Hno Hall pre e suf Heq He idx Hidx.
  unfold bind in Heq. specialize (Hno o).
  destruct (m o) as [t1 r1] eqn:Hm. cbn [fst] in Hno.
  assert (Hnot : ~ (fun e => ev_policy e <> by_RIE_IGNORE_ABORTED) e) by tauto.
  destruct r1 as [a|s|]; cbn [fst] in Heq.
  - destruct (f a (shift (length t1) o)) as [t2 r2]. cbn [fst] in Heq.
    destruct (split_after_prefix _ _ _ _ _ _ Hno Hnot Heq) as [pre' ->].
    destruct (Hall t1 a eq_refl idx Hidx) as [dim0 Hin].
    exists dim0. rewrite calls_of_app. apply elem_of_app. by left.
  - rewrite <- (app_nil_r t1) in Heq.
    destruct (split_after_prefix _ _ _ _ _ _ Hno Hnot Heq) as [pre' ->].
    apply (f_equal length) in Heq. rewrite !length_app in Heq. simpl in Heq. lia.
  - rewrite <- (app_nil_r t1) in Heq.
    destruct (split_after_prefix _ _ _ _ _ _ Hno Hnot Heq) as [pre' ->].
    apply (f_equal length) in Heq. rewrite !length_app in Heq. simpl in Heq. lia.
Qed.

Lemma allocate_outputs_all {DataType} flags num_outputs (node_def : NodeDef DataType)
    (o : Oracle) t1 outs :
  num_outputs = length (output_dtypes node_def) ->
  num_outputs = length (output_shapes node_def) ->
  allocate_outputs flags num_outputs node_def o = (t1, Ret outs) ->
  forall idx, (idx < num_outputs)%nat ->
    exists dim0, allocate_output idx dim0 ∈ calls_of t1.
Proof.
  intros Hd Hs Hrun idx Hidx.
  destruct (allocate_outputs_follows num_outputs node_def flags o) as [_ Hret].
  rewrite Hrun in Hret. destruct (Hret outs eq_refl) as [Hc _]. cbn [fst] in Hc.
  exists (output_dim0 flags idx). rewrite Hc. by apply alloc_calls_complete.
Qed.

Lemma run_branch_allocated_before {DataType} (DataTypeSize : DataType -> Z) model
    num_outputs (node_def : NodeDef DataType) (input_tensors : list (Tensor DataType))
    bi (o : Oracle) :
  num_outputs = length (output_dtypes node_def) ->
  num_outputs = length (output_shapes node_def) ->
  allocated_before num_outputs
    (run_branch DataTypeSize model num_outputs node_def input_tensors bi o).1.
Proof.
  intros Hd Hs. unfold run_branch.
  destruct (use_dynamic_batch_size bi).
  - assert (Hdyn : allocated_before num_outputs
              (dynamic_path DataTypeSize model num_outputs node_def input_tensors bi o).1).
    { unfold dynamic_path. case_bool_decide; [apply allocated_before_nil|].
      apply allocated_before_bind; [apply allocate_outputs_no_ignore_aborted|].
      intros t1 outs Hrun. by eapply allocate_outputs_all. }
    unfold bind.
    destruct (dynamic_path _ _ _ _ _ _ _) as [t [st| |]]; cbn [fst] in *;
      [|done|done].
    unfold ret. cbn [fst]. by rewrite app_nil_r.
  - unfold single_shot.
    apply allocated_before_bind; [apply allocate_outputs_no_ignore_aborted|].
    intros t1 outs Hrun. by eapply allocate_outputs_all.
Qed.

Lemma compute_allocated_before {DataType} (DataTypeSize : DataType -> Z) model
    num_outputs (node_def : NodeDef DataType) (input_tensors : list (Tensor DataType))
    (o : Oracle) :
  allocated_before num_outputs
    (compute DataTypeSize model num_outputs node_def input_tensors o).1.
Proof.
  unfold compute, bind, lift, check_arguments.
  destruct (TFNN_ASSERT _ _) as [[]| |]; cbn [obind fst];
    [|apply allocated_before_nil|apply allocated_before_nil].
  destruct (get_io_tensor_sizes DataTypeSize true true node_def) as [sizes| |] eqn:Hio;
    cbn [fst]; [|apply allocated_before_nil|apply allocated_before_nil].
  apply get_io_tensor_sizes_Ret in Hio. unfold metadata_mismatch in Hio.
  destruct (batch_analysis _ _ _) as [bi| |]; cbn [fst length];
    [|apply allocated_before_nil|apply allocated_before_nil].
  destruct (TFNN_ASSERT _ _) as [[]| |] eqn:Hout; cbn [fst length];
    [|apply allocated_before_nil|apply allocated_before_nil].
  apply TFNN_ASSERT_Ret, bool_decide_eq_true_1 in Hout.
  pose proof (run_branch_allocated_before DataTypeSize model num_outputs node_def
                input_tensors bi (shift 0 (shift 0 (shift 0 o)))
                ltac:(lia) ltac:(lia)) as Hb.
  destruct (run_branch _ _ _ _ _ _ _) as [t r]. exact Hb.
Qed.

(** C8.  At a call site wrapped by RIE_IGNORE_ABORTED: a status with code
    ABORTED (like an OK status) lets the run go on with what follows the
    call site, as if the step had succeeded; a status with any other non-OK
    code is returned at once and nothing that follows is run.  In every run
    of [compute], every event at such a call site comes after
    ctx->allocate_output has been called for each output. *)
Theorem C8_ignore_aborted :
  (forall {A} (c : Call) (k : M A) (o : Oracle),
     code (o 0%nat c) = ABORTED \/ code (o 0%nat c) = OK ->
     (RIE_IGNORE_ABORTED c ;; k) o
     = (mkEvent c by_RIE_IGNORE_ABORTED (o 0%nat c) :: (k (shift 1 o)).1,
        (k (shift 1 o)).2))
  /\ (forall {A} (c : Call) (k : M A) (o : Oracle),
        code (o 0%nat c) <> ABORTED -> code (o 0%nat c) <> OK ->
        (RIE_IGNORE_ABORTED c ;; k) o
        = ([mkEvent c by_RIE_IGNORE_ABORTED (o 0%nat c)], Fail (o 0%nat c)))
  /\ (forall {DataType} (DataTypeSize : DataType -> Z) (model : NeuronModel)
             (num_outputs : nat) (node_def : NodeDef DataType)
             (input_tensors : list (Tensor DataType)) (o : Oracle),
        allocated_before num_outputs
          (compute DataTypeSize model num_outputs node_def input_tensors o).1).
Proof.
  split_and!.
  - intros A c k o Hcode. unfold bind, RIE_IGNORE_ABORTED, ok.
    destruct Hcode as [Hc|Hc]; rewrite Hc.
    + rewrite bool_decide_eq_false_2 by (intros Hne; by apply Hne).
      cbn [length]. by destruct (k (shift 1 o)).
    + rewrite bool_decide_eq_true_2 by done.
      rewrite bool_decide_eq_true_2 by done.
      cbn [length]. by destruct (k (shift 1 o)).
  - intros A c k o Hna Hnok. unfold bind, RIE_IGNORE_ABORTED, ok.
    rewrite bool_decide_eq_true_2 by done.
    by rewrite bool_decide_eq_false_2 by done.
  - intros DataType DataTypeSize model num_outputs node_def input_tensors o.
    apply compute_allocated_before.
Qed.

(** start_ping answering ABORTED, then UNAVAILABLE. *)
Lemma C8_ignore_aborted_witness :
  (RIE_IGNORE_ABORTED start_ping ;; TF_RETURN_IF_ERROR acquire_sem)
    (aborts_at start_ping)
  = ([mkEvent start_ping by_RIE_IGNORE_ABORTED (mkStatus ABORTED "aborted");
      mkEvent acquire_sem by_TF_RETURN_IF_ERROR Status_OK], Ret tt)
  /\ (RIE_IGNORE_ABORTED start_ping ;; TF_RETURN_IF_ERROR acquire_sem)
       (unavailable_at start_ping)
     = ([mkEvent start_ping by_RIE_IGNORE_ABORTED (mkStatus UNAVAILABLE "unavailable")],
        Fail (mkStatus UNAVAILABLE "unavailable")).
Proof.
  split.
  - rewrite (proj1 C8_ignore_aborted unit start_ping (TF_RETURN_IF_ERROR acquire_sem)
               (aborts_at start_ping)).
    + reflexivity.
    + left. reflexivity.
  - rewrite (proj1 (proj2 C8_ignore_aborted) unit start_ping
               (TF_RETURN_IF_ERROR acquire_sem) (unavailable_at start_ping)).
    + reflexivity.
    + vm_compute. discriminate.
    + vm_compute. discriminate.
Defined.

(** * Further properties of the code *)

(** ** The size validator *)

Lemma size_loop_outcome {DataType} (DataTypeSize : DataType -> Z)
    (l : list (Tensor DataType * Z)) :
  (Forall (fun p => tensor_data_size DataTypeSize p.1 = p.2) l
   /\ ofor_each l
        (fun p (_ : unit) =>
           if bool_decide (tensor_data_size DataTypeSize p.1 <> p.2)
           then Fail (errors.Internal "incorrect input tensor size ")
           else Ret tt) tt = Ret tt)
  \/ (~ Forall (fun p => tensor_data_size DataTypeSize p.1 = p.2) l
      /\ ofor_each l
           (fun p (_ : unit) =>
              if bool_decide (tensor_data_size DataTypeSize p.1 <> p.2)
              then Fail (errors.Internal "incorrect input tensor size ")
              else Ret tt) tt
         = Fail (errors.Internal "incorrect input tensor size ")).
Proof.
  induction l as [|p l IH]; simpl.
  - left. split; [constructor | done].
  - case_bool_decide as Hp; simpl.
    + right. split; [|done]. intros HF. apply Forall_cons in HF as [HF _]. done.
    + destruct IH as [[HF Hr]|[HF Hr]].
      * left. split; [|done]. constructor; [|done].
        destruct (decide (tensor_data_size DataTypeSize p.1 = p.2)); [done|]. by destruct Hp.
      * right. split; [|done]. intros HF'. apply Forall_cons in HF' as [_ HF']. done.
Qed.

Lemma Forall_zip_Forall2 {X Y} (P : X -> Y -> Prop) (l : list X) (k : list Y) :
  length l = length k ->
  Forall (fun p => P p.1 p.2) (zip l k) <-> Forall2 P l k.
Proof.
  revert k. induction l as [|x l IH]; intros [|y k] Hlen; simpl in *; try done.
  rewrite Forall_cons, Forall2_cons, IH by lia. done.
Qed.

Lemma get_tensor_size_accepted {DataType} (DataTypeSize : DataType -> Z)
    (dt : DataType) (shape_proto : list Z) :
  (shape_accepted shape_proto
   /\ get_tensor_size DataTypeSize dt shape_proto
      = Ret (byte_size DataTypeSize dt shape_proto))
  \/ (~ shape_accepted shape_proto
      /\ get_tensor_size DataTypeSize dt shape_proto = Undefined).
Proof.
  unfold get_tensor_size, TensorShape_of, shape_accepted.
  destruct (AddDims 0 1 shape_proto); [by left | right]. split; [discriminate | done].
Qed.

Lemma tensor_sizes_loop {DataType} (DataTypeSize : DataType -> Z)
    (l : list (DataType * TensorShape)) (acc : list Z) :
  (Forall (fun p => shape_accepted p.2) l
   /\ ofor_each l
        (fun p sizes =>
           obind (get_tensor_size DataTypeSize p.1 p.2) (fun tensor_size =>
           Ret (sizes ++ [tensor_size]))) acc
      = Ret (acc ++ ((fun p => byte_size DataTypeSize p.1 p.2) <$> l)))
  \/ (~ Forall (fun p => shape_accepted p.2) l
      /\ ofor_each l
           (fun p sizes =>
              obind (get_tensor_size DataTypeSize p.1 p.2) (fun tensor_size =>
              Ret (sizes ++ [tensor_size]))) acc
         = Undefined).
Proof.
  revert acc. induction l as [|p l IH]; intros acc; cbn [ofor_each].
  - left. split; [constructor | by rewrite app_nil_r].
  - destruct (get_tensor_size_accepted DataTypeSize p.1 p.2) as [[Hp ->]|[Hp ->]];
      cbn [obind].
    + destruct (IH (acc ++ [byte_size DataTypeSize p.1 p.2])) as [[Hl ->]|[Hl ->]].
      * left. split; [by constructor|]. rewrite <- app_assoc. done.
      * right. split; [|done]. intros HF. apply Forall_cons in HF as [_ HF]. done.
    + right. split; [|done]. intros HF. apply Forall_cons in HF as [HF _]. done.
Qed.

Lemma Forall_zip_snd {X Y} (P : Y -> Prop) (l : list X) (k : list Y) :
  length l = length k ->
  Forall (fun p => P p.2) (zip l k) <-> Forall P k.
Proof.
  revert k. induction l as [|x l IH]; intros [|y k] Hlen; simpl in *; try done.
  rewrite !Forall_cons, IH by lia. done.
Qed.

Lemma fmap_zip_with {X Y W} (f : X -> Y -> W) (l : list X) (k : list Y) :
  (fun p => f p.1 p.2) <$> zip l k = zip_with f l k.
Proof.
  revert k. induction l as [|x l IH]; intros [|y k]; simpl; try done. by rewrite IH.
Qed.

(** The sizes of one side of the metadata: all of them, or a CHECK of the
    TensorShape constructor. *)
Lemma tensor_sizes_accepted {DataType} (DataTypeSize : DataType -> Z)
    (dtypes : list DataType) (shapes : list TensorShape) :
  length dtypes = length shapes ->
  (Forall shape_accepted shapes
   /\ tensor_sizes DataTypeSize dtypes shapes
      = Ret (zip_with (byte_size DataTypeSize) dtypes shapes))
  \/ (~ Forall shape_accepted shapes
      /\ tensor_sizes DataTypeSize dtypes shapes = Undefined).
Proof.
  intros Hlen. unfold tensor_sizes.
  destruct (tensor_sizes_loop DataTypeSize (zip dtypes shapes) []) as [[HF ->]|[HF ->]].
  - left. split; [by apply (Forall_zip_snd shape_accepted dtypes shapes Hlen)|].
    by rewrite app_nil_l, fmap_zip_with.
  - right. split; [|done]. intros HF'. destruct HF.
    by apply (Forall_zip_snd shape_accepted dtypes shapes Hlen).
Qed.

Lemma get_io_tensor_sizes_consistent {DataType} (DataTypeSize : DataType -> Z)
    (ins outs : bool) (node_def : NodeDef DataType) :
  ~ metadata_mismatch node_def ->
  (ins = true -> Forall shape_accepted (input_shapes node_def)) ->
  (outs = true -> Forall shape_accepted (output_shapes node_def)) ->
  get_io_tensor_sizes DataTypeSize ins outs node_def
  = Ret (if ins then declared_input_sizes DataTypeSize node_def else [],
         if outs
         then zip_with (byte_size DataTypeSize) (output_dtypes node_def)
                (output_shapes node_def)
         else []).
Proof.
  unfold metadata_mismatch, get_io_tensor_sizes, declared_input_sizes. intros Hm Hi Ho.
  rewrite !orb_false_intro by (apply bool_decide_eq_false_2; tauto).
  assert (Hin : length (input_dtypes node_def) = length (input_shapes node_def)).
  { destruct (decide (length (input_names node_def) = length (input_dtypes node_def)));
      destruct (decide (length (input_names node_def) = length (input_shapes node_def)));
      try tauto. congruence. }
  assert (Hout : length (output_dtypes node_def) = length (output_shapes node_def)).
  { destruct (decide (length (output_names node_def) = length (output_dtypes node_def)));
      destruct (decide (length (output_names node_def) = length (output_shapes node_def)));
      try tauto. congruence. }
  destruct ins.
  - destruct (tensor_sizes_accepted DataTypeSize _ _ Hin) as [[_ ->]|[Hno _]];
      [|by destruct Hno; apply Hi].
    cbn [obind]. destruct outs; [|done].
    destruct (tensor_sizes_accepted DataTypeSize _ _ Hout) as [[_ ->]|[Hno _]];
      [done | by destruct Hno; apply Ho].
  - cbn [obind]. destruct outs; [|done].
    destruct (tensor_sizes_accepted DataTypeSize _ _ Hout) as [[_ ->]|[Hno _]];
      [done | by destruct Hno; apply Ho].
Qed.

(** What a caller knows of the metadata once the sizes are back. *)
Lemma get_io_tensor_sizes_accepted {DataType} (DataTypeSize : DataType -> Z)
    (ins outs : bool) (node_def : NodeDef DataType) sizes :
  get_io_tensor_sizes DataTypeSize ins outs node_def = Ret sizes ->
  (ins = true -> Forall shape_accepted (input_shapes node_def))
  /\ (outs = true -> Forall shape_accepted (output_shapes node_def)).
Proof.
  intros Hr. pose proof (get_io_tensor_sizes_Ret _ _ _ _ _ Hr) as Hm.
  revert Hr. unfold metadata_mismatch in Hm. unfold get_io_tensor_sizes.
  rewrite !orb_false_intro by (apply bool_decide_eq_false_2; tauto).
  assert (Hin : length (input_dtypes node_def) = length (input_shapes node_def)).
  { destruct (decide (length (input_names node_def) = length (input_dtypes node_def)));
      destruct (decide (length (input_names node_def) = length (input_shapes node_def)));
      try tauto. congruence. }
  assert (Hout : length (output_dtypes node_def) = length (output_shapes node_def)).
  { destruct (decide (length (output_names node_def) = length (output_dtypes node_def)));
      destruct (decide (length (output_names node_def) = length (output_shapes node_def)));
      try tauto. congruence. }
  intros Hr. split; intros ->.
  - destruct (tensor_sizes_accepted DataTypeSize _ _ Hin) as [[HF _]|[_ Hu]]; [done|].
    by rewrite Hu in Hr.
  - destruct (tensor_sizes_accepted DataTypeSize _ _ Hout) as [[HF _]|[_ Hu]]; [done|].
    rewrite Hu in Hr. by destruct (if ins then _ else _).
Qed.

Lemma AddDims_nonneg (ndims : nat) (num_elements : Z) (dims : list Z) :
  AddDims ndims num_elements dims = true -> Forall (fun size => 0 <= size) dims.
Proof.
  revert ndims num_elements. induction dims as [|size dims IH]; intros nd ne; [done|].
  cbn [AddDims]. rewrite !andb_true_iff, !bool_decide_eq_true.
  intros [[[Hs _] _] Hrest]. constructor; [done | by eapply IH].
Qed.

Lemma check_input_tensors_sizes {DataType} (DataTypeSize : DataType -> Z)
    (input_tensors : list (Tensor DataType)) (node_def : NodeDef DataType) :
  ~ metadata_mismatch node_def ->
  Forall shape_accepted (input_shapes node_def) ->
  (Forall2 (fun t size => tensor_data_size DataTypeSize t = size)
           input_tensors (declared_input_sizes DataTypeSize node_def)
   /\ check_input_tensors DataTypeSize input_tensors node_def = Ret tt)
  \/ (~ Forall2 (fun t size => tensor_data_size DataTypeSize t = size)
                input_tensors (declared_input_sizes DataTypeSize node_def)
      /\ exists s, check_input_tensors DataTypeSize input_tensors node_def = Fail s
                   /\ code s = INTERNAL).
Proof.
  intros Hm Hacc. unfold check_input_tensors.
  rewrite (get_io_tensor_sizes_consistent DataTypeSize true false node_def Hm)
    by done.
  cbn [obind fst].
  assert (Hlen : length (declared_input_sizes DataTypeSize node_def)
                 = length (input_names node_def)).
  { unfold declared_input_sizes. rewrite length_zip_with.
    unfold metadata_mismatch in Hm. lia. }
  case_bool_decide as Hcount.
  - right. split; [|by eexists]. intros HF. apply Forall2_length in HF. lia.
  - assert (Hc : length input_tensors = length (input_names node_def)).
    { destruct (decide (length input_tensors = length (input_names node_def))); [done|].
      by destruct Hcount. }
    destruct (size_loop_outcome DataTypeSize
                (zip input_tensors (declared_input_sizes DataTypeSize node_def)))
      as [[HF ->]|[HF ->]].
    + left. split; [|done].
      apply (Forall_zip_Forall2 (fun t size => tensor_data_size DataTypeSize t = size));
        [lia|done].
    + right. split; [|by eexists]. intros HF2. destruct HF.
      apply (Forall_zip_Forall2 (fun t size => tensor_data_size DataTypeSize t = size));
        [lia|done].
Qed.

Lemma check_input_tensors_refused {DataType} (DataTypeSize : DataType -> Z)
    (input_tensors : list (Tensor DataType)) (node_def : NodeDef DataType) :
  ~ metadata_mismatch node_def ->
  ~ Forall shape_accepted (input_shapes node_def) ->
  check_input_tensors DataTypeSize input_tensors node_def = Undefined.
Proof.
  intros Hm Hacc. unfold check_input_tensors, get_io_tensor_sizes.
  unfold metadata_mismatch in Hm.
  rewrite !orb_false_intro by (apply bool_decide_eq_false_2; tauto).
  assert (Hin : length (input_dtypes node_def) = length (input_shapes node_def)).
  { destruct (decide (length (input_names node_def) = length (input_dtypes node_def)));
      destruct (decide (length (input_names node_def) = length (input_shapes node_def)));
      try tauto. congruence. }
  destruct (tensor_sizes_accepted DataTypeSize _ _ Hin) as [[HF _]|[_ ->]]; done.
Qed.

(** X1.  check_input_tensors returns OK exactly when the metadata lists
    agree in length, the TensorShape constructor takes every declared input
    shape, and the tensors match the declared inputs one for one, each tensor
    holding dtype_size * num_elements bytes of its declared type and shape.
    It returns FAILED_PRECONDITION when the metadata lists disagree and
    INTERNAL when the tensors do not match the metadata.  When the lists
    agree and the constructor refuses a declared input shape, one with a
    negative dimension for instance, the call ends in the CHECK of the
    constructor before any tensor is looked at; the declared output shapes
    are never built. *)
Theorem X1_check_input_tensors_accepts {DataType} (DataTypeSize : DataType -> Z)
    (input_tensors : list (Tensor DataType)) (node_def : NodeDef DataType) :
  (check_input_tensors DataTypeSize input_tensors node_def = Ret tt
   <-> ~ metadata_mismatch node_def
       /\ Forall shape_accepted (input_shapes node_def)
       /\ Forall2 (fun t size => tensor_data_size DataTypeSize t = size)
                  input_tensors (declared_input_sizes DataTypeSize node_def))
  /\ (forall s, check_input_tensors DataTypeSize input_tensors node_def = Fail s ->
        (metadata_mismatch node_def /\ code s = FAILED_PRECONDITION)
        \/ (~ metadata_mismatch node_def
            /\ Forall shape_accepted (input_shapes node_def)
            /\ code s = INTERNAL))
  /\ (check_input_tensors DataTypeSize input_tensors node_def = Undefined
      <-> ~ metadata_mismatch node_def
          /\ ~ Forall shape_accepted (input_shapes node_def))
  /\ (forall shape_proto size,
        ~ metadata_mismatch node_def ->
        shape_proto ∈ input_shapes node_def -> size ∈ shape_proto -> size < 0 ->
        check_input_tensors DataTypeSize input_tensors node_def = Undefined).
Proof.
  destruct (decide (metadata_mismatch node_def)) as [Hm|Hm].
  { destruct (get_io_tensor_sizes_mismatch DataTypeSize true false node_def Hm)
      as (s & Hs & Hcode).
    unfold check_input_tensors. rewrite Hs. cbn [obind].
    split_and!; [|intros s' [= <-]; by left| |done].
    - split; [done|]. intros [? _]. done.
    - split; [done|]. intros [? _]. done. }
  destruct (decide (Forall shape_accepted (input_shapes node_def))) as [Hacc|Hacc].
  - destruct (check_input_tensors_sizes DataTypeSize input_tensors node_def Hm Hacc)
      as [[HF ->]|[HF (s & -> & Hcode)]].
    + split_and!; [done|done| |].
      * split; [done|]. intros [_ ?]. done.
      * intros shape_proto size _ Hin Hsize Hneg. exfalso.
        rewrite Forall_forall in Hacc. apply Hacc in Hin.
        apply AddDims_nonneg in Hin. rewrite Forall_forall in Hin.
        apply Hin in Hsize. lia.
    + split_and!.
      * split; [done|]. intros (_ & _ & ?). done.
      * intros s' [= <-]. by right.
      * split; [done|]. intros [_ ?]. done.
      * intros shape_proto size _ Hin Hsize Hneg. exfalso.
        rewrite Forall_forall in Hacc. apply Hacc in Hin.
        apply AddDims_nonneg in Hin. rewrite Forall_forall in Hin.
        apply Hin in Hsize. lia.
  - rewrite (check_input_tensors_refused DataTypeSize input_tensors node_def Hm Hacc).
    split_and!; [|done|done|done].
    split; [done|]. intros (_ & ? & _). done.
Qed.


(** ** The batch analysis *)

Lemma ofor_each_indexed {I St} (P : nat -> St -> Prop) (l : list I)
    (body : I -> St -> Outcome St) :
  (forall k i st st', l !! k = Some i -> P k st -> body i st = Ret st' -> P (S k) st') ->
  forall st st', P 0%nat st -> ofor_each l body st = Ret st' -> P (length l) st'.
Proof.
  revert P. induction l as [|i l IH]; intros P Hbody st st' HP; simpl.
  - by intros [= <-].
  - destruct (body i st) as [st1| |] eqn:Hb; simpl; [|done|done].
    apply (IH (fun k => P (S k))).
    + intros k j s s' Hk. apply (Hbody (S k)). exact Hk.
    + by apply (Hbody 0%nat i st).
Qed.

Lemma analyse_input_Ret {DataType} (node_def : NodeDef DataType) idx
    (tptr : Tensor DataType) bi bi' :
  analyse_input node_def idx tptr bi = Ret bi' ->
  is_batch_output_tensors bi' = is_batch_output_tensors bi
  /\ if bool_decide (0 = input_batch_axis node_def !!! idx)
     then exists kd krest,
            input_shapes node_def !!! idx = kd :: krest
            /\ shape tptr = batch_size bi' :: krest
            /\ (if bool_decide (UNINIT_BATCH_SIZE = batch_size bi)
                then batch_size bi' > 0 /\ k_batch_size bi' = kd
                else batch_size bi' = batch_size bi /\ k_batch_size bi' = k_batch_size bi)
            /\ is_batch_input_tensors bi'
               = <[idx := bool_decide (batch_size bi' <> k_batch_size bi')]>
                   (is_batch_input_tensors bi)
            /\ use_dynamic_batch_size bi'
               = bool_decide (batch_size bi' <> k_batch_size bi')
     else shape tptr = input_shapes node_def !!! idx
          /\ batch_size bi' = batch_size bi
          /\ k_batch_size bi' = k_batch_size bi
          /\ is_batch_input_tensors bi' = <[idx := false]> (is_batch_input_tensors bi)
          /\ use_dynamic_batch_size bi' = use_dynamic_batch_size bi.
Proof.
  unfold analyse_input. case_bool_decide as Haxis.
  - destruct (TFNN_ASSERT _ _) as [[]| |] eqn:Hdims; cbn [obind]; [|done|done].
    apply TFNN_ASSERT_Ret, bool_decide_eq_true_1 in Hdims.
    destruct (shape tptr) as [|d rest] eqn:Hshape; [cbn in Hdims; lia|].
    cbn [hd tl].
    case_bool_decide as Hun.
    + destruct (input_shapes node_def !!! idx) as [|kd krest] eqn:Hk;
        cbn [obind]; [done|].
      destruct (TFNN_ASSERT (bool_decide (d > 0)) _) as [[]| |] eqn:Hpos;
        cbn [obind]; [|done|done].
      apply TFNN_ASSERT_Ret, bool_decide_eq_true_1 in Hpos.
      destruct (TFNN_ASSERT _ _) as [[]| |] eqn:Hrest; cbn [obind]; [|done|done].
      apply TFNN_ASSERT_Ret, bool_decide_eq_true_1 in Hrest.
      intros [= <-]. cbn. split; [done|]. exists kd, krest.
      split_and!; try done. by rewrite Hrest.
    + destruct (TFNN_ASSERT _ _) as [[]| |] eqn:Hsame; cbn [obind]; [|done|done].
      apply TFNN_ASSERT_Ret, bool_decide_eq_true_1 in Hsame.
      destruct (input_shapes node_def !!! idx) as [|kd krest] eqn:Hk; [done|].
      destruct (TFNN_ASSERT _ _) as [[]| |] eqn:Hrest; cbn [obind]; [|done|done].
      apply TFNN_ASSERT_Ret, bool_decide_eq_true_1 in Hrest.
      intros [= <-]. cbn. split; [done|]. exists kd, krest.
      split_and!; try done. by rewrite Hsame, Hrest.
  - destruct (TFNN_ASSERT _ _) as [[]| |] eqn:Hsame; cbn [obind]; [|done|done].
    apply TFNN_ASSERT_Ret, bool_decide_eq_true_1 in Hsame.
    intros [= <-]. cbn. done.
Qed.

Lemma analyse_output_Ret {DataType} (node_def : NodeDef DataType) idx bi bi' :
  analyse_output node_def idx bi = Ret bi' ->
  (idx < length (is_batch_output_tensors bi))%nat
  /\ exists flag,
       bi' = mkBatchInfo (batch_size bi) (k_batch_size bi) (is_batch_input_tensors bi)
               (<[idx := flag]> (is_batch_output_tensors bi))
               (use_dynamic_batch_size bi)
       /\ output_analysed bi (output_batch_axis node_def !!! idx)
            (output_shapes node_def !!! idx) flag.
Proof.
  unfold analyse_output, output_analysed. case_bool_decide as Haxis.
  - destruct (TFNN_ASSERT _ _) as [[]| |] eqn:Hdims; cbn [obind]; [|done|done].
    apply TFNN_ASSERT_Ret, bool_decide_eq_true_1 in Hdims.
    destruct (TFNN_ASSERT (bool_decide (k_batch_size bi = _)) _) as [[]| |] eqn:Hk;
      cbn [obind]; [|done|done].
    apply TFNN_ASSERT_Ret, bool_decide_eq_true_1 in Hk.
    case_bool_decide as Hidx; [|done]. intros [= <-]. split; [done|].
    eexists. split; [reflexivity|].
    destruct (output_shapes node_def !!! idx) as [|kd krest]; [cbn in Hdims; lia|].
    cbn [hd tl] in *. rewrite Hk. done.
  - cbn [obind]. case_bool_decide as Hidx; [|done]. intros [= <-]. split; [done|].
    by eexists.
Qed.

Lemma input_analysed_same_sizes {DataType} bi bi' axis k_shape flag (t : Tensor DataType) :
  batch_size bi' = batch_size bi -> k_batch_size bi' = k_batch_size bi ->
  input_analysed bi axis k_shape flag t -> input_analysed bi' axis k_shape flag t.
Proof. unfold input_analysed. by intros -> ->. Qed.

Lemma input_analysed_no_axis {DataType} bi bi' axis k_shape flag (t : Tensor DataType) :
  0 <> axis ->
  input_analysed bi axis k_shape flag t -> input_analysed bi' axis k_shape flag t.
Proof. unfold input_analysed. intros Hax. by rewrite bool_decide_eq_false_2. Qed.

Lemma analyse_input_step {DataType} num_outputs (node_def : NodeDef DataType)
    (input_tensors : list (Tensor DataType)) k t bi bi' :
  input_tensors !! k = Some t ->
  inputs_analysed num_outputs node_def input_tensors k bi ->
  analyse_input node_def k t bi = Ret bi' ->
  inputs_analysed num_outputs node_def input_tensors (S k) bi'.
Proof.
  intros Hk (Hlen & Hout & Hdone & Hsizes) Hrun.
  apply analyse_input_Ret in Hrun as [Hout' Hrun].
  assert (Hklt : (k < length (is_batch_input_tensors bi))%nat).
  { rewrite Hlen. by eapply lookup_lt_Some. }
  case_bool_decide as Haxis.
  - destruct Hrun as (kd & krest & Hks & Hshape & Hcase & Hflags & Hdyn).
    destruct (decide (UNINIT_BATCH_SIZE = batch_size bi)) as [Hun|Hun].
    + rewrite bool_decide_eq_true_2 in Hcase by done. destruct Hcase as [Hpos HH].
      destruct Hsizes as [(_ & _ & _ & Hnone)|(Hpos' & _)];
        [|unfold UNINIT_BATCH_SIZE in Hun; lia].
      split_and!.
      * by rewrite Hflags, length_insert.
      * by rewrite Hout'.
      * intros j t' Hj Ht'. destruct (decide (j = k)) as [->|Hne].
        -- exists (bool_decide (batch_size bi' <> k_batch_size bi')). split.
           ++ rewrite Hflags. by apply list_lookup_insert_eq.
           ++ assert (t' = t) as -> by congruence.
              unfold input_analysed. rewrite bool_decide_eq_true_2 by done.
              unfold TensorShape in *. rewrite Hks. done.
        -- destruct (Hdone j t' ltac:(lia) Ht') as (flag & Hf & Han).
           exists flag. split.
           ++ rewrite Hflags. by rewrite list_lookup_insert_ne.
           ++ eapply input_analysed_no_axis; [|exact Han]. apply Hnone. lia.
      * right. split_and!; [done|done|]. exists k. split.
        -- split_and!; [lia|done|]. intros j Hj. by apply Hnone.
        -- unfold TensorShape in *. by rewrite Hks.
    + rewrite bool_decide_eq_false_2 in Hcase by done. destruct Hcase as [HR HH].
      destruct Hsizes as [(Hu & _)|(Hpos & _ & j0 & (Hj0 & Hax0 & Hfirst) & Hhd)];
        [by destruct Hun|].
      split_and!.
      * by rewrite Hflags, length_insert.
      * by rewrite Hout'.
      * intros j t' Hj Ht'. destruct (decide (j = k)) as [->|Hne].
        -- exists (bool_decide (batch_size bi' <> k_batch_size bi')). split.
           ++ rewrite Hflags. by apply list_lookup_insert_eq.
           ++ assert (t' = t) as -> by congruence.
              unfold input_analysed. rewrite bool_decide_eq_true_2 by done.
              unfold TensorShape in *. rewrite Hks. done.
        -- destruct (Hdone j t' ltac:(lia) Ht') as (flag & Hf & Han).
           exists flag. split.
           ++ rewrite Hflags. by rewrite list_lookup_insert_ne.
           ++ by eapply input_analysed_same_sizes.
      * right. split_and!; [lia|done|]. exists j0. split.
        -- split_and!; [lia|done|done].
        -- by rewrite HH.
  - destruct Hrun as (Hshape & HR & HH & Hflags & Hdyn).
    split_and!.
    + by rewrite Hflags, length_insert.
    + by rewrite Hout'.
    + intros j t' Hj Ht'. destruct (decide (j = k)) as [->|Hne].
      * exists false. split.
        -- rewrite Hflags. by apply list_lookup_insert_eq.
        -- assert (t' = t) as -> by congruence.
           unfold input_analysed. by rewrite bool_decide_eq_false_2.
      * destruct (Hdone j t' ltac:(lia) Ht') as (flag & Hf & Han).
        exists flag. split.
        -- rewrite Hflags. by rewrite list_lookup_insert_ne.
        -- by eapply input_analysed_same_sizes.
    + destruct Hsizes as [(Hu & Hku & Hd & Hnone)|(Hpos & Hd & j0 & (Hj0 & Hax0 & Hfirst) & Hhd)].
      * left. split_and!; [by rewrite HR|by rewrite HH|by rewrite Hdyn|].
        intros j Hj. destruct (decide (j = k)) as [->|Hne]; [done|]. apply Hnone. lia.
      * right. split_and!; [lia|by rewrite Hdyn, HR, HH|]. exists j0. split.
        -- split_and!; [lia|done|done].
        -- by rewrite HH.
Qed.

Lemma analyse_output_step {DataType} num_outputs (node_def : NodeDef DataType) bi1 k bi bi' :
  outputs_analysed num_outputs node_def bi1 k bi ->
  analyse_output node_def k bi = Ret bi' ->
  outputs_analysed num_outputs node_def bi1 (S k) bi'.
Proof.
  intros (HR & HH & Hin & Hdyn & Hlen & Hk & Hdone & Hrest) Hrun.
  apply analyse_output_Ret in Hrun as (Hidx & flag & -> & Han).
  unfold outputs_analysed. cbn. split_and!; try done.
  - by rewrite length_insert.
  - lia.
  - intros j Hj. destruct (decide (j = k)) as [->|Hne].
    + exists flag. split; [by apply list_lookup_insert_eq|].
      unfold output_analysed in *. by rewrite <- HR, <- HH.
    + destruct (Hdone j ltac:(lia)) as (f & Hf & Hfa). exists f.
      split; [by rewrite list_lookup_insert_ne|done].
  - intros j Hj. rewrite list_lookup_insert_ne by lia. apply Hrest. lia.
Qed.

(** The locals of [compute] when the analysis of lines 189-247 has run to
    its end. *)
Lemma batch_analysis_Ret {DataType} num_outputs (node_def : NodeDef DataType)
    (input_tensors : list (Tensor DataType)) bi :
  analysis_enabled node_def = true ->
  batch_analysis num_outputs node_def input_tensors = Ret bi ->
  exists bi1,
    inputs_analysed num_outputs node_def input_tensors (length input_tensors) bi1
    /\ outputs_analysed num_outputs node_def bi1 (length (output_names node_def)) bi.
Proof.
  unfold batch_analysis, analysis_enabled. intros ->.
  destruct (ofor_each (zip _ _) _ _) as [bi1| |] eqn:Hin; cbn [obind]; [|done|done].
  intros Hout. exists bi1. split.
  - apply (ofor_each_indexed (inputs_analysed num_outputs node_def input_tensors)) in Hin.
    + by rewrite length_zip, length_seq, Nat.min_id in Hin.
    + intros k [i t] st st' Hk HP Hb. cbn [fst snd] in Hb.
      apply lookup_zip_with_Some in Hk as (i' & t' & [= <- <-] & Hi & Ht).
      apply lookup_seq in Hi as [-> _]. cbn [Nat.add] in Hb.
      by eapply analyse_input_step.
    + unfold inputs_analysed, init_batch_info. cbn. split_and!.
      * by rewrite length_replicate.
      * done.
      * intros j t Hj. lia.
      * left. split_and!; try done. intros j Hj. lia.
  - apply (ofor_each_indexed (outputs_analysed num_outputs node_def bi1)) in Hout.
    + by rewrite length_seq in Hout.
    + intros k i st st' Hk HP Hb. apply lookup_seq in Hk as [-> _]. cbn [Nat.add] in Hb.
      by eapply analyse_output_step.
    + assert (H1 : is_batch_output_tensors bi1 = replicate num_outputs false).
      { apply (ofor_each_indexed (inputs_analysed num_outputs node_def input_tensors)) in Hin.
        - by destruct Hin as (_ & ? & _).
        - intros k [i t] st st' Hk HP Hb. cbn [fst snd] in Hb.
          apply lookup_zip_with_Some in Hk as (i' & t' & [= <- <-] & Hi & Ht).
          apply lookup_seq in Hi as [-> _]. cbn [Nat.add] in Hb.
          by eapply analyse_input_step.
        - unfold inputs_analysed, init_batch_info. cbn. split_and!.
          + by rewrite length_replicate.
          + done.
          + intros j t Hj. lia.
          + left. split_and!; try done. intros j Hj. lia. }
      unfold outputs_analysed. split_and!; try done.
      * by rewrite H1, length_replicate.
      * lia.
      * intros j Hj. lia.
      * intros j Hj. rewrite H1. apply lookup_replicate_2. lia.
Qed.


Lemma check_arguments_Ret {DataType} (DataTypeSize : DataType -> Z)
    (node_def : NodeDef DataType) (input_tensors : list (Tensor DataType)) sizes :
  check_arguments DataTypeSize node_def input_tensors = Ret sizes ->
  length input_tensors = length (input_names node_def)
  /\ ~ metadata_mismatch node_def.
Proof.
  unfold check_arguments.
  destruct (TFNN_ASSERT _ _) as [[]| |] eqn:Hcount; cbn [obind]; [|done|done].
  apply TFNN_ASSERT_Ret, bool_decide_eq_true_1 in Hcount.
  intros Hsizes. split; [done|]. by eapply get_io_tensor_sizes_Ret.
Qed.

Lemma check_arguments_accepted {DataType} (DataTypeSize : DataType -> Z)
    (node_def : NodeDef DataType) (input_tensors : list (Tensor DataType)) sizes :
  check_arguments DataTypeSize node_def input_tensors = Ret sizes ->
  Forall shape_accepted (input_shapes node_def)
  /\ Forall shape_accepted (output_shapes node_def).
Proof.
  unfold check_arguments.
  destruct (TFNN_ASSERT _ _) as [[]| |]; cbn [obind]; [|done|done].
  intros Hsizes. apply get_io_tensor_sizes_accepted in Hsizes as [Hi Ho]. auto.
Qed.

Lemma analysis_enabled_lengths {DataType} (node_def : NodeDef DataType) :
  analysis_enabled node_def = true ->
  length (input_names node_def) = length (input_batch_axis node_def)
  /\ length (output_names node_def) = length (output_batch_axis node_def).
Proof.
  unfold analysis_enabled.
  intros [[_ H1%bool_decide_eq_true_1]%andb_true_iff H2%bool_decide_eq_true_1]%andb_true_iff.
  done.
Qed.

Lemma output_analysed_same_sizes bi bi' axis k_shape flag :
  batch_size bi' = batch_size bi -> k_batch_size bi' = k_batch_size bi ->
  output_analysed bi axis k_shape flag -> output_analysed bi' axis k_shape flag.
Proof. unfold output_analysed. by intros -> ->. Qed.

(** X2.  When the checks of lines 167-171 have passed and the analysis of
    lines 189-247 runs to its end, it has left one flag per input tensor, and
    for every input: with batch axis 0, the declared shape has a leading
    dimension, the tensor's shape is the declared one with its leading
    dimension replaced by the batch size, which is positive, and the flag says
    whether the batch size differs from the hardware batch size; with any
    other axis, the tensor's shape is the declared shape and the flag is
    false. *)
Theorem X2_batch_analysis_inputs {DataType} (DataTypeSize : DataType -> Z)
    (num_outputs : nat) (node_def : NodeDef DataType)
    (input_tensors : list (Tensor DataType)) (sizes : list Z * list Z) (bi : BatchInfo) :
  check_arguments DataTypeSize node_def input_tensors = Ret sizes ->
  analysis_enabled node_def = true ->
  batch_analysis num_outputs node_def input_tensors = Ret bi ->
  length (is_batch_input_tensors bi) = length input_tensors
  /\ forall idx t, input_tensors !! idx = Some t ->
       exists axis k_shape flag,
         input_batch_axis node_def !! idx = Some axis
         /\ input_shapes node_def !! idx = Some k_shape
         /\ is_batch_input_tensors bi !! idx = Some flag
         /\ input_analysed bi axis k_shape flag t
         /\ (0 = axis -> batch_size bi > 0).
Proof.
  intros [Hcount Hmeta]%check_arguments_Ret Hen Hrun.
  destruct (analysis_enabled_lengths node_def Hen) as [Hax _].
  destruct (batch_analysis_Ret num_outputs node_def input_tensors bi Hen Hrun)
    as (bi1 & (Hlen & _ & Hdone & Hsizes) & (HR & HH & Hin & _)).
  split; [by rewrite Hin|].
  intros idx t Ht. pose proof (lookup_lt_Some _ _ _ Ht) as Hidx.
  destruct (Hdone idx t Hidx Ht) as (flag & Hflag & Han).
  exists (input_batch_axis node_def !!! idx), (input_shapes node_def !!! idx), flag.
  split_and!.
  - apply list_lookup_lookup_total_lt. lia.
  - apply list_lookup_lookup_total_lt. unfold metadata_mismatch in Hmeta. lia.
  - by rewrite Hin.
  - by eapply input_analysed_same_sizes.
  - intros Haxis. destruct Hsizes as [(_ & _ & _ & Hnone)|(Hpos & _)].
    + by destruct (Hnone idx Hidx).
    + lia.
Qed.

(** Ten rows of the batched input and the fixed one, on a model compiled for
    four rows. *)
Lemma X2_batch_analysis_inputs_witness :
  length (is_batch_input_tensors (wide_info 10)) = length (wide_inputs 10)
  /\ forall idx t, wide_inputs 10 !! idx = Some t ->
       exists axis k_shape flag,
         input_batch_axis wide_node_def !! idx = Some axis
         /\ input_shapes wide_node_def !! idx = Some k_shape
         /\ is_batch_input_tensors (wide_info 10) !! idx = Some flag
         /\ input_analysed (wide_info 10) axis k_shape flag t
         /\ (0 = axis -> batch_size (wide_info 10) > 0).
Proof.
  apply (X2_batch_analysis_inputs SampleTypeSize 2 wide_node_def (wide_inputs 10)
           ([48; 10], [32; 14]) (wide_info 10)).
  - vm_compute. reflexivity.
  - vm_compute. reflexivity.
  - vm_compute. reflexivity.
Defined.

(** X3.  When the checks of lines 167-171 have passed and the batch
    analysis returns, use_dynamic_batch_size is true exactly when the
    analysis ran, some input tensor has batch axis 0 and the batch size found
    differs from the hardware batch size.  The batch size is then positive,
    and the hardware batch size is the declared leading dimension of the
    first input with batch axis 0: the declared leading dimension of a later
    one is not read. *)
Theorem X3_dynamic_batching_decision {DataType} (DataTypeSize : DataType -> Z)
    (num_outputs : nat) (node_def : NodeDef DataType)
    (input_tensors : list (Tensor DataType)) (sizes : list Z * list Z) (bi : BatchInfo) :
  check_arguments DataTypeSize node_def input_tensors = Ret sizes ->
  batch_analysis num_outputs node_def input_tensors = Ret bi ->
  (use_dynamic_batch_size bi = true
   <-> analysis_enabled node_def = true
       /\ batch_size bi <> k_batch_size bi
       /\ exists idx, (idx < length input_tensors)%nat
                      /\ input_batch_axis node_def !! idx = Some 0)
  /\ (use_dynamic_batch_size bi = true ->
      batch_size bi > 0
      /\ exists j0 krest,
           (j0 < length input_tensors)%nat
           /\ input_batch_axis node_def !! j0 = Some 0
           /\ (forall j axis, (j < j0)%nat ->
                 input_batch_axis node_def !! j = Some axis -> axis <> 0)
           /\ input_shapes node_def !! j0 = Some (k_batch_size bi :: krest)).
Proof.
  intros [Hcount Hmeta]%check_arguments_Ret Hrun.
  destruct (analysis_enabled node_def) eqn:Hen.
  - destruct (analysis_enabled_lengths node_def Hen) as [Hax _].
    destruct (batch_analysis_Ret num_outputs node_def input_tensors bi Hen Hrun)
      as (bi1 & (Hlen & _ & Hdone & Hsizes) & (HR & HH & Hin & Hdyn & _)).
    rewrite Hdyn, HR, HH.
    destruct Hsizes as [(Hu & Hku & Hd & Hnone)
                       |(Hpos & Hd & j0 & (Hj0 & Hax0 & Hfirst) & Hhd)].
    + rewrite Hd. split; [|done]. split; [done|].
      intros (_ & _ & idx & Hidx & Hlook).
      apply list_lookup_total_correct in Hlook. destruct (Hnone idx Hidx). done.
    + assert (Hlook0 : input_batch_axis node_def !! j0 = Some 0).
      { rewrite Hax0. apply list_lookup_lookup_total_lt. lia. }
      rewrite Hd. split.
      * split.
        -- intros Hne%bool_decide_eq_true_1. split_and!; [done|done|]. by exists j0.
        -- intros (_ & Hne & _). by apply bool_decide_eq_true_2.
      * intros _. split; [done|].
        destruct (lookup_lt_is_Some_2 input_tensors j0 Hj0) as [t Ht].
        destruct (Hdone j0 t Hj0 Ht) as (flag & _ & Han).
        unfold input_analysed in Han. rewrite bool_decide_eq_true_2 in Han by done.
        destruct Han as (Hne & _ & _).
        exists j0, (tl (input_shapes node_def !!! j0)). split_and!; [done|done| |].
        -- intros j axis Hj Hlook Hz. subst axis.
           apply list_lookup_total_correct in Hlook. destruct (Hfirst j Hj). done.
        -- assert (Hin0 : (j0 < length (input_shapes node_def))%nat)
             by (unfold metadata_mismatch in Hmeta; lia).
           etrans; [by apply list_lookup_lookup_total_lt|].
           rewrite <- Hhd. unfold TensorShape in *.
           by destruct (input_shapes node_def !!! j0).
  - revert Hrun. unfold batch_analysis. unfold analysis_enabled in Hen. rewrite Hen.
    intros [= <-]. cbn. split; [|done]. split; [done|]. by intros [? _].
Qed.

Lemma X3_dynamic_batching_decision_witness :
  (use_dynamic_batch_size (wide_info 10) = true
   <-> analysis_enabled wide_node_def = true
       /\ batch_size (wide_info 10) <> k_batch_size (wide_info 10)
       /\ exists idx, (idx < length (wide_inputs 10))%nat
                      /\ input_batch_axis wide_node_def !! idx = Some 0)
  /\ (use_dynamic_batch_size (wide_info 10) = true ->
      batch_size (wide_info 10) > 0
      /\ exists j0 krest,
           (j0 < length (wide_inputs 10))%nat
           /\ input_batch_axis wide_node_def !! j0 = Some 0
           /\ (forall j axis, (j < j0)%nat ->
                 input_batch_axis wide_node_def !! j = Some axis -> axis <> 0)
           /\ input_shapes wide_node_def !! j0
              = Some (k_batch_size (wide_info 10) :: krest)).
Proof.
  apply (X3_dynamic_batching_decision SampleTypeSize 2 wide_node_def (wide_inputs 10)
           ([48; 10], [32; 14]) (wide_info 10)).
  - vm_compute. reflexivity.
  - vm_compute. reflexivity.
Defined.

(** X4.  When the checks of lines 167-171 have passed and the analysis of
    lines 189-247 runs to its end, the node declares no more outputs than the
    kernel has, there is one flag per output of the kernel, and for every
    declared output: with batch axis 0, the leading dimension of its declared
    shape is the hardware batch size and the flag says whether the batch size
    differs from it; with any other axis the flag is false.  The flags of the
    kernel's outputs that the node does not declare stay false. *)
Theorem X4_batch_analysis_outputs {DataType} (DataTypeSize : DataType -> Z)
    (num_outputs : nat) (node_def : NodeDef DataType)
    (input_tensors : list (Tensor DataType)) (sizes : list Z * list Z) (bi : BatchInfo) :
  check_arguments DataTypeSize node_def input_tensors = Ret sizes ->
  analysis_enabled node_def = true ->
  batch_analysis num_outputs node_def input_tensors = Ret bi ->
  (length (output_names node_def) <= num_outputs)%nat
  /\ length (is_batch_output_tensors bi) = num_outputs
  /\ (forall idx, (idx < length (output_names node_def))%nat ->
        exists axis k_shape flag,
          output_batch_axis node_def !! idx = Some axis
          /\ output_shapes node_def !! idx = Some k_shape
          /\ is_batch_output_tensors bi !! idx = Some flag
          /\ output_analysed bi axis k_shape flag)
  /\ (forall idx, (length (output_names node_def) <= idx < num_outputs)%nat ->
        is_batch_output_tensors bi !! idx = Some false).
Proof.
  intros [Hcount Hmeta]%check_arguments_Ret Hen Hrun.
  destruct (analysis_enabled_lengths node_def Hen) as [_ Hax].
  destruct (batch_analysis_Ret num_outputs node_def input_tensors bi Hen Hrun)
    as (bi1 & _ & (HR & HH & _ & _ & Hlen & Hle & Hdone & Hrest)).
  split_and!; [done|done| |done].
  intros idx Hidx. destruct (Hdone idx Hidx) as (flag & Hflag & Han).
  exists (output_batch_axis node_def !!! idx), (output_shapes node_def !!! idx), flag.
  split_and!.
  - apply list_lookup_lookup_total_lt. lia.
  - apply list_lookup_lookup_total_lt. unfold metadata_mismatch in Hmeta. lia.
  - done.
  - by eapply output_analysed_same_sizes.
Qed.

Lemma X4_batch_analysis_outputs_witness :
  (length (output_names wide_node_def) <= 2)%nat
  /\ length (is_batch_output_tensors (wide_info 10)) = 2%nat
  /\ (forall idx, (idx < length (output_names wide_node_def))%nat ->
        exists axis k_shape flag,
          output_batch_axis wide_node_def !! idx = Some axis
          /\ output_shapes wide_node_def !! idx = Some k_shape
          /\ is_batch_output_tensors (wide_info 10) !! idx = Some flag
          /\ output_analysed (wide_info 10) axis k_shape flag)
  /\ (forall idx, (length (output_names wide_node_def) <= idx < 2)%nat ->
        is_batch_output_tensors (wide_info 10) !! idx = Some false).
Proof.
  apply (X4_batch_analysis_outputs SampleTypeSize 2 wide_node_def (wide_inputs 10)
           ([48; 10], [32; 14]) (wide_info 10)).
  - vm_compute. reflexivity.
  - vm_compute. reflexivity.
  - vm_compute. reflexivity.
Defined.


(** ** Statuses are handed on unchanged *)

Lemma recorded_app o t1 t2 :
  recorded o t1 -> recorded (shift (length t1) o) t2 -> recorded o (t1 ++ t2).
Proof.
  intros H1 H2 k e Hk Hp. destruct (decide (k < length t1)%nat) as [Hlt|Hge].
  - rewrite lookup_app_l in Hk by done. by apply H1.
  - rewrite lookup_app_r in Hk by lia.
    rewrite (H2 _ _ Hk Hp). unfold shift.
    by replace (length t1 + (k - length t1))%nat with k by lia.
Qed.

Lemma recorded_one o c p :
  recorded o [mkEvent c p (o 0%nat c)].
Proof.
  intros k e Hk _. apply list_lookup_singleton_Some in Hk as [-> <-]. done.
Qed.

Section PropagationRules.

Variable own : Status -> Prop.
Variable ub : Prop.

Lemma Propagates_ret {A} (a : A) : Propagates own ub (ret a).
Proof. intros o. split; [by intros k e Hk|]. cbn. constructor. Qed.

Lemma Propagates_lift {A} (r : Outcome A) : lift_ok own ub r -> Propagates own ub (lift r).
Proof.
  intros Hr o. split; [by intros k e Hk|]. unfold lift. cbn [fst snd].
  destruct r as [a|s|]; cbn in Hr.
  - constructor.
  - right. split; [done | constructor].
  - done.
Qed.

Lemma Propagates_undefined {A} : ub -> Propagates own ub (@undefined A).
Proof. intros Hub o. split; [by intros k e Hk | done]. Qed.

Lemma Propagates_TF_RETURN_IF_ERROR c : Propagates own ub (TF_RETURN_IF_ERROR c).
Proof.
  intros o. unfold TF_RETURN_IF_ERROR. split; [apply recorded_one|]. cbn [fst snd].
  destruct (ok (o 0%nat c)) eqn:Hok.
  - by apply Forall_singleton.
  - left. eexists [], _. split_and!; [done | constructor | done | done].
Qed.

Lemma Propagates_RIE_IGNORE_ABORTED c : Propagates own ub (RIE_IGNORE_ABORTED c).
Proof.
  intros o. unfold RIE_IGNORE_ABORTED. split; [apply recorded_one|]. cbn [fst snd].
  case_bool_decide as Hab.
  - destruct (ok (o 0%nat c)) eqn:Hok.
    + apply Forall_singleton. unfold passes. cbn. by rewrite Hok.
    + left. eexists [], _. split_and!; [done | constructor | | done].
      unfold passes. cbn. rewrite Hok. by rewrite bool_decide_eq_false_2.
  - apply Forall_singleton. unfold passes. cbn.
    rewrite (bool_decide_eq_true_2 (code (o 0%nat c) = ABORTED)).
    + apply orb_true_r.
    + by destruct (decide (code (o 0%nat c) = ABORTED)).
Qed.

Lemma Propagates_call_void c : Propagates own ub (call_void c).
Proof.
  intros o. unfold call_void. split.
  - intros k e Hk Hp. apply list_lookup_singleton_Some in Hk as [-> <-]. done.
  - cbn. by apply Forall_singleton.
Qed.

Lemma Propagates_bind_val {A B} (m : M A) (f : A -> M B) :
  Propagates own ub m ->
  (forall o t a, m o = (t, Ret a) -> Propagates own ub (f a)) ->
  Propagates own ub (bind m f).
Proof.
  intros Hm Hf o. unfold bind. specialize (Hm o).
  destruct (m o) as [t1 [a|s|]] eqn:Hrun; [|exact Hm|exact Hm].
  specialize (Hf o t1 a Hrun (shift (length t1) o)).
  destruct (f a (shift (length t1) o)) as [t2 r2].
  destruct Hm as [Hrec1 Hpass1]. destruct Hf as [Hrec2 Hend2]. cbn [fst snd] in *.
  split; [by apply recorded_app|].
  destruct r2 as [b|s|].
  - by apply Forall_app.
  - destruct Hend2 as [(t' & e & -> & Hp & He & Hs)|[Hown Hp]].
    + left. exists (t1 ++ t'), e. rewrite app_assoc.
      split_and!; [done | by apply Forall_app | done | done].
    + right. split; [done | by apply Forall_app].
  - done.
Qed.

Lemma Propagates_bind {A B} (m : M A) (f : A -> M B) :
  Propagates own ub m -> (forall a, Propagates own ub (f a)) ->
  Propagates own ub (bind m f).
Proof. intros Hm Hf. apply Propagates_bind_val; [done|]. intros _ _ a _. apply Hf. Qed.

Lemma Propagates_for_each {I St} (l : list I) (body : I -> St -> M St) :
  (forall i st, i ∈ l -> Propagates own ub (body i st)) ->
  forall st, Propagates own ub (for_each l body st).
Proof.
  induction l as [|i l IH]; intros Hbody st; simpl.
  - apply Propagates_ret.
  - apply Propagates_bind.
    + apply Hbody. left.
    + intros st'. apply IH. intros j st'' Hj. apply Hbody. by right.
Qed.

Lemma lift_ok_TFNN_ASSERT cond error :
  own error \/ cond = true -> lift_ok own ub (TFNN_ASSERT cond error).
Proof. unfold TFNN_ASSERT. destruct cond; cbn; [done|]. by intros [?|?]. Qed.

Context {DataType : Type}.
Variable DataTypeSize : DataType -> Z.

Lemma allocate_outputs_propagates flags num_outputs (node_def : NodeDef DataType) :
  Propagates own ub (allocate_outputs flags num_outputs node_def).
Proof.
  unfold allocate_outputs. apply Propagates_for_each. intros p acc _.
  apply Propagates_bind; [apply Propagates_TF_RETURN_IF_ERROR|].
  intros _. apply Propagates_ret.
Qed.

Lemma build_input_propagates R H pad nb b idx (input : Tensor DataType) is_batch :
  Propagates own ub (build_input R H pad nb b idx input is_batch).
Proof.
  unfold build_input. destruct is_batch; [|apply Propagates_ret].
  case_bool_decide; [|apply Propagates_ret].
  apply Propagates_bind; [apply Propagates_TF_RETURN_IF_ERROR|]. intros _.
  apply Propagates_bind; [apply Propagates_TF_RETURN_IF_ERROR|]. intros _.
  apply Propagates_ret.
Qed.

Lemma build_inputs_propagates R H pad nb (input_tensors : list (Tensor DataType)) flags :
  ub \/ 0 <= nb ->
  Propagates own ub (build_inputs R H pad nb input_tensors flags).
Proof.
  intros Hnb. unfold build_inputs. case_bool_decide.
  { apply Propagates_undefined. destruct Hnb; [done | lia]. }
  apply Propagates_for_each. intros b acc _.
  apply Propagates_bind; [|intros batch; apply Propagates_ret].
  apply Propagates_for_each. intros [idx [input is_batch]] batch _.
  apply Propagates_bind; [apply build_input_propagates|].
  intros t. apply Propagates_ret.
Qed.

Variable model : NeuronModel.
Variable node_def : NodeDef DataType.
Variable input_tensors : list (Tensor DataType).
Variable plan : Plan DataType.

Let n := plan_num_batches plan.
Let w := plan_window_size plan.

Lemma prepare_request_queue b st o t st' :
  prepare_request DataTypeSize node_def input_tensors plan b st o = (t, Ret st') ->
  scoped_io_queue st' = scoped_io_queue st ++ [io_batch b].
Proof.
  unfold prepare_request, bind, lift.
  destruct (check_input_tensors _ _ _) as [[]| |]; [|done|done].
  cbn [scoped_io_queue length]. rewrite last_snoc. unfold ret.
  destruct (RIE_IGNORE_ABORTED _ _) as [t1 [[]| |]]; [|done|done].
  intros [= _ <-]. done.
Qed.

Lemma prepare_request_propagates b st :
  lift_ok own ub (check_sub_batch DataTypeSize node_def input_tensors plan b) ->
  Propagates own ub (prepare_request DataTypeSize node_def input_tensors plan b st).
Proof.
  intros Hcheck. unfold prepare_request.
  apply Propagates_bind; [by apply Propagates_lift|]. intros _.
  cbn [scoped_io_queue]. rewrite last_snoc.
  apply Propagates_bind; [apply Propagates_RIE_IGNORE_ABORTED|]. intros _.
  apply Propagates_ret.
Qed.

Lemma fill_body_propagates b st :
  lift_ok own ub (check_sub_batch DataTypeSize node_def input_tensors plan b) ->
  Propagates own ub (fill_body DataTypeSize model node_def input_tensors plan b st).
Proof.
  intros Hcheck. unfold fill_body.
  apply Propagates_bind_val; [by apply prepare_request_propagates|].
  intros o t st' Hq%prepare_request_queue.
  apply Propagates_bind.
  { destruct (infer_sem_ model);
      [apply Propagates_TF_RETURN_IF_ERROR | apply Propagates_ret]. }
  intros _. rewrite Hq, last_snoc.
  case_bool_decide.
  - apply Propagates_bind; [apply Propagates_TF_RETURN_IF_ERROR|]. intros _.
    apply Propagates_bind; [apply Propagates_TF_RETURN_IF_ERROR|]. intros _.
    apply Propagates_ret.
  - apply Propagates_bind; [apply Propagates_TF_RETURN_IF_ERROR|]. intros _.
    apply Propagates_bind; [apply Propagates_TF_RETURN_IF_ERROR|]. intros _.
    apply Propagates_ret.
Qed.

Lemma steady_body_propagates b st :
  lift_ok own ub (check_sub_batch DataTypeSize node_def input_tensors plan b) ->
  Propagates own ub (steady_body DataTypeSize node_def input_tensors plan b st).
Proof.
  intros Hcheck. unfold steady_body.
  apply Propagates_bind_val; [by apply prepare_request_propagates|].
  intros o t st' Hq%prepare_request_queue.
  rewrite Hq, last_snoc.
  destruct (head (scoped_io_queue st ++ [io_batch b])) as [front|] eqn:Hhead.
  2: { by destruct (scoped_io_queue st). }
  apply Propagates_bind.
  { case_bool_decide; apply Propagates_TF_RETURN_IF_ERROR. }
  intros _.
  apply Propagates_bind; [apply Propagates_TF_RETURN_IF_ERROR|]. intros _.
  apply Propagates_bind.
  { case_bool_decide.
    - apply Propagates_bind; [apply Propagates_TF_RETURN_IF_ERROR|]. intros _.
      apply Propagates_ret.
    - apply Propagates_bind; [apply Propagates_TF_RETURN_IF_ERROR|]. intros _.
      apply Propagates_ret. }
  intros st''.
  apply Propagates_bind; [apply Propagates_RIE_IGNORE_ABORTED|]. intros _.
  apply Propagates_ret.
Qed.

Hypothesis checks :
  forall b, 0 <= b < w \/ w <= b < n ->
    lift_ok own ub (check_sub_batch DataTypeSize node_def input_tensors plan b).

Lemma post_requests_propagates st :
  Propagates own ub (post_requests DataTypeSize model node_def input_tensors plan st).
Proof.
  unfold post_requests. fold n w.
  apply Propagates_bind.
  - apply Propagates_for_each. intros b st1 Hb%elem_of_seqZ.
    apply fill_body_propagates, checks. lia.
  - intros st1. apply Propagates_for_each. intros b st2 Hb%elem_of_seqZ.
    apply steady_body_propagates, checks. lia.
Qed.

Lemma wait_posts_propagates (k : nat) (need_wait : list IO) :
  ub \/ (k <= length need_wait)%nat -> Propagates own ub (wait_posts k need_wait).
Proof.
  revert need_wait. induction k as [|k IH]; intros need_wait Hk; simpl.
  - apply Propagates_ret.
  - destruct need_wait as [|io rest].
    + apply Propagates_undefined. destruct Hk as [?|Hk]; [done | cbn in Hk; lia].
    + apply Propagates_bind; [apply Propagates_TF_RETURN_IF_ERROR|]. intros _.
      apply IH. destruct Hk as [?|Hk]; [by left | right; cbn in Hk; lia].
Qed.

Lemma drain_propagates (l : list Z) (q : list IO) : Propagates own ub (drain plan l q).
Proof.
  revert q. induction l as [|i l IH]; intros q; simpl.
  - apply Propagates_ret.
  - destruct q as [|io q]; [apply Propagates_ret|].
    apply Propagates_bind; [apply Propagates_TF_RETURN_IF_ERROR|]. intros _.
    apply Propagates_bind; [apply Propagates_TF_RETURN_IF_ERROR|]. intros _.
    apply Propagates_bind; [apply Propagates_RIE_IGNORE_ABORTED|]. intros _.
    apply IH.
Qed.

Lemma profile_run_propagates :
  lift_ok own ub (check_sub_batch DataTypeSize node_def input_tensors plan 0) ->
  Propagates own ub (profile_run DataTypeSize node_def input_tensors plan).
Proof.
  intros Hcheck. unfold profile_run.
  apply Propagates_bind; [by apply Propagates_lift|]. intros _.
  apply Propagates_bind.
  { apply Propagates_for_each. intros p acc _.
    apply Propagates_bind; [apply Propagates_TF_RETURN_IF_ERROR|]. intros _.
    apply Propagates_ret. }
  intros temp_outputs.
  apply Propagates_bind; [apply Propagates_RIE_IGNORE_ABORTED|]. intros _.
  apply Propagates_bind; [apply Propagates_TF_RETURN_IF_ERROR|]. intros _.
  apply Propagates_RIE_IGNORE_ABORTED.
Qed.

Hypothesis profile_check :
  profile_enabled_ model = true ->
  lift_ok own ub (check_sub_batch DataTypeSize node_def input_tensors plan 0).

(** What the lines after the two loops need of the locals the loops leave. *)
Hypothesis posted_queue :
  forall o t st,
    post_requests DataTypeSize model node_def input_tensors plan
      (mkPipeline [] [] (replicate (Z.to_nat n) [])) o = (t, Ret st) ->
    (own (errors.Internal "incorrect queue length -- race condition likely")
     \/ Z.of_nat (length (need_wait_infer_post st)) = w)
    /\ (ub \/ (Z.to_nat w <= length (need_wait_infer_post st))%nat).

Lemma locked_section_propagates :
  Propagates own ub
    (locked_section DataTypeSize model node_def input_tensors plan
       (replicate (Z.to_nat n) [])).
Proof.
  unfold locked_section.
  apply Propagates_bind; [apply Propagates_call_void|]. intros _.
  apply Propagates_bind; [apply Propagates_RIE_IGNORE_ABORTED|]. intros _.
  apply Propagates_bind; [apply Propagates_RIE_IGNORE_ABORTED|]. intros _.
  apply Propagates_bind_val; [apply post_requests_propagates|].
  intros o t st Hrun. destruct (posted_queue o t st Hrun) as [Hlen Hwait].
  apply Propagates_bind.
  { apply Propagates_lift, lift_ok_TFNN_ASSERT.
    destruct Hlen as [?|Hlen]; [by left | right]. by apply bool_decide_eq_true_2. }
  intros _.
  apply Propagates_bind; [by apply wait_posts_propagates|]. intros _.
  apply Propagates_ret.
Qed.

(** The device that [initialize] is relied on to have obtained. *)
Hypothesis device_assigned : ub \/ neuron_device_ model = true.

Lemma session_alive_propagates : Propagates own ub (session_alive model).
Proof.
  unfold session_alive. destruct (neuron_device_ model).
  - apply Propagates_call_void.
  - apply Propagates_undefined. by destruct device_assigned.
Qed.

Lemma pipeline_propagates :
  Propagates own ub (pipeline DataTypeSize model node_def input_tensors plan).
Proof.
  unfold pipeline.
  apply Propagates_bind; [apply Propagates_RIE_IGNORE_ABORTED|]. intros _.
  apply Propagates_bind; [apply session_alive_propagates|]. intros _.
  apply Propagates_bind.
  { destruct (profile_enabled_ model) eqn:Hp;
      [by apply profile_run_propagates, profile_check | apply Propagates_ret]. }
  intros _.
  apply Propagates_bind; [apply locked_section_propagates|]. intros st.
  apply Propagates_bind; [apply drain_propagates|]. intros _.
  apply Propagates_ret.
Qed.

End PropagationRules.


Ltac own_tac := first [left | right; own_tac].

Lemma obind_lift_ok own ub {A B} (m : Outcome A) (f : A -> Outcome B) :
  lift_ok own ub m -> (forall a, lift_ok own ub (f a)) -> lift_ok own ub (obind m f).
Proof. destruct m as [a|s|]; cbn; [by intros _ Hf | done | done]. Qed.

Lemma ofor_each_lift_ok own ub {I St} (l : list I) (body : I -> St -> Outcome St) st :
  (forall i st, lift_ok own ub (body i st)) -> lift_ok own ub (ofor_each l body st).
Proof.
  intros Hbody. revert st. induction l as [|i l IH]; intros st; simpl; [done|].
  by apply obind_lift_ok.
Qed.

Lemma TFNN_ASSERT_own cond error :
  own_error error -> lift_ok own_error True (TFNN_ASSERT cond error).
Proof. intros He. apply lift_ok_TFNN_ASSERT. by left. Qed.

Lemma tensor_sizes_own {DataType} (DataTypeSize : DataType -> Z)
    (dtypes : list DataType) (shapes : list TensorShape) :
  lift_ok own_error True (tensor_sizes DataTypeSize dtypes shapes).
Proof.
  unfold tensor_sizes. apply ofor_each_lift_ok. intros p sizes.
  apply obind_lift_ok; [|done].
  unfold get_tensor_size, TensorShape_of. by destruct (AddDims _ _ _).
Qed.

Lemma get_io_tensor_sizes_own {DataType} (DataTypeSize : DataType -> Z)
    (ins outs : bool) (node_def : NodeDef DataType) :
  lift_ok own_error True (get_io_tensor_sizes DataTypeSize ins outs node_def).
Proof.
  unfold get_io_tensor_sizes.
  destruct (_ || _); [cbn; unfold own_error, compute_errors; own_tac|].
  destruct (_ || _); [cbn; unfold own_error, compute_errors; own_tac|].
  apply obind_lift_ok; [destruct ins; [apply tensor_sizes_own | done]|]. intros i.
  apply obind_lift_ok; [destruct outs; [apply tensor_sizes_own | done]|]. done.
Qed.

Lemma check_input_tensors_own {DataType} (DataTypeSize : DataType -> Z)
    (input_tensors : list (Tensor DataType)) (node_def : NodeDef DataType) :
  lift_ok own_error True (check_input_tensors DataTypeSize input_tensors node_def).
Proof.
  unfold check_input_tensors.
  apply obind_lift_ok; [apply get_io_tensor_sizes_own|]. intros sizes.
  case_bool_decide; [cbn; unfold own_error, compute_errors; own_tac|].
  apply ofor_each_lift_ok. intros p [].
  case_bool_decide; [cbn; unfold own_error, compute_errors; own_tac | done].
Qed.

Lemma check_arguments_own {DataType} (DataTypeSize : DataType -> Z)
    (node_def : NodeDef DataType) (input_tensors : list (Tensor DataType)) :
  lift_ok own_error True (check_arguments DataTypeSize node_def input_tensors).
Proof.
  unfold check_arguments. apply obind_lift_ok.
  - apply TFNN_ASSERT_own. unfold own_error, compute_errors. own_tac.
  - intros _. apply get_io_tensor_sizes_own.
Qed.

Lemma analyse_input_own {DataType} (node_def : NodeDef DataType) idx
    (tptr : Tensor DataType) bi :
  lift_ok own_error True (analyse_input node_def idx tptr bi).
Proof.
  unfold analyse_input. case_bool_decide.
  - apply obind_lift_ok.
    { apply TFNN_ASSERT_own. unfold own_error, compute_errors. own_tac. }
    intros _. apply obind_lift_ok.
    + case_bool_decide.
      * destruct (input_shapes node_def !!! idx); [done|].
        apply obind_lift_ok; [|done].
        apply TFNN_ASSERT_own. unfold own_error, compute_errors. own_tac.
      * apply obind_lift_ok; [|done].
        apply TFNN_ASSERT_own. unfold own_error, compute_errors. own_tac.
    + intros [b k]. destruct (input_shapes node_def !!! idx); [done|].
      apply obind_lift_ok; [|done].
      apply TFNN_ASSERT_own. unfold own_error, compute_errors. own_tac.
  - apply obind_lift_ok; [|done].
    apply TFNN_ASSERT_own. unfold own_error, compute_errors. own_tac.
Qed.

Lemma analyse_output_own {DataType} (node_def : NodeDef DataType) idx bi :
  lift_ok own_error True (analyse_output node_def idx bi).
Proof.
  unfold analyse_output. apply obind_lift_ok.
  - case_bool_decide; [|done].
    apply obind_lift_ok.
    { apply TFNN_ASSERT_own. unfold own_error, compute_errors. own_tac. }
    intros _. apply obind_lift_ok; [|done].
    apply TFNN_ASSERT_own. unfold own_error, compute_errors. own_tac.
  - intros flag. by case_bool_decide.
Qed.

Lemma batch_analysis_own {DataType} num_outputs (node_def : NodeDef DataType)
    (input_tensors : list (Tensor DataType)) :
  lift_ok own_error True (batch_analysis num_outputs node_def input_tensors).
Proof.
  unfold batch_analysis. destruct (_ && _); [|done].
  apply obind_lift_ok.
  - apply ofor_each_lift_ok. intros [idx t] bi. apply analyse_input_own.
  - intros bi. apply ofor_each_lift_ok. intros idx bi'. apply analyse_output_own.
Qed.

Lemma single_shot_propagates own ub {DataType} (DataTypeSize : DataType -> Z) model
    num_outputs (node_def : NodeDef DataType) (input_tensors : list (Tensor DataType)) :
  lift_ok own ub (check_input_tensors DataTypeSize input_tensors node_def) ->
  ub \/ neuron_device_ model = true ->
  Propagates own ub (single_shot DataTypeSize model num_outputs node_def input_tensors).
Proof.
  intros Hcheck Hdev. unfold single_shot.
  apply Propagates_bind; [apply allocate_outputs_propagates|]. intros outs.
  apply Propagates_bind; [apply Propagates_RIE_IGNORE_ABORTED|]. intros _.
  apply Propagates_bind; [by apply session_alive_propagates|]. intros _.
  apply Propagates_bind; [by apply Propagates_lift|]. intros _.
  apply Propagates_bind; [apply Propagates_RIE_IGNORE_ABORTED|]. intros _.
  apply Propagates_bind.
  { destruct (profile_enabled_ model); apply Propagates_RIE_IGNORE_ABORTED. }
  intros _. apply Propagates_RIE_IGNORE_ABORTED.
Qed.

(** The dynamic path, whatever it is given. *)
Lemma dynamic_path_own {DataType} (DataTypeSize : DataType -> Z) model
    num_outputs (node_def : NodeDef DataType) (input_tensors : list (Tensor DataType)) bi :
  Propagates own_error True
    (dynamic_path DataTypeSize model num_outputs node_def input_tensors bi).
Proof.
  unfold dynamic_path. case_bool_decide; [by apply Propagates_undefined|].
  apply Propagates_bind; [apply allocate_outputs_propagates|]. intros outs.
  apply Propagates_bind; [by apply build_inputs_propagates; left|]. intros batches.
  apply pipeline_propagates.
  - intros b _. apply check_input_tensors_own.
  - intros _. apply check_input_tensors_own.
  - intros o t st _. split; [left|by left].
    unfold own_error, compute_errors. own_tac.
  - by left.
Qed.

(** X5.  On every invocation of compute, whatever the tensors, the metadata
    and the answers of the collaborators: the log holds the status each call
    was answered with; every call but the last was let through at its call
    site (an OK status, or ABORTED where RIE_IGNORE_ABORTED wraps the call);
    when compute returns OK the last was let through as well; and when it
    returns an error, either its last call was refused and the error is the
    status of that call, unchanged, or every call was let through and the
    error is one of the statuses that model.cc builds itself.  Nothing is
    claimed of an invocation that leaves defined behaviour. *)
Theorem X5_compute_hands_statuses_on {DataType} (DataTypeSize : DataType -> Z)
    (model : NeuronModel) (num_outputs : nat) (node_def : NodeDef DataType)
    (input_tensors : list (Tensor DataType)) :
  Propagates own_error True
    (compute DataTypeSize model num_outputs node_def input_tensors).
Proof.
  unfold compute.
  apply Propagates_bind; [apply Propagates_lift, check_arguments_own|]. intros _.
  apply Propagates_bind; [apply Propagates_lift, batch_analysis_own|]. intros bi.
  apply Propagates_bind.
  { apply Propagates_lift, TFNN_ASSERT_own. unfold own_error, compute_errors. own_tac. }
  intros _. unfold run_branch. destruct (use_dynamic_batch_size bi).
  - apply Propagates_bind; [apply dynamic_path_own|]. intros st. apply Propagates_ret.
  - apply single_shot_propagates; [apply check_input_tensors_own | by left].
Qed.



Section StrictPipeline.

Context {DataType : Type}.
Variable DataTypeSize : DataType -> Z.
Variable model : NeuronModel.
Variable node_def : NodeDef DataType.
Variable input_tensors : list (Tensor DataType).
Variable plan : Plan DataType.

Let n := plan_num_batches plan.
Let w := plan_window_size plan.

Hypothesis window_in_range : 1 <= w <= n.
Hypothesis num_batches_fits : n <= int64_max.
Hypothesis sub_batches_valid :
  forall b, 0 <= b < n ->
    check_sub_batch DataTypeSize node_def input_tensors plan b = Ret tt.


End StrictPipeline.



(** ** The request builder feeds the validator *)

Lemma check_input_tensors_accepts_intro {DataType} (DataTypeSize : DataType -> Z)
    (input_tensors : list (Tensor DataType)) (node_def : NodeDef DataType) :
  ~ metadata_mismatch node_def ->
  Forall shape_accepted (input_shapes node_def) ->
  Forall2 (fun t size => tensor_data_size DataTypeSize t = size)
          input_tensors (declared_input_sizes DataTypeSize node_def) ->
  check_input_tensors DataTypeSize input_tensors node_def = Ret tt.
Proof.
  intros Hm Hacc HF.
  by destruct (check_input_tensors_sizes DataTypeSize input_tensors node_def Hm Hacc)
    as [[_ ?]|[? _]].
Qed.

Lemma build_value_row {DataType} (input_tensors : list (Tensor DataType)) H n flags b :
  0 <= b < n ->
  build_value input_tensors H n flags !!! Z.to_nat b
  = (fun p : nat * (Tensor DataType * bool) =>
       build_input_value H n b p.1 p.2.1 p.2.2)
      <$> zip (seq 0 (length input_tensors)) (zip input_tensors flags).
Proof.
  intros Hb. apply list_lookup_total_correct.
  unfold build_value. rewrite list_lookup_fmap, lookup_seqZ_lt by lia.
  rewrite Z.add_0_l, Z2Nat.id by lia. reflexivity.
Qed.

(** The tensor that request [b] is set up on for one input. *)
Lemma sub_batch_input_size {DataType} (DataTypeSize : DataType -> Z) R H b idx
    (t : Tensor DataType) flag dt k_shape :
  1 <= R -> 1 <= H -> plan_fits R H ->
  0 <= b < num_batches_of R H ->
  input_conforms DataTypeSize R H t flag dt k_shape ->
  tensor_data_size DataTypeSize
    (if flag
     then default t (build_input_value H (num_batches_of R H) b idx t flag)
     else t)
  = byte_size DataTypeSize dt k_shape.
Proof.
  intros HR HH Hfit Hb [Hdt Hshape].
  destruct (plan_arith R H HR HH Hfit) as [_ Hn].
  destruct (ceil_div_bounds R H HR HH) as [Hn1 _].
  assert (Hmax : num_batches_of R H * H <= int64_max)
    by (unfold plan_fits in Hfit; by rewrite Hn).
  unfold tensor_data_size, byte_size. destruct flag.
  - destruct Hshape as (rest & -> & Hs). cbn [build_input_value].
    case_bool_decide; cbn [default from_option id dtype shape Slice].
    + by rewrite Hs, Hdt.
    + rewrite Hs, Hdt. cbn [set_dim0].
      rewrite (row_limit_small b H (num_batches_of R H)) by lia.
      rewrite (mul64_small b H (num_batches_of R H)) by lia.
      by replace (b * H + H - b * H) with H by lia.
  - by rewrite Hshape, Hdt.
Qed.

Lemma sub_batch_conforms {DataType} (DataTypeSize : DataType -> Z) model num_outputs
    (node_def : NodeDef DataType) (input_tensors : list (Tensor DataType)) bi :
  1 <= batch_size bi -> 1 <= k_batch_size bi ->
  plan_fits (batch_size bi) (k_batch_size bi) ->
  ~ metadata_mismatch node_def ->
  Forall shape_accepted (input_shapes node_def) ->
  length input_tensors = length (input_names node_def) ->
  length (is_batch_input_tensors bi) = length input_tensors ->
  (forall idx t flag dt k_shape,
     input_tensors !! idx = Some t ->
     is_batch_input_tensors bi !! idx = Some flag ->
     input_dtypes node_def !! idx = Some dt ->
     input_shapes node_def !! idx = Some k_shape ->
     input_conforms DataTypeSize (batch_size bi) (k_batch_size bi) t flag dt k_shape) ->
  forall b, 0 <= b < num_batches_of (batch_size bi) (k_batch_size bi) ->
    check_sub_batch DataTypeSize node_def input_tensors
      (dynamic_plan model num_outputs node_def input_tensors bi) b = Ret tt.
Proof.
  intros HR HH Hfit Hm Hacc Hcount Hflags Hconf b Hb. unfold check_sub_batch.
  apply check_input_tensors_accepts_intro; [done|done|].
  cbn [dynamic_plan plan_info plan_inputs].
  rewrite build_value_row by done.
  unfold sliced_inputs_of, declared_input_sizes.
  apply Forall2_same_length_lookup_2.
  - rewrite !length_zip_with, length_fmap, !length_zip_with, length_seq.
    unfold metadata_mismatch in Hm. lia.
  - intros i x y Hx Hy.
    apply lookup_zip_with_Some in Hx as ([flag t] & sub & -> & Hft & Hsub).
    apply lookup_zip_Some in Hft as [Hflag Ht].
    apply list_lookup_fmap_Some in Hsub as ([i' [t' flag']] & -> & Hz).
    apply lookup_zip_Some in Hz as [Hi' Hz].
    apply lookup_zip_Some in Hz as [Ht' Hflag'].
    apply lookup_seq in Hi' as [-> _]. cbn [Nat.add fst snd].
    assert (t' = t) as -> by congruence.
    assert (flag' = flag) as -> by congruence.
    apply lookup_zip_with_Some in Hy as (dt & k_shape & -> & Hdt & Hks).
    apply sub_batch_input_size; try done.
    by eapply Hconf.
Qed.


Lemma batch_analysis_dynamic {DataType} num_outputs (node_def : NodeDef DataType)
    (input_tensors : list (Tensor DataType)) bi :
  batch_analysis num_outputs node_def input_tensors = Ret bi ->
  use_dynamic_batch_size bi = true ->
  analysis_enabled node_def = true.
Proof.
  intros Hrun Hdyn. destruct (analysis_enabled node_def) eqn:Hen; [done|].
  revert Hrun. unfold batch_analysis. unfold analysis_enabled in Hen. rewrite Hen.
  intros [= <-]. done.
Qed.

(** What the analysis has established of the inputs when it chooses the
    dynamic path. *)
Lemma analysis_conforms {DataType} (DataTypeSize : DataType -> Z) num_outputs
    (node_def : NodeDef DataType) (input_tensors : list (Tensor DataType)) sizes bi :
  check_arguments DataTypeSize node_def input_tensors = Ret sizes ->
  batch_analysis num_outputs node_def input_tensors = Ret bi ->
  use_dynamic_batch_size bi = true ->
  dtype_sizes_agree DataTypeSize node_def input_tensors ->
  uniform_batch_dim node_def (k_batch_size bi) ->
  1 <= batch_size bi
  /\ length (is_batch_input_tensors bi) = length input_tensors
  /\ forall idx t flag dt k_shape,
       input_tensors !! idx = Some t ->
       is_batch_input_tensors bi !! idx = Some flag ->
       input_dtypes node_def !! idx = Some dt ->
       input_shapes node_def !! idx = Some k_shape ->
       input_conforms DataTypeSize (batch_size bi) (k_batch_size bi) t flag dt k_shape.
Proof.
  intros [Hcount Hmeta]%check_arguments_Ret Hrun Hdyn Hdt Huni.
  pose proof (batch_analysis_dynamic _ _ _ _ Hrun Hdyn) as Hen.
  destruct (analysis_enabled_lengths node_def Hen) as [Hax _].
  destruct (batch_analysis_Ret num_outputs node_def input_tensors bi Hen Hrun)
    as (bi1 & (Hlen & _ & Hdone & Hsizes) & (HR & HH & Hin & Hd & _)).
  rewrite Hd in Hdyn.
  destruct Hsizes as [(_ & _ & Hd1 & _)|(Hpos & Hd1 & _)]; [congruence|].
  rewrite Hd1 in Hdyn.
  split_and!; [lia | by rewrite Hin |].
  intros idx t flag dt k_shape Ht Hflag Hdtl Hks.
  pose proof (lookup_lt_Some _ _ _ Ht) as Hidx.
  destruct (Hdone idx t Hidx Ht) as (flag1 & Hflag1 & Han).
  rewrite Hin in Hflag. assert (flag1 = flag) as -> by congruence.
  split; [by eapply (Forall2_lookup_lr _ _ _ idx t dt Hdt)|].
  unfold input_analysed in Han. unfold TensorShape in *.
  rewrite (list_lookup_total_correct _ _ _ Hks) in Han.
  rewrite HR, HH. case_bool_decide as Haxis.
  - destruct Han as (Hne & Hshape & ->). rewrite Hdyn.
    exists (tl k_shape). split; [|done].
    assert (Hlook : input_batch_axis node_def !! idx = Some 0).
    { rewrite Haxis. apply list_lookup_lookup_total_lt. lia. }
    pose proof (Huni idx k_shape Hlook Hks) as Hhd. rewrite HH in Hhd.
    destruct k_shape; [done|]. cbn in Hhd |- *. by rewrite Hhd.
  - by destruct Han as [Hshape ->].
Qed.

(** X6.  On the dynamic path the validator accepts the inputs of every
    sub-batch, the padded last one included, as soon as two things hold that
    the batch analysis does not look at: the element size of every tensor's
    type is that of the declared type, and every input declared with batch
    axis 0 is declared with the hardware batch size as its leading dimension
    (the hardware batch size positive, the padded total within int64_t). *)
Theorem X6_sub_batches_pass_validation {DataType} (DataTypeSize : DataType -> Z)
    (model : NeuronModel) (num_outputs : nat) (node_def : NodeDef DataType)
    (input_tensors : list (Tensor DataType)) (sizes : list Z * list Z) (bi : BatchInfo) :
  check_arguments DataTypeSize node_def input_tensors = Ret sizes ->
  batch_analysis num_outputs node_def input_tensors = Ret bi ->
  use_dynamic_batch_size bi = true ->
  1 <= k_batch_size bi ->
  plan_fits (batch_size bi) (k_batch_size bi) ->
  dtype_sizes_agree DataTypeSize node_def input_tensors ->
  uniform_batch_dim node_def (k_batch_size bi) ->
  forall b, 0 <= b < num_batches_of (batch_size bi) (k_batch_size bi) ->
    check_input_tensors DataTypeSize
      (sliced_inputs_of (is_batch_input_tensors bi)
         (build_value input_tensors (k_batch_size bi)
            (num_batches_of (batch_size bi) (k_batch_size bi))
            (is_batch_input_tensors bi) !!! Z.to_nat b)
         input_tensors)
      node_def
    = Ret tt.
Proof.
  intros Hargs Hrun Hdyn HH Hfit Hdt Huni b Hb.
  destruct (analysis_conforms DataTypeSize num_outputs node_def input_tensors sizes bi
              Hargs Hrun Hdyn Hdt Huni) as (HR & Hflags & Hconf).
  pose proof (check_arguments_accepted _ _ _ _ Hargs) as [Hacc _].
  apply check_arguments_Ret in Hargs as [Hcount Hmeta].
  exact (sub_batch_conforms DataTypeSize model num_outputs node_def input_tensors bi
           HR HH Hfit Hmeta Hacc Hcount Hflags Hconf b Hb).
Qed.

(** The padded last sub-batch of ten rows on a model compiled for four. *)
Lemma X6_sub_batches_pass_validation_witness :
  check_input_tensors SampleTypeSize
    (sliced_inputs_of (is_batch_input_tensors (wide_info 10))
       (build_value (wide_inputs 10) (k_batch_size (wide_info 10))
          (num_batches_of (batch_size (wide_info 10)) (k_batch_size (wide_info 10)))
          (is_batch_input_tensors (wide_info 10)) !!! Z.to_nat 2)
       (wide_inputs 10))
    wide_node_def
  = Ret tt.
Proof.
  apply (X6_sub_batches_pass_validation SampleTypeSize (sample_model 2) 2 wide_node_def
           (wide_inputs 10) ([48; 10], [32; 14]) (wide_info 10)).
  - vm_compute. reflexivity.
  - vm_compute. reflexivity.
  - reflexivity.
  - vm_compute. discriminate.
  - vm_compute. discriminate.
  - repeat constructor.
  - intros [|[|idx]] k_shape Hax Hks; vm_compute in Hax, Hks.
    + injection Hks as <-. reflexivity.
    + discriminate.
    + discriminate.
  - vm_compute. split; [discriminate | reflexivity].
Defined.


(** *** When no device was assigned *)




Section NoDevice.

Context {DataType : Type}.
Variable DataTypeSize : DataType -> Z.
Variable model : NeuronModel.
Variable num_outputs : nat.
Variable node_def : NodeDef DataType.
Variable input_tensors : list (Tensor DataType).

Hypothesis no_device : neuron_device_ model = false.





End NoDevice.



(** ** Requests are set up, posted, waited for and finished in order *)

Lemma omap_fmap_none {X Y} (f : Call -> option Y) (g : X -> Call) (l : list X) :
  (forall x, f (g x) = None) -> omap f (g <$> l) = [].
Proof.
  intros Hg. induction l as [|x l IH]; [done|]. cbn. by rewrite Hg.
Qed.

Lemma omap_flat_map_none {X Y} (f : Call -> option Y) (g : X -> list Call) (l : list X) :
  (forall x, omap f (g x) = []) -> omap f (flat_map g l) = [].
Proof.
  intros Hg. induction l as [|x l IH]; [done|]. simpl. by rewrite omap_app, Hg, IH.
Qed.

Lemma omap_flat_map_one {X Y} (f : Call -> option Y) (g : X -> list Call) (h : X -> Y)
    (l : list X) :
  (forall x, omap f (g x) = [h x]) -> omap f (flat_map g l) = h <$> l.
Proof.
  intros Hg. induction l as [|x l IH]; [done|]. simpl. by rewrite omap_app, Hg, IH.
Qed.

Lemma omap_prefix {Y} (f : Call -> option Y) (l1 l2 : list Call) :
  l1 `prefix_of` l2 -> omap f l1 `prefix_of` omap f l2.
Proof. intros [k ->]. rewrite omap_app. by apply prefix_app_r. Qed.

Lemma fmap_seqZ_shift {X} (g : Z -> X) (w len : Z) :
  (fun b => g (b - w)) <$> seqZ w len = g <$> seqZ 0 len.
Proof.
  apply list_eq. intros i. rewrite !list_lookup_fmap.
  destruct (decide (Z.of_nat i < len)) as [Hlt|Hge].
  - rewrite !lookup_seqZ_lt by done. cbn. do 2 f_equal. lia.
  - rewrite !lookup_seqZ_ge by lia. done.
Qed.

Lemma omap_alloc_calls {DataType Y} (f : Call -> option Y) num_outputs
    (node_def : NodeDef DataType) flags :
  (forall idx dim0, f (allocate_output idx dim0) = None) ->
  omap f (alloc_calls num_outputs node_def flags) = [].
Proof. intros Hf. unfold alloc_calls. apply omap_fmap_none. intros p. apply Hf. Qed.

Lemma omap_build_calls {DataType Y} (f : Call -> option Y)
    (input_tensors : list (Tensor DataType)) R H pad n flags :
  (forall b idx s l, f (tensor_memset b idx s l) = None) ->
  (forall b idx s l, f (tensor_memcpy b idx s l) = None) ->
  omap f (build_calls input_tensors R H pad n flags) = [].
Proof.
  intros Hset Hcpy. unfold build_calls. apply omap_flat_map_none. intros b.
  apply omap_flat_map_none. intros [idx [input flag]].
  unfold build_input_calls. destruct (_ && _); [|done]. cbn. by rewrite Hset, Hcpy.
Qed.

Section RequestOrder.

Context {DataType : Type}.
Variable model : NeuronModel.
Variable node_def : NodeDef DataType.
Variable input_tensors : list (Tensor DataType).
Variable plan : Plan DataType.

Let n := plan_num_batches plan.
Let w := plan_window_size plan.

Hypothesis window_in_range : 0 <= w <= n.

Lemma waited_drain_calls l q :
  omap waited (drain_calls plan l q) = take (length l) q.
Proof.
  revert q. induction l as [|i l IH]; intros q; [done|].
  destruct q as [|io q]; [done|]. cbn [drain_calls length take].
  rewrite omap_app, IH. reflexivity.
Qed.

Lemma finished_drain_calls l q :
  omap finished (drain_calls plan l q) = take (length l) q.
Proof.
  revert q. induction l as [|i l IH]; intros q; [done|].
  destruct q as [|io q]; [done|]. cbn [drain_calls length take].
  rewrite omap_app, IH. reflexivity.
Qed.

Lemma omap_drain_none {Y} (f : Call -> option Y) l q :
  (forall io ts, f (infer_wait io ts) = None) ->
  (forall io, f (finish io) = None) ->
  f release_sem = None ->
  omap f (drain_calls plan l q) = [].
Proof.
  intros Hw Hf Hrel. revert q. induction l as [|i l IH]; intros q; [done|].
  destruct q as [|io q]; [done|]. cbn [drain_calls].
  rewrite omap_app, IH. cbn. by rewrite Hw, Hrel, Hf.
Qed.

Lemma final_queue :
  scoped_io_queue (state_at plan n) = io_batch <$> seqZ (n - w) w.
Proof.
  cbn [state_at scoped_io_queue]. fold n w.
  by rewrite Z.max_r, Z.min_r by lia.
Qed.

Lemma take_final_queue :
  take (length (seqZ 0 w)) (scoped_io_queue (state_at plan n))
  = io_batch <$> seqZ (n - w) w.
Proof.
  rewrite final_queue. apply take_ge. rewrite length_fmap, !length_seqZ. lia.
Qed.

Lemma seqZ_split : seqZ 0 n = seqZ 0 (n - w) ++ seqZ (n - w) w.
Proof.
  replace n with ((n - w) + w) at 1 by lia. rewrite seqZ_app by lia. done.
Qed.

Lemma seqZ_split_fill : seqZ 0 n = seqZ 0 w ++ seqZ w (n - w).
Proof.
  replace n with (w + (n - w)) at 1 by lia. rewrite seqZ_app by lia. done.
Qed.

Lemma omap_profile_calls {Y} (f : Call -> option Y) :
  (forall idx, f (allocate_temp idx) = None) ->
  f (infer_with_profiling io_profile) = None ->
  omap f (profile_calls node_def input_tensors plan)
  = omap f [setup_scoped_runtime_io io_profile
              (region_of
                 <$> sliced_inputs_of (is_batch_input_tensors (plan_info plan))
                       (plan_inputs plan !!! 0%nat) input_tensors)
              (region_of
                 <$> (temp_output
                        <$> zip (seq 0 (length (output_dtypes node_def)))
                                (zip (output_dtypes node_def) (output_shapes node_def))));
            finish io_profile].
Proof.
  intros Htemp Hinfer. unfold profile_calls. rewrite omap_app.
  rewrite omap_fmap_none by (intros p; apply Htemp). cbn. by rewrite Hinfer.
Qed.

Lemma set_up_pipeline_calls :
  omap set_up (pipeline_calls model node_def input_tensors plan)
  = requests_in_order model n.
Proof.
  unfold pipeline_calls, locked_calls, post_requests_calls, requests_in_order.
  fold n w. rewrite !omap_app.
  rewrite (omap_flat_map_one set_up _ io_batch).
  2: { intros b. unfold fill_calls, setup_call, post_call.
       destruct (infer_sem_ model); case_bool_decide; reflexivity. }
  rewrite (omap_flat_map_one set_up _ io_batch).
  2: { intros b. unfold steady_calls, setup_call, post_call.
       case_bool_decide; reflexivity. }
  unfold wait_posts_calls. rewrite omap_fmap_none by done.
  rewrite omap_drain_none by done.
  rewrite seqZ_split_fill, fmap_app, !app_nil_r.
  destruct (profile_enabled_ model); [|done].
  by rewrite omap_profile_calls.
Qed.

Lemma posted_pipeline_calls :
  omap posted (pipeline_calls model node_def input_tensors plan)
  = io_batch <$> seqZ 0 n.
Proof.
  unfold pipeline_calls, locked_calls, post_requests_calls. fold n w.
  rewrite !omap_app.
  rewrite (omap_flat_map_one posted _ io_batch).
  2: { intros b. unfold fill_calls, setup_call, post_call.
       destruct (infer_sem_ model); case_bool_decide; reflexivity. }
  rewrite (omap_flat_map_one posted _ io_batch).
  2: { intros b. unfold steady_calls, setup_call, post_call.
       case_bool_decide; reflexivity. }
  unfold wait_posts_calls. rewrite omap_fmap_none by done.
  rewrite omap_drain_none by done.
  rewrite seqZ_split_fill, fmap_app, !app_nil_r.
  destruct (profile_enabled_ model); [|done].
  by rewrite omap_profile_calls.
Qed.

Lemma waited_pipeline_calls :
  omap waited (pipeline_calls model node_def input_tensors plan)
  = io_batch <$> seqZ 0 n.
Proof.
  unfold pipeline_calls, locked_calls, post_requests_calls. fold n w.
  rewrite !omap_app.
  rewrite (omap_flat_map_none waited (fill_calls model input_tensors plan)).
  2: { intros b. unfold fill_calls, setup_call, post_call.
       destruct (infer_sem_ model); case_bool_decide; reflexivity. }
  rewrite (omap_flat_map_one waited _ (fun b => io_batch (b - w))).
  2: { intros b. unfold steady_calls, setup_call, post_call. fold w.
       case_bool_decide; reflexivity. }
  unfold wait_posts_calls. rewrite omap_fmap_none by done.
  rewrite waited_drain_calls.
  rewrite take_final_queue, fmap_seqZ_shift.
  rewrite seqZ_split, fmap_app, ?app_nil_r.
  destruct (profile_enabled_ model); [|done].
  by rewrite omap_profile_calls.
Qed.

Lemma finished_pipeline_calls :
  omap finished (pipeline_calls model node_def input_tensors plan)
  = requests_in_order model n.
Proof.
  unfold pipeline_calls, locked_calls, post_requests_calls, requests_in_order.
  fold n w. rewrite !omap_app.
  rewrite (omap_flat_map_none finished (fill_calls model input_tensors plan)).
  2: { intros b. unfold fill_calls, setup_call, post_call.
       destruct (infer_sem_ model); case_bool_decide; reflexivity. }
  rewrite (omap_flat_map_one finished _ (fun b => io_batch (b - w))).
  2: { intros b. unfold steady_calls, setup_call, post_call. fold w.
       case_bool_decide; reflexivity. }
  unfold wait_posts_calls. rewrite omap_fmap_none by done.
  rewrite finished_drain_calls.
  rewrite take_final_queue, fmap_seqZ_shift.
  rewrite seqZ_split, fmap_app, ?app_nil_r.
  destruct (profile_enabled_ model); [|done].
  by rewrite omap_profile_calls.
Qed.

End RequestOrder.


Lemma omap_dynamic_calls {DataType Y} (f : Call -> option Y) model num_outputs
    (node_def : NodeDef DataType) (input_tensors : list (Tensor DataType)) bi :
  (forall idx dim0, f (allocate_output idx dim0) = None) ->
  (forall b idx s l, f (tensor_memset b idx s l) = None) ->
  (forall b idx s l, f (tensor_memcpy b idx s l) = None) ->
  omap f (dynamic_calls model num_outputs node_def input_tensors bi)
  = omap f (pipeline_calls model node_def input_tensors
              (dynamic_plan model num_outputs node_def input_tensors bi)).
Proof.
  intros Halloc Hset Hcpy. unfold dynamic_calls. rewrite !omap_app.
  rewrite omap_alloc_calls by done. rewrite omap_build_calls by done. done.
Qed.

(** X8.  On the dynamic path, whatever the collaborators answer, the
    requests whose runtime I/O is set up, the requests posted, the requests
    waited for and the requests finished are, each taken in the order of the
    calls, an initial part of the sub-batches 0, 1, 2, ... in this order
    (after the profiler's own request, for set-up and finish, when profiling
    is enabled): no request is skipped, repeated or overtaken.  On a run that
    falls through each of the four lists is the whole of the sub-batches. *)
Theorem X8_requests_in_order {DataType} (DataTypeSize : DataType -> Z)
    (model : NeuronModel) (num_outputs : nat) (node_def : NodeDef DataType)
    (input_tensors : list (Tensor DataType)) (bi : BatchInfo) (o : Oracle) :
  let n := num_batches_of (batch_size bi) (k_batch_size bi) in
  let t := trace (dynamic_path DataTypeSize model num_outputs node_def input_tensors bi) o in
  1 <= batch_size bi -> 1 <= k_batch_size bi ->
  plan_fits (batch_size bi) (k_batch_size bi) ->
  omap set_up t `prefix_of` requests_in_order model n
  /\ omap posted t `prefix_of` (io_batch <$> seqZ 0 n)
  /\ omap waited t `prefix_of` (io_batch <$> seqZ 0 n)
  /\ omap finished t `prefix_of` requests_in_order model n
  /\ (is_Ret (outcome (dynamic_path DataTypeSize model num_outputs node_def
                         input_tensors bi) o) ->
      omap set_up t = requests_in_order model n
      /\ omap posted t = io_batch <$> seqZ 0 n
      /\ omap waited t = io_batch <$> seqZ 0 n
      /\ omap finished t = requests_in_order model n).
Proof.
  intros n t HR HH Hfit.
  destruct (dynamic_plan_in_range model num_outputs node_def input_tensors bi
              HR HH Hfit) as [Hw _].
  pose proof (set_up_pipeline_calls model node_def input_tensors
                (dynamic_plan model num_outputs node_def input_tensors bi) Hw) as Hs.
  pose proof (posted_pipeline_calls model node_def input_tensors
                (dynamic_plan model num_outputs node_def input_tensors bi) Hw) as Hp.
  pose proof (waited_pipeline_calls model node_def input_tensors
                (dynamic_plan model num_outputs node_def input_tensors bi) Hw) as Hwt.
  pose proof (finished_pipeline_calls model node_def input_tensors
                (dynamic_plan model num_outputs node_def input_tensors bi) Hw) as Hf.
  rewrite <- (omap_dynamic_calls set_up model num_outputs) in Hs by done.
  rewrite <- (omap_dynamic_calls posted model num_outputs) in Hp by done.
  rewrite <- (omap_dynamic_calls waited model num_outputs) in Hwt by done.
  rewrite <- (omap_dynamic_calls finished model num_outputs) in Hf by done.
  change (plan_num_batches (dynamic_plan model num_outputs node_def input_tensors bi))
    with n in Hs, Hp, Hwt, Hf.
  destruct (dynamic_path_follows DataTypeSize model num_outputs node_def input_tensors
              bi HR HH Hfit o) as [Hpre Hret].
  fold (trace (dynamic_path DataTypeSize model num_outputs node_def input_tensors bi) o)
    in Hpre, Hret.
  fold t in Hpre, Hret.
  split_and!.
  - rewrite <- Hs. by apply omap_prefix.
  - rewrite <- Hp. by apply omap_prefix.
  - rewrite <- Hwt. by apply omap_prefix.
  - rewrite <- Hf. by apply omap_prefix.
  - intros [st Hst]. unfold outcome in Hst.
    destruct (Hret st Hst) as [Hcalls _]. rewrite Hcalls. done.
Qed.

(** Ten rows on a model compiled for four, two requests in flight, no
    collaborator refusing a call. *)
Lemma X8_requests_in_order_witness :
  omap waited
    (trace (dynamic_path SampleTypeSize (sample_model 2) 1 sample_node_def
              (sample_inputs 10) (sample_info 10)) all_ok)
  = [io_batch 0; io_batch 1; io_batch 2].
Proof.
  refine (proj1 (proj2 (proj2 (proj2 (proj2 (proj2 (proj2
    (X8_requests_in_order SampleTypeSize (sample_model 2) 1 sample_node_def
       (sample_inputs 10) (sample_info 10) all_ok _ _ _)))) _)))).
  - simpl; lia.
  - simpl; lia.
  - vm_compute; discriminate.
  - eexists. vm_compute. reflexivity.
Defined.


(** ** The window bounds the requests in flight *)

Lemma in_flight_app w l1 l2 d :
  in_flight w (l1 ++ l2) d
  = match in_flight w l1 d with
    | Some d' => in_flight w l2 d'
    | None => None
    end.
Proof.
  revert d. induction l1 as [|c l1 IH]; intros d; [done|]. simpl.
  destruct (is_post c); [case_bool_decide; [apply IH | done]|].
  destruct (is_wait c); [case_bool_decide; [apply IH | done]|].
  apply IH.
Qed.

Lemma in_flight_idle w l d : Forall idle l -> in_flight w l d = Some d.
Proof.
  intros Hl. induction Hl as [|c l [Hp Hw] Hl IH]; [done|].
  simpl. by rewrite Hp, Hw.
Qed.

Lemma in_flight_for_seqZ w (f : Z -> list Call) (sigma : Z -> Z) (len : nat) (lo : Z) :
  (forall i, lo <= i < lo + Z.of_nat len ->
             in_flight w (f i) (sigma i) = Some (sigma (i + 1))) ->
  in_flight w (flat_map f (seqZ lo (Z.of_nat len))) (sigma lo)
  = Some (sigma (lo + Z.of_nat len)).
Proof.
  revert lo. induction len as [|len IH]; intros lo Hf.
  - rewrite seqZ_nil by lia. simpl. by replace (lo + Z.of_nat 0) with lo by lia.
  - rewrite seqZ_cons by lia. simpl flat_map.
    replace (Z.pred (Z.of_nat (S len))) with (Z.of_nat len) by lia.
    rewrite in_flight_app, Hf by lia.
    replace (lo + 1) with (Z.succ lo) by lia.
    rewrite IH by (intros i Hi; apply Hf; lia).
    f_equal. f_equal. lia.
Qed.

Lemma count_calls_cons (p : Call -> bool) c l :
  count_calls p (c :: l) = ((if p c then 1 else 0) + count_calls p l)%nat.
Proof. unfold count_calls. simpl. by destruct (p c). Qed.

(** While [in_flight] stays defined, the posts and the waits of every
    initial part of the calls differ by a number within the window. *)
Lemma in_flight_bounds w l d d' p :
  in_flight w l d = Some d' -> 0 <= d <= w -> p `prefix_of` l ->
  0 <= d + Z.of_nat (count_calls is_post p) - Z.of_nat (count_calls is_wait p) <= w.
Proof.
  revert d p. induction l as [|c l IH]; intros d p Hrun Hd Hp.
  - apply prefix_nil_inv in Hp as ->. unfold count_calls. simpl. lia.
  - destruct p as [|c' p]; [unfold count_calls; simpl; lia|].
    pose proof (prefix_cons_inv_1 _ _ _ _ Hp) as ->.
    apply prefix_cons_inv_2 in Hp.
    rewrite !count_calls_cons. simpl in Hrun.
    destruct (is_post c) eqn:Hpost.
    + assert (is_wait c = false) as -> by (by destruct c).
      case_bool_decide; [|done].
      specialize (IH (d + 1) p Hrun ltac:(lia) Hp). lia.
    + destruct (is_wait c) eqn:Hwait.
      * case_bool_decide; [|done].
        specialize (IH (d - 1) p Hrun ltac:(lia) Hp). lia.
      * specialize (IH d p Hrun Hd Hp). lia.
Qed.

Lemma alloc_calls_idle {DataType} num_outputs (node_def : NodeDef DataType) flags :
  Forall idle (alloc_calls num_outputs node_def flags).
Proof. unfold alloc_calls. apply Forall_fmap, Forall_true. intros p. by split. Qed.

Lemma build_calls_idle {DataType} (input_tensors : list (Tensor DataType))
    R H pad n flags :
  Forall idle (build_calls input_tensors R H pad n flags).
Proof.
  unfold build_calls. apply Forall_flat_map_intro. intros b.
  apply Forall_flat_map_intro. intros [idx [input flag]].
  unfold build_input_calls. destruct (_ && _); repeat constructor.
Qed.

Lemma profile_calls_idle {DataType} (node_def : NodeDef DataType)
    (input_tensors : list (Tensor DataType)) (plan : Plan DataType) :
  Forall idle (profile_calls node_def input_tensors plan).
Proof.
  unfold profile_calls. apply Forall_app. split.
  - apply Forall_fmap, Forall_true. intros idx. by split.
  - repeat constructor.
Qed.

Lemma wait_posts_calls_idle q : Forall idle (wait_posts_calls q).
Proof.
  unfold wait_posts_calls. apply Forall_fmap, Forall_true. intros io. by split.
Qed.

Section InFlight.

Context {DataType : Type}.
Variable model : NeuronModel.
Variable node_def : NodeDef DataType.
Variable input_tensors : list (Tensor DataType).
Variable plan : Plan DataType.

Let n := plan_num_batches plan.
Let w := plan_window_size plan.

Hypothesis window_in_range : 1 <= w <= n.

Lemma in_flight_fill_calls b :
  0 <= b < w ->
  in_flight w (fill_calls model input_tensors plan b) b = Some (b + 1).
Proof.
  intros Hb. unfold fill_calls, request_call, setup_call, post_call.
  destruct (infer_sem_ model); case_bool_decide; cbn;
    by rewrite bool_decide_eq_true_2 by lia.
Qed.

Lemma in_flight_steady_calls b :
  in_flight w (steady_calls input_tensors plan b) w = Some w.
Proof.
  unfold steady_calls, request_call, setup_call, post_call.
  case_bool_decide; cbn.
  - rewrite bool_decide_eq_true_2 by lia.
    rewrite bool_decide_eq_true_2 by lia. f_equal. lia.
  - rewrite bool_decide_eq_true_2 by lia.
    rewrite bool_decide_eq_true_2 by lia. f_equal. lia.
Qed.

Lemma in_flight_drain_calls l q d :
  Z.of_nat (length l `min` length q) <= d <= w ->
  in_flight w (drain_calls plan l q) d
  = Some (d - Z.of_nat (length l `min` length q)).
Proof.
  revert q d. induction l as [|i l IH]; intros q d Hd.
  - simpl. f_equal. lia.
  - destruct q as [|io q]; [simpl; f_equal; lia|].
    cbn [drain_calls length Nat.min] in *. cbn [app in_flight is_post is_wait].
    rewrite bool_decide_eq_true_2 by lia.
    rewrite IH by lia. f_equal. lia.
Qed.

Lemma in_flight_pipeline_calls :
  in_flight w (pipeline_calls model node_def input_tensors plan) 0 = Some 0.
Proof.
  unfold pipeline_calls, locked_calls, post_requests_calls. fold n w.
  rewrite in_flight_app. cbn [in_flight is_post is_wait].
  rewrite in_flight_app.
  rewrite (in_flight_idle w _ 0).
  2: { destruct (profile_enabled_ model); [apply profile_calls_idle | constructor]. }
  rewrite in_flight_app, in_flight_app. cbn [in_flight is_post is_wait].
  rewrite in_flight_app, in_flight_app.
  replace w with (Z.of_nat (Z.to_nat w)) at 2 by lia.
  rewrite (in_flight_for_seqZ w (fill_calls model input_tensors plan) (fun i => i)).
  2: { intros i Hi. apply in_flight_fill_calls. lia. }
  replace (0 + Z.of_nat (Z.to_nat w)) with w by lia.
  replace (n - w) with (Z.of_nat (Z.to_nat (n - w))) by lia.
  rewrite (in_flight_for_seqZ w (steady_calls input_tensors plan) (fun _ => w)).
  2: { intros i Hi. apply in_flight_steady_calls. }
  rewrite (in_flight_idle w _ w) by apply wait_posts_calls_idle.
  rewrite in_flight_drain_calls.
  - f_equal. cbn [state_at scoped_io_queue]. fold n w.
    rewrite length_fmap, !length_seqZ. lia.
  - cbn [state_at scoped_io_queue]. fold n w.
    rewrite length_fmap, !length_seqZ. lia.
Qed.

End InFlight.

Lemma in_flight_dynamic_calls {DataType} model num_outputs (node_def : NodeDef DataType)
    (input_tensors : list (Tensor DataType)) bi :
  1 <= plan_window_size (dynamic_plan model num_outputs node_def input_tensors bi)
    <= plan_num_batches (dynamic_plan model num_outputs node_def input_tensors bi) ->
  in_flight (plan_window_size (dynamic_plan model num_outputs node_def input_tensors bi))
    (dynamic_calls model num_outputs node_def input_tensors bi) 0
  = Some 0.
Proof.
  intros Hw. unfold dynamic_calls. rewrite in_flight_app.
  rewrite (in_flight_idle _ (alloc_calls _ _ _)) by apply alloc_calls_idle.
  rewrite in_flight_app.
  rewrite (in_flight_idle _ (build_calls _ _ _ _ _ _)) by apply build_calls_idle.
  by apply in_flight_pipeline_calls.
Qed.

Lemma dynamic_plan_window {DataType} model num_outputs (node_def : NodeDef DataType)
    (input_tensors : list (Tensor DataType)) bi :
  1 <= batch_size bi -> 1 <= k_batch_size bi ->
  plan_fits (batch_size bi) (k_batch_size bi) ->
  1 <= plan_window_size (dynamic_plan model num_outputs node_def input_tensors bi)
    <= plan_num_batches (dynamic_plan model num_outputs node_def input_tensors bi).
Proof.
  intros HR HH Hfit. cbn [dynamic_plan plan_window_size plan_num_batches].
  destruct (plan_arith _ _ HR HH Hfit) as [_ Hnb].
  destruct (ceil_div_bounds _ _ HR HH) as [Hc _].
  apply window_size_bounds. lia.
Qed.

(** X9.  On the dynamic path, whatever the collaborators answer and however
    far the run gets: at every point of the run the requests posted so far
    are at least the requests waited for so far (nothing is waited for that
    has not been posted) and exceed them by at most window_size, the smaller
    of max(max_num_infers_, 1) and the number of sub-batches. *)
Theorem X9_window_bounds_requests_in_flight {DataType} (DataTypeSize : DataType -> Z)
    (model : NeuronModel) (num_outputs : nat) (node_def : NodeDef DataType)
    (input_tensors : list (Tensor DataType)) (bi : BatchInfo) (o : Oracle)
    (p : list Call) :
  let n := num_batches_of (batch_size bi) (k_batch_size bi) in
  let w := window_size_of (max_num_infers_ model) n in
  1 <= batch_size bi -> 1 <= k_batch_size bi ->
  plan_fits (batch_size bi) (k_batch_size bi) ->
  p `prefix_of` trace (dynamic_path DataTypeSize model num_outputs node_def
                         input_tensors bi) o ->
  (count_calls is_wait p <= count_calls is_post p)%nat
  /\ (count_calls is_post p <= count_calls is_wait p + Z.to_nat w)%nat.
Proof.
  intros n w HR HH Hfit Hp.
  pose proof (dynamic_plan_window model num_outputs node_def input_tensors bi
                HR HH Hfit) as Hw.
  pose proof (in_flight_dynamic_calls model num_outputs node_def input_tensors bi Hw)
    as Hrun.
  destruct (dynamic_path_follows DataTypeSize model num_outputs node_def input_tensors
              bi HR HH Hfit o) as [Hpre _].
  assert (Hp' : p `prefix_of` dynamic_calls model num_outputs node_def input_tensors bi).
  { etrans; [exact Hp | exact Hpre]. }
  change (plan_window_size (dynamic_plan model num_outputs node_def input_tensors bi))
    with w in Hw, Hrun.
  pose proof (in_flight_bounds w _ 0 0 p Hrun ltac:(lia) Hp') as Hb.
  lia.
Qed.

(** Ten rows on a model compiled for four, two requests in flight: the
    calls up to the post of the second request. *)
Lemma X9_window_bounds_requests_in_flight_witness :
  (count_calls is_wait
     (take 16 (trace (dynamic_path SampleTypeSize (sample_model 2) 1 sample_node_def
                        (sample_inputs 10) (sample_info 10)) all_ok))
   <= count_calls is_post
        (take 16 (trace (dynamic_path SampleTypeSize (sample_model 2) 1 sample_node_def
                           (sample_inputs 10) (sample_info 10)) all_ok)))%nat
  /\ (count_calls is_post
        (take 16 (trace (dynamic_path SampleTypeSize (sample_model 2) 1 sample_node_def
                           (sample_inputs 10) (sample_info 10)) all_ok))
      <= count_calls is_wait
           (take 16 (trace (dynamic_path SampleTypeSize (sample_model 2) 1
                              sample_node_def (sample_inputs 10) (sample_info 10))
                       all_ok))
         + Z.to_nat (window_size_of (max_num_infers_ (sample_model 2))
                       (num_batches_of (batch_size (sample_info 10))
                          (k_batch_size (sample_info 10)))))%nat.
Proof.
  apply (X9_window_bounds_requests_in_flight SampleTypeSize (sample_model 2) 1
           sample_node_def (sample_inputs 10) (sample_info 10) all_ok).
  - simpl; lia.
  - simpl; lia.
  - vm_compute; discriminate.
  - apply prefix_take.
Defined.


Section DrainOrder.

Context {DataType : Type}.
Variable model : NeuronModel.
Variable node_def : NodeDef DataType.
Variable input_tensors : list (Tensor DataType).
Variable plan : Plan DataType.

Let n := plan_num_batches plan.
Let w := plan_window_size plan.

Hypothesis window_in_range : 0 <= w <= n.

Lemma drained_drain_calls l q :
  omap drained (drain_calls plan l q)
  = zip_with (fun wait_bidx io => (io, bool_decide (w - 1 = wait_bidx))) l q.
Proof.
  revert q. induction l as [|i l IH]; intros q; [done|].
  destruct q as [|io q]; [done|]. cbn [drain_calls zip_with].
  rewrite omap_app, IH. reflexivity.
Qed.

Lemma drained_final_queue :
  zip_with (fun wait_bidx io => (io, bool_decide (w - 1 = wait_bidx)))
    (seqZ 0 w) (io_batch <$> seqZ (n - w) w)
  = (fun b => (io_batch b, bool_decide (b = n - 1))) <$> seqZ (n - w) w.
Proof.
  apply list_eq. intros i. rewrite lookup_zip_with, !list_lookup_fmap.
  destruct (decide (Z.of_nat i < w)) as [Hlt|Hge].
  - rewrite !lookup_seqZ_lt by done. cbn. do 2 f_equal.
    apply bool_decide_ext. lia.
  - rewrite !lookup_seqZ_ge by lia. done.
Qed.

Lemma drained_pipeline_calls :
  omap drained (pipeline_calls model node_def input_tensors plan)
  = (fun b => (io_batch b, bool_decide (b = n - 1))) <$> seqZ (n - w) w.
Proof.
  unfold pipeline_calls, locked_calls, post_requests_calls. fold n w.
  rewrite !omap_app.
  rewrite (omap_flat_map_none drained (fill_calls model input_tensors plan)).
  2: { intros b. unfold fill_calls, setup_call, post_call.
       destruct (infer_sem_ model); case_bool_decide; reflexivity. }
  rewrite (omap_flat_map_none drained (steady_calls input_tensors plan)).
  2: { intros b. unfold steady_calls, setup_call, post_call.
       case_bool_decide; reflexivity. }
  unfold wait_posts_calls. rewrite omap_fmap_none by done.
  rewrite drained_drain_calls.
  pose proof (final_queue plan window_in_range) as Hq. fold n w in Hq.
  rewrite Hq, drained_final_queue.
  destruct (profile_enabled_ model); [|done].
  by rewrite omap_profile_calls.
Qed.

Lemma waited_in_loop_pipeline_calls :
  omap waited_in_loop (pipeline_calls model node_def input_tensors plan)
  = io_batch <$> seqZ 0 (n - w).
Proof.
  unfold pipeline_calls, locked_calls, post_requests_calls. fold n w.
  rewrite !omap_app.
  rewrite (omap_flat_map_none waited_in_loop (fill_calls model input_tensors plan)).
  2: { intros b. unfold fill_calls, setup_call, post_call.
       destruct (infer_sem_ model); case_bool_decide; reflexivity. }
  rewrite (omap_flat_map_one waited_in_loop _ (fun b => io_batch (b - w))).
  2: { intros b. unfold steady_calls, setup_call, post_call. fold w.
       case_bool_decide; reflexivity. }
  unfold wait_posts_calls. rewrite omap_fmap_none by done.
  rewrite omap_drain_none by done.
  rewrite fmap_seqZ_shift, ?app_nil_r.
  destruct (profile_enabled_ model); [|done].
  by rewrite omap_profile_calls.
Qed.

End DrainOrder.

(** X10.  On the dynamic path, with n sub-batches and a window of w, the
    waits of the steady loop (wait_infer) are for an initial part of the
    requests 0 .. n-w-1, in order, and the waits of the drain loop
    (infer_wait) for an initial part of the requests n-w .. n-1, in order;
    the timestamps are handed to the wait for request n-1 and to no other.
    On a run that falls through both lists are whole: every request is
    waited for exactly once, and exactly one wait, the last, takes the
    timestamps. *)
Theorem X10_last_wait_takes_timestamps {DataType} (DataTypeSize : DataType -> Z)
    (model : NeuronModel) (num_outputs : nat) (node_def : NodeDef DataType)
    (input_tensors : list (Tensor DataType)) (bi : BatchInfo) (o : Oracle) :
  let n := num_batches_of (batch_size bi) (k_batch_size bi) in
  let w := window_size_of (max_num_infers_ model) n in
  let t := trace (dynamic_path DataTypeSize model num_outputs node_def input_tensors bi) o in
  1 <= batch_size bi -> 1 <= k_batch_size bi ->
  plan_fits (batch_size bi) (k_batch_size bi) ->
  omap waited_in_loop t `prefix_of` (io_batch <$> seqZ 0 (n - w))
  /\ omap drained t
       `prefix_of` ((fun b => (io_batch b, bool_decide (b = n - 1))) <$> seqZ (n - w) w)
  /\ (is_Ret (outcome (dynamic_path DataTypeSize model num_outputs node_def
                         input_tensors bi) o) ->
      omap waited_in_loop t = io_batch <$> seqZ 0 (n - w)
      /\ omap drained t
         = (fun b => (io_batch b, bool_decide (b = n - 1))) <$> seqZ (n - w) w
      /\ List.filter snd (omap drained t) = [(io_batch (n - 1), true)]).
Proof.
  intros n w t HR HH Hfit.
  destruct (dynamic_plan_in_range model num_outputs node_def input_tensors bi
              HR HH Hfit) as [Hw _].
  pose proof (dynamic_plan_window model num_outputs node_def input_tensors bi
                HR HH Hfit) as Hw1.
  pose proof (waited_in_loop_pipeline_calls model node_def input_tensors
                (dynamic_plan model num_outputs node_def input_tensors bi)) as Hl.
  pose proof (drained_pipeline_calls model node_def input_tensors
                (dynamic_plan model num_outputs node_def input_tensors bi) Hw) as Hd.
  rewrite <- (omap_dynamic_calls waited_in_loop model num_outputs) in Hl by done.
  rewrite <- (omap_dynamic_calls drained model num_outputs) in Hd by done.
  change (plan_num_batches (dynamic_plan model num_outputs node_def input_tensors bi))
    with n in Hl, Hd, Hw1.
  change (plan_window_size (dynamic_plan model num_outputs node_def input_tensors bi))
    with w in Hl, Hd, Hw1.
  destruct (dynamic_path_follows DataTypeSize model num_outputs node_def input_tensors
              bi HR HH Hfit o) as [Hpre Hret].
  fold (trace (dynamic_path DataTypeSize model num_outputs node_def input_tensors bi) o)
    in Hpre, Hret.
  fold t in Hpre, Hret.
  split_and!.
  - rewrite <- Hl. by apply omap_prefix.
  - rewrite <- Hd. by apply omap_prefix.
  - intros [st Hst]. unfold outcome in Hst.
    destruct (Hret st Hst) as [Hcalls _]. rewrite Hcalls.
    split_and!; [done | done |].
    rewrite Hd.
    replace (seqZ (n - w) w) with (seqZ (n - w) ((w - 1) + 1)) by (f_equal; lia).
    rewrite seqZ_app by lia. rewrite fmap_app, List.filter_app.
    replace (n - w + (w - 1)) with (n - 1) by lia.
    rewrite (filter_none snd).
    + rewrite seqZ_cons, seqZ_nil by lia. cbn.
      by rewrite bool_decide_eq_true_2.
    + intros x (b & -> & Hb%elem_of_seqZ)%list_elem_of_fmap. cbn.
      apply bool_decide_eq_false_2. lia.
Qed.

(** Ten rows on a model compiled for four, two requests in flight, no
    collaborator refusing a call. *)
Lemma X10_last_wait_takes_timestamps_witness :
  omap drained
    (trace (dynamic_path SampleTypeSize (sample_model 2) 1 sample_node_def
              (sample_inputs 10) (sample_info 10)) all_ok)
  = [(io_batch 1, false); (io_batch 2, true)].
Proof.
  refine (proj1 (proj2 (proj2 (proj2
    (X10_last_wait_takes_timestamps SampleTypeSize (sample_model 2) 1 sample_node_def
       (sample_inputs 10) (sample_info 10) all_ok _ _ _)) _))).
  - simpl; lia.
  - simpl; lia.
  - vm_compute; discriminate.
  - eexists. vm_compute. reflexivity.
Defined.


(** ** What the batch analysis accepts *)

Lemma ofor_each_steps {I St} (sigma : nat -> St) (l : list I)
    (body : I -> St -> Outcome St) :
  (forall k i, l !! k = Some i -> body i (sigma k) = Ret (sigma (S k))) ->
  ofor_each l body (sigma 0%nat) = Ret (sigma (length l)).
Proof.
  revert sigma. induction l as [|i l IH]; intros sigma Hbody; simpl; [done|].
  rewrite (Hbody 0%nat i eq_refl). cbn [obind].
  apply (IH (fun k => sigma (S k))). intros k j Hk. apply (Hbody (S k)). exact Hk.
Qed.

Lemma insert_take_replicate (F : list bool) (m k : nat) (f : bool) :
  (k < m)%nat -> F !! k = Some f ->
  <[k := f]> (take k F ++ replicate (m - k) false)
  = take (S k) F ++ replicate (m - S k) false.
Proof.
  intros Hk Hf. pose proof (lookup_lt_Some _ _ _ Hf) as Hlen.
  rewrite insert_app_r_alt by (rewrite length_take; lia).
  rewrite length_take_le, Nat.sub_diag by lia.
  replace (m - k)%nat with (S (m - S k)) by lia. cbn [replicate].
  rewrite (take_S_r _ _ _ Hf), <- app_assoc. done.
Qed.

Lemma expected_flags_lookup R H axes k :
  (k < length axes)%nat ->
  expected_flags R H axes !! k
  = Some (bool_decide (0 = axes !!! k) && bool_decide (R <> H)).
Proof.
  intros Hk. unfold expected_flags. rewrite list_lookup_fmap.
  by rewrite (list_lookup_lookup_total_lt axes k Hk).
Qed.

Section AnalysisAccepts.

Context {DataType : Type}.
Variable num_outputs : nat.
Variable node_def : NodeDef DataType.
Variable input_tensors : list (Tensor DataType).
Variables R H : Z.
Variable j0 : nat.
Variable krest : list Z.

Let m := length input_tensors.

Hypothesis axes_aligned : length (input_batch_axis node_def) = m.
Hypothesis shapes_aligned : length (input_shapes node_def) = m.
Hypothesis first_batched : first_batch_input node_def m j0.
Hypothesis first_declared : input_shapes node_def !! j0 = Some (H :: krest).
Hypothesis batch_positive : R > 0.
Hypothesis inputs_ok :
  forall idx t, input_tensors !! idx = Some t ->
    input_shape_ok R (input_batch_axis node_def !!! idx)
      (input_shapes node_def !!! idx) t.

Lemma analyse_input_expected k t :
  input_tensors !! k = Some t ->
  analyse_input node_def k t (inputs_state num_outputs node_def R H m j0 k)
  = Ret (inputs_state num_outputs node_def R H m j0 (S k)).
Proof.
  intros Ht. pose proof (lookup_lt_Some _ _ _ Ht) as Hk. fold m in Hk.
  destruct first_batched as (Hj0 & Hax0 & Hfirst).
  pose proof (inputs_ok k t Ht) as Hok. unfold input_shape_ok in Hok.
  pose proof (expected_flags_lookup R H (input_batch_axis node_def) k ltac:(lia))
    as Hflag.
  unfold analyse_input, inputs_state.
  cbn [batch_size k_batch_size is_batch_input_tensors is_batch_output_tensors
       use_dynamic_batch_size].
  unfold TensorShape in *.
  destruct (decide (0 = input_batch_axis node_def !!! k)) as [Haxis|Haxis].
  - rewrite bool_decide_eq_true_2 in Hok, Hflag |- * by done.
    destruct Hok as [Hne Hshape]. rewrite Hshape. cbn [length hd tl].
    rewrite (bool_decide_eq_true_2 (0 < S _)%nat) by lia. cbn [TFNN_ASSERT obind].
    destruct (decide (k = j0)) as [->|Hkj].
    + rewrite (bool_decide_eq_false_2 (j0 < j0)%nat) by lia.
      rewrite (bool_decide_eq_true_2 (j0 < S j0)%nat) by lia.
      rewrite (bool_decide_eq_true_2 (UNINIT_BATCH_SIZE = UNINIT_BATCH_SIZE)) by done.
      rewrite (list_lookup_total_correct _ _ _ first_declared).
      rewrite (bool_decide_eq_true_2 (R > 0)) by done. cbn [TFNN_ASSERT obind tl].
      rewrite bool_decide_eq_true_2 by done. cbn [TFNN_ASSERT obind andb].
      cbn [andb] in Hflag.
      by rewrite (insert_take_replicate _ _ _ _ Hk Hflag).
    + assert (Hlt : (j0 < k)%nat).
      { destruct (decide (k < j0)%nat) as [Hlt|Hge]; [|lia].
        by destruct (Hfirst k Hlt). }
      rewrite (bool_decide_eq_true_2 (j0 < k)%nat) by done.
      rewrite (bool_decide_eq_true_2 (j0 < S k)%nat) by lia.
      rewrite (bool_decide_eq_false_2 (UNINIT_BATCH_SIZE = R))
        by (unfold UNINIT_BATCH_SIZE; lia).
      rewrite (bool_decide_eq_true_2 (R = R)) by done. cbn [TFNN_ASSERT obind].
      destruct (input_shapes node_def !!! k) as [|kd k']; [done|]. cbn [tl].
      rewrite bool_decide_eq_true_2 by done. cbn [TFNN_ASSERT obind andb].
      cbn [andb] in Hflag.
      by rewrite (insert_take_replicate _ _ _ _ Hk Hflag).
  - rewrite bool_decide_eq_false_2 in Hok, Hflag |- * by done.
    rewrite Hok. rewrite bool_decide_eq_true_2 by done. cbn [TFNN_ASSERT obind].
    assert (Hkj : k <> j0) by (intros ->; done).
    rewrite (bool_decide_ext (j0 < S k)%nat (j0 < k)%nat) by lia.
    cbn [andb] in Hflag.
      by rewrite (insert_take_replicate _ _ _ _ Hk Hflag).
Qed.

Lemma input_loop_expected :
  ofor_each (zip (seq 0 m) input_tensors)
    (fun p => analyse_input node_def p.1 p.2)
    (init_batch_info m num_outputs)
  = Ret (inputs_state num_outputs node_def R H m j0 m).
Proof.
  pose proof (ofor_each_steps (inputs_state num_outputs node_def R H m j0)
                (zip (seq 0 m) input_tensors)
                (fun p => analyse_input node_def p.1 p.2)) as Hsteps.
  rewrite length_zip, length_seq in Hsteps. fold m in Hsteps.
  rewrite Nat.min_id in Hsteps.
  replace (inputs_state num_outputs node_def R H m j0 0)
    with (init_batch_info m num_outputs) in Hsteps.
  - apply Hsteps. intros k [i t] Hk.
    apply lookup_zip_Some in Hk as [Hi Ht]. apply lookup_seq in Hi as [-> _].
    cbn [fst snd Nat.add]. by apply analyse_input_expected.
  - unfold inputs_state, init_batch_info.
    rewrite (bool_decide_eq_false_2 (j0 < 0)%nat) by lia.
    by rewrite Nat.sub_0_r.
Qed.

Hypothesis out_axes_aligned :
  length (output_batch_axis node_def) = length (output_names node_def).
Hypothesis out_shapes_aligned :
  length (output_shapes node_def) = length (output_names node_def).
Hypothesis outputs_fit : (length (output_names node_def) <= num_outputs)%nat.
Hypothesis outputs_ok :
  forall idx, (idx < length (output_names node_def))%nat ->
    output_shape_ok H (output_batch_axis node_def !!! idx)
      (output_shapes node_def !!! idx).

Lemma analyse_output_expected k :
  (k < length (output_names node_def))%nat ->
  analyse_output node_def k (outputs_state num_outputs node_def R H k)
  = Ret (outputs_state num_outputs node_def R H (S k)).
Proof.
  intros Hk. pose proof (outputs_ok k Hk) as Hok. unfold output_shape_ok in Hok.
  assert (Hkn : (k < num_outputs)%nat) by lia.
  pose proof (expected_flags_lookup R H (output_batch_axis node_def) k ltac:(lia))
    as Hflag.
  unfold analyse_output, outputs_state.
  cbn [batch_size k_batch_size is_batch_input_tensors is_batch_output_tensors
       use_dynamic_batch_size].
  unfold TensorShape in *.
  rewrite (bool_decide_eq_true_2 (k < length _)%nat).
  2: { rewrite length_app, length_take, length_replicate.
       unfold expected_flags. rewrite length_fmap. lia. }
  destruct (decide (0 = output_batch_axis node_def !!! k)) as [Haxis|Haxis].
  - rewrite bool_decide_eq_true_2 in Hflag |- * by done.
    rewrite (Hok Haxis). cbn [length hd].
    rewrite (bool_decide_eq_true_2 (0 < S _)%nat) by lia. cbn [TFNN_ASSERT obind].
    rewrite (bool_decide_eq_true_2 (H = H)) by done. cbn [TFNN_ASSERT obind].
    cbn [andb] in Hflag.
      by rewrite (insert_take_replicate _ num_outputs _ _ Hkn Hflag).
  - rewrite bool_decide_eq_false_2 in Hflag |- * by done. cbn [obind].
    cbn [andb] in Hflag.
      by rewrite (insert_take_replicate _ num_outputs _ _ Hkn Hflag).
Qed.

Lemma batch_analysis_expected :
  analysis_enabled node_def = true ->
  batch_analysis num_outputs node_def input_tensors
  = Ret (expected_info num_outputs node_def R H).
Proof.
  intros Hen. unfold batch_analysis. unfold analysis_enabled in Hen. rewrite Hen.
  fold m. rewrite input_loop_expected. cbn [obind].
  destruct first_batched as (Hj0 & _ & _).
  replace (inputs_state num_outputs node_def R H m j0 m)
    with (outputs_state num_outputs node_def R H 0).
  2: { unfold inputs_state, outputs_state.
       rewrite (bool_decide_eq_true_2 (j0 < m)%nat) by done.
       rewrite (take_ge (expected_flags R H (input_batch_axis node_def)) m)
         by (unfold expected_flags; rewrite length_fmap; lia).
       by rewrite Nat.sub_diag, Nat.sub_0_r, app_nil_r. }
  pose proof (ofor_each_steps (outputs_state num_outputs node_def R H)
                (seq 0 (length (output_names node_def)))
                (analyse_output node_def)) as Hsteps.
  rewrite length_seq in Hsteps. rewrite Hsteps.
  - f_equal. unfold outputs_state, expected_info.
    by rewrite take_ge by (unfold expected_flags; rewrite length_fmap; lia).
  - intros k i Hk. apply lookup_seq in Hk as [-> Hk]. cbn [Nat.add].
    by apply analyse_output_expected.
Qed.

End AnalysisAccepts.


(** X11.  The batch analysis accepts every request that conforms: when the
    checks of lines 167-171 have passed and the analysis runs, some input has
    batch axis 0, the first such input is declared with leading dimension H,
    every input with batch axis 0 has the declared shape with the leading
    dimension replaced by one positive R, every other input has exactly its
    declared shape, the node declares no more outputs than the kernel has,
    and every output with batch axis 0 is declared with leading dimension H,
    then the analysis returns, with batch size R, hardware batch size H, a
    flag raised exactly for the inputs and the outputs with batch axis 0
    when R differs from H, and use_dynamic_batch_size true when R differs
    from H. *)
Theorem X11_batch_analysis_accepts {DataType} (DataTypeSize : DataType -> Z)
    (num_outputs : nat) (node_def : NodeDef DataType)
    (input_tensors : list (Tensor DataType)) (sizes : list Z * list Z)
    (R H : Z) (j0 : nat) (krest : list Z) :
  check_arguments DataTypeSize node_def input_tensors = Ret sizes ->
  analysis_enabled node_def = true ->
  first_batch_input node_def (length input_tensors) j0 ->
  input_shapes node_def !! j0 = Some (H :: krest) ->
  R > 0 ->
  (forall idx t axis k_shape,
     input_tensors !! idx = Some t ->
     input_batch_axis node_def !! idx = Some axis ->
     input_shapes node_def !! idx = Some k_shape ->
     input_shape_ok R axis k_shape t) ->
  (length (output_names node_def) <= num_outputs)%nat ->
  (forall idx axis k_shape,
     output_batch_axis node_def !! idx = Some axis ->
     output_shapes node_def !! idx = Some k_shape ->
     output_shape_ok H axis k_shape) ->
  batch_analysis num_outputs node_def input_tensors
  = Ret (expected_info num_outputs node_def R H)
  /\ (use_dynamic_batch_size (expected_info num_outputs node_def R H) = true
      <-> R <> H).
Proof.
  intros [Hcount Hmeta]%check_arguments_Ret Hen Hfirst Hdecl HR Hin Hfit Hout.
  destruct (analysis_enabled_lengths node_def Hen) as [Hax Hoax].
  unfold metadata_mismatch in Hmeta.
  split; [|cbn; apply bool_decide_eq_true].
  apply (batch_analysis_expected num_outputs node_def input_tensors R H j0 krest);
    try done; try lia.
  - intros idx t Ht. pose proof (lookup_lt_Some _ _ _ Ht) as Hidx.
    apply (Hin idx t); [done| |]; apply list_lookup_lookup_total_lt; lia.
  - intros idx Hidx.
    apply (Hout idx); apply list_lookup_lookup_total_lt; lia.
Qed.

(** Ten rows of the batched input and the fixed one, on a model compiled for
    four rows. *)
Lemma X11_batch_analysis_accepts_witness :
  batch_analysis 2 wide_node_def (wide_inputs 10)
  = Ret (expected_info 2 wide_node_def 10 4)
  /\ (use_dynamic_batch_size (expected_info 2 wide_node_def 10 4) = true
      <-> 10 <> 4).
Proof.
  apply (X11_batch_analysis_accepts SampleTypeSize 2 wide_node_def (wide_inputs 10)
           ([48; 10], [32; 14]) 10 4 0%nat [3]).
  - vm_compute. reflexivity.
  - vm_compute. reflexivity.
  - split_and!; [cbn; lia | reflexivity | intros j Hj; lia].
  - reflexivity.
  - lia.
  - intros [|[|idx]] t axis k_shape Ht Hax Hks; cbn in Ht, Hax, Hks;
      [| |discriminate].
    + injection Ht as <-. injection Hax as <-. injection Hks as <-.
      unfold input_shape_ok. cbn. done.
    + injection Ht as <-. injection Hax as <-. injection Hks as <-.
      unfold input_shape_ok. cbn. done.
  - cbn. lia.
  - intros [|[|idx]] axis k_shape Hax Hks; cbn in Hax, Hks; [| |discriminate].
    + injection Hax as <-. injection Hks as <-. intros _. reflexivity.
    + injection Hax as <-. injection Hks as <-. intros Hz. discriminate.
Defined.


(** ** Queued posts are confirmed under the lock *)

Lemma omap_flat_map {X Y} (f : Call -> option Y) (g : X -> list Call) (l : list X) :
  omap f (flat_map g l) = flat_map (fun x => omap f (g x)) l.
Proof.
  induction l as [|x l IH]; [done|]. simpl. by rewrite omap_app, IH.
Qed.

Lemma flat_map_nil {X Y} (h : X -> list Y) (l : list X) :
  (forall x, x ∈ l -> h x = []) -> flat_map h l = [].
Proof.
  induction l as [|x l IH]; intros Hh; [done|]. simpl.
  rewrite Hh by left. apply IH. intros y Hy. apply Hh. by right.
Qed.

Lemma flat_map_ext_in {X Y} (h h' : X -> list Y) (l : list X) :
  (forall x, x ∈ l -> h x = h' x) -> flat_map h l = flat_map h' l.
Proof.
  induction l as [|x l IH]; intros Hh; [done|]. simpl.
  rewrite Hh by left. f_equal. apply IH. intros y Hy. apply Hh. by right.
Qed.

Section QueuedPosts.

Context {DataType : Type}.
Variable model : NeuronModel.
Variable node_def : NodeDef DataType.
Variable input_tensors : list (Tensor DataType).
Variable plan : Plan DataType.

Let n := plan_num_batches plan.
Let w := plan_window_size plan.

Hypothesis window_in_range : 0 <= w <= n.
Hypothesis num_batches_fits : n <= int64_max.

Lemma posted_queued_post_requests :
  omap posted_queued (post_requests_calls model input_tensors plan)
  = io_batch <$> seqZ (n - w) w.
Proof.
  pose proof (first_need_wait_eq plan window_in_range num_batches_fits) as Hfirst.
  fold n w in Hfirst.
  unfold post_requests_calls. fold n w. rewrite omap_app, !omap_flat_map.
  rewrite (flat_map_ext_in _
             (fun b => if bool_decide (b >= n - w) then [io_batch b] else [])
             (seqZ 0 w)).
  2: { intros b _. unfold fill_calls, setup_call, post_call. rewrite Hfirst.
       destruct (infer_sem_ model); case_bool_decide; reflexivity. }
  rewrite (flat_map_ext_in _
             (fun b => if bool_decide (b >= n - w) then [io_batch b] else [])
             (seqZ w (n - w))).
  2: { intros b _. unfold steady_calls, setup_call, post_call. rewrite Hfirst.
       case_bool_decide; reflexivity. }
  pose proof (seqZ_split_fill plan window_in_range) as Hsf. fold n w in Hsf.
  pose proof (seqZ_split plan window_in_range) as Hs. fold n w in Hs.
  rewrite <- flat_map_app, <- Hsf, Hs, flat_map_app.
  rewrite flat_map_nil.
  2: { intros b Hb%elem_of_seqZ. by rewrite bool_decide_eq_false_2 by lia. }
  rewrite (flat_map_ext_in _ (fun b => [io_batch b])).
  2: { intros b Hb%elem_of_seqZ. by rewrite bool_decide_eq_true_2 by lia. }
  by rewrite flat_map_singleton.
Qed.

Lemma confirmed_post_requests :
  omap confirmed (post_requests_calls model input_tensors plan) = [].
Proof.
  unfold post_requests_calls. rewrite omap_app.
  rewrite (omap_flat_map_none confirmed (fill_calls model input_tensors plan)).
  2: { intros b. unfold fill_calls, setup_call, post_call.
       destruct (infer_sem_ model); case_bool_decide; reflexivity. }
  rewrite (omap_flat_map_none confirmed (steady_calls input_tensors plan)).
  2: { intros b. unfold steady_calls, setup_call, post_call.
       case_bool_decide; reflexivity. }
  done.
Qed.

Lemma confirmed_wait_posts :
  omap confirmed (wait_posts_calls (need_wait_infer_post (state_at plan n)))
  = io_batch <$> seqZ (n - w) w.
Proof.
  pose proof (need_wait_at_end plan window_in_range num_batches_fits) as Hq.
  fold n w in Hq. rewrite Hq. unfold wait_posts_calls.
  generalize (io_batch <$> seqZ (n - w) w). intros q.
  induction q as [|io q IH]; [done|]. cbn. by rewrite IH.
Qed.

End QueuedPosts.

Lemma dynamic_calls_split {DataType} model num_outputs (node_def : NodeDef DataType)
    (input_tensors : list (Tensor DataType)) bi :
  dynamic_calls model num_outputs node_def input_tensors bi
  = posting_calls model num_outputs node_def input_tensors bi
    ++ wait_posts_calls
         (need_wait_infer_post
            (state_at (dynamic_plan model num_outputs node_def input_tensors bi)
               (plan_num_batches
                  (dynamic_plan model num_outputs node_def input_tensors bi))))
    ++ drain_calls (dynamic_plan model num_outputs node_def input_tensors bi)
         (seqZ 0 (plan_window_size
                    (dynamic_plan model num_outputs node_def input_tensors bi)))
         (scoped_io_queue
            (state_at (dynamic_plan model num_outputs node_def input_tensors bi)
               (plan_num_batches
                  (dynamic_plan model num_outputs node_def input_tensors bi)))).
Proof.
  unfold dynamic_calls, posting_calls, pipeline_calls, locked_calls.
  rewrite <- !app_assoc. reflexivity.
Qed.

(** X12.  On the dynamic path, with n sub-batches and a window of w: the
    requests posted with post_infer_post are an initial part of the last w
    requests n-w .. n-1, in order, and at every point of every run the
    requests confirmed by wait_infer_post are an initial part of the
    requests posted with post_infer_post so far, in the same order; no
    confirmation is asked before all of them have been posted.  On a run
    that falls through both lists are exactly the last w requests. *)
Theorem X12_queued_posts_confirmed {DataType} (DataTypeSize : DataType -> Z)
    (model : NeuronModel) (num_outputs : nat) (node_def : NodeDef DataType)
    (input_tensors : list (Tensor DataType)) (bi : BatchInfo) (o : Oracle)
    (p : list Call) :
  let n := num_batches_of (batch_size bi) (k_batch_size bi) in
  let w := window_size_of (max_num_infers_ model) n in
  let t := trace (dynamic_path DataTypeSize model num_outputs node_def input_tensors bi) o in
  1 <= batch_size bi -> 1 <= k_batch_size bi ->
  plan_fits (batch_size bi) (k_batch_size bi) ->
  p `prefix_of` t ->
  omap confirmed p `prefix_of` omap posted_queued p
  /\ omap posted_queued p `prefix_of` (io_batch <$> seqZ (n - w) w)
  /\ (omap confirmed p <> [] -> omap posted_queued p = io_batch <$> seqZ (n - w) w)
  /\ (is_Ret (outcome (dynamic_path DataTypeSize model num_outputs node_def
                         input_tensors bi) o) ->
      omap posted_queued t = io_batch <$> seqZ (n - w) w
      /\ omap confirmed t = io_batch <$> seqZ (n - w) w).
Proof.
  intros n w t HR HH Hfit Hp.
  destruct (dynamic_plan_in_range model num_outputs node_def input_tensors bi
              HR HH Hfit) as [Hw Hn].
  pose proof (posted_queued_post_requests model input_tensors
                (dynamic_plan model num_outputs node_def input_tensors bi) Hw Hn) as Hposted.
  pose proof (confirmed_post_requests model input_tensors
                (dynamic_plan model num_outputs node_def input_tensors bi)) as Hnone.
  pose proof (confirmed_wait_posts
                (dynamic_plan model num_outputs node_def input_tensors bi) Hw Hn) as Hconf.
  pose proof (dynamic_calls_split model num_outputs node_def input_tensors bi) as Hsplit.
  set (A := posting_calls model num_outputs node_def input_tensors bi) in *.
  set (W := wait_posts_calls _) in *.
  set (D := drain_calls _ _ _) in *.
  change (plan_num_batches (dynamic_plan model num_outputs node_def input_tensors bi))
    with n in Hposted, Hconf.
  change (plan_window_size (dynamic_plan model num_outputs node_def input_tensors bi))
    with w in Hposted, Hconf.
  assert (HA : omap posted_queued A = io_batch <$> seqZ (n - w) w
               /\ omap confirmed A = []).
  { unfold A, posting_calls. rewrite !omap_app.
    rewrite !omap_alloc_calls by done. rewrite !omap_build_calls by done.
    rewrite Hposted, Hnone.
    destruct (profile_enabled_ model).
    - rewrite !omap_profile_calls by done. cbn. by rewrite ?app_nil_r.
    - cbn. by rewrite ?app_nil_r. }
  destruct HA as [HAp HAc].
  assert (HWD : omap posted_queued (W ++ D) = []
                /\ omap confirmed (W ++ D) = io_batch <$> seqZ (n - w) w).
  { rewrite !omap_app. unfold D. rewrite !omap_drain_none by done.
    rewrite Hconf. unfold W, wait_posts_calls. rewrite omap_fmap_none by done.
    by rewrite !app_nil_r. }
  destruct HWD as [HWp HWc].
  destruct (dynamic_path_follows DataTypeSize model num_outputs node_def input_tensors
              bi HR HH Hfit o) as [Hpre Hret].
  fold (trace (dynamic_path DataTypeSize model num_outputs node_def input_tensors bi) o)
    in Hpre, Hret.
  fold t in Hpre, Hret. rewrite Hsplit in Hpre, Hret.
  assert (Hp' : p `prefix_of` A ++ W ++ D) by (etrans; [exact Hp | exact Hpre]).
  assert (Hcases : (omap confirmed p = []
                    /\ omap posted_queued p `prefix_of` (io_batch <$> seqZ (n - w) w))
                   \/ (omap posted_queued p = io_batch <$> seqZ (n - w) w
                       /\ omap confirmed p `prefix_of` (io_batch <$> seqZ (n - w) w))).
  { apply prefix_app_cases in Hp' as [Hin|(p' & -> & Hp'')].
    - left. split.
      + apply (omap_prefix confirmed) in Hin. rewrite HAc in Hin.
        by apply prefix_nil_inv in Hin.
      + rewrite <- HAp. by apply omap_prefix.
    - right. rewrite !omap_app, HAp, HAc. split.
      + apply (omap_prefix posted_queued) in Hp''. rewrite HWp in Hp''.
        apply prefix_nil_inv in Hp''. by rewrite Hp'', app_nil_r.
      + rewrite <- HWc. by apply omap_prefix. }
  split_and!.
  - destruct Hcases as [[-> _]|[-> Hc]]; [apply prefix_nil | exact Hc].
  - destruct Hcases as [[_ Hq]|[-> _]]; [exact Hq | done].
  - intros Hne. destruct Hcases as [[Hnil _]|[Hq _]]; [by destruct Hne | exact Hq].
  - intros [st Hst]. unfold outcome in Hst.
    destruct (Hret st Hst) as [Hcalls _]. rewrite Hcalls, !omap_app.
    rewrite HAp, HAc. rewrite omap_app in HWp, HWc.
    rewrite HWc.
    apply app_eq_nil in HWp as [-> ->]. by rewrite app_nil_r.
Qed.

(** Ten rows on a model compiled for four, two requests in flight, no
    collaborator refusing a call: the whole run. *)
Lemma X12_queued_posts_confirmed_witness :
  omap confirmed
    (trace (dynamic_path SampleTypeSize (sample_model 2) 1 sample_node_def
              (sample_inputs 10) (sample_info 10)) all_ok)
  = [io_batch 1; io_batch 2].
Proof.
  refine (proj2 (proj2 (proj2 (proj2
    (X12_queued_posts_confirmed SampleTypeSize (sample_model 2) 1 sample_node_def
       (sample_inputs 10) (sample_info 10) all_ok
       (trace (dynamic_path SampleTypeSize (sample_model 2) 1 sample_node_def
                 (sample_inputs 10) (sample_info 10)) all_ok) _ _ _ _))) _)).
  - simpl; lia.
  - simpl; lia.
  - vm_compute; discriminate.
  - done.
  - eexists. vm_compute. reflexivity.
Defined.


(** ** Initialization *)

Lemma initialize_ready {DataType} (DataTypeSize : DataType -> Z) scale a executable
    (node_def : NodeDef DataType) m :
  Init.neuron_device_ m = true ->
  Init.initialize DataTypeSize scale a executable node_def m = ([], Ret tt, m).
Proof. intros Hd. unfold Init.initialize. by rewrite Hd. Qed.

(** What a call that returns OK has done. *)
Lemma initialize_Ret {DataType} (DataTypeSize : DataType -> Z)
    (scale : Z -> Z -> Z) (a : Init.Answers) (executable : string)
    (node_def : NodeDef DataType) (m m' : Init.Members) (calls : list Init.Call) :
  Init.initialize DataTypeSize scale a executable node_def m = (calls, Ret tt, m') ->
  Init.neuron_device_ m' = true
  /\ (Init.neuron_device_ m = true -> calls = [] /\ m' = m)
  /\ (Init.neuron_device_ m = false ->
      executable <> ""%string
      /\ ok (Init.apply_for_device_status a) = true
      /\ ok (Init.load_status a) = true
      /\ ~ metadata_mismatch node_def
      /\ (exists pre mid post,
            calls = pre ++ Init.apply_for_device :: mid ++ Init.load :: post)
      /\ Init.max_num_infers_ m'
         = scale (Init.config_max_num_infers a) (Init.semaphore_factor a)
      /\ Init.infer_sem_ m'
         = match Init.infer_sem_ m with
           | Some c => Some c
           | None =>
               if bool_decide ("yes"%string = Init.unlimited_threads a)
               then None else Some (Init.max_num_infers_ m')
           end
      /\ Init.profile_enabled_ m' = Init.profile_enabled a).
Proof.
  unfold Init.initialize.
  destruct (Init.neuron_device_ m) eqn:Hd.
  { intros [= <- <-]. split_and!; [done | done | done]. }
  case_bool_decide as Hexe; [done|].
  destruct (ok (Init.apply_for_device_status a)) eqn:Hafd; cbn [negb]; [|done].
  cbn [Init.neuron_device_ Init.set_neuron_device Init.set_profile_enabled
       Init.profile_enabled_ Init.infer_sem_ Init.max_num_infers_].
  destruct (Init.device_assigned a) eqn:Hassigned; cbn [negb]; [|done].
  destruct (ok (Init.load_status a)) eqn:Hload; cbn [negb]; [|done].
  destruct (get_io_tensor_sizes DataTypeSize false false node_def) as [sizes| |] eqn:Hsizes;
    [|done|done].
  cbn [Init.neuron_device_ Init.set_neuron_device Init.set_profile_enabled
       Init.set_max_num_infers Init.set_infer_sem
       Init.profile_enabled_ Init.infer_sem_ Init.max_num_infers_].
  assert (Hexe' : executable <> ""%string).
  { intros ->. by destruct Hexe. }
  assert (Hmeta : ~ metadata_mismatch node_def)
    by (by eapply get_io_tensor_sizes_Ret).
  destruct (Init.infer_sem_ m) as [c|] eqn:Hsem.
  - rewrite (bool_decide_eq_true_2 (is_Some (Some c))) by eauto. cbn [negb andb].
    intros [= <- <-]. cbn. split_and!; try done.
    intros _. split_and!; try done.
    eexists (Init.profile_initialize
               :: (if Init.profile_enabled a then [Init.profile_dump_info] else [])
               ++ [Init.parse_opt_device_size; Init.parse_device_index]),
            [Init.parse_timeout; Init.parse_ninfer], [].
    cbn. rewrite <- !app_assoc. reflexivity.
  - rewrite (bool_decide_eq_false_2 (is_Some None)) by (by intros [? ?]).
    cbn [negb andb].
    case_bool_decide as Hyes; cbn [negb].
    + intros [= <- <-]. cbn. split_and!; try done.
      intros _. split_and!; try done.
      eexists (Init.profile_initialize
                 :: (if Init.profile_enabled a then [Init.profile_dump_info] else [])
                 ++ [Init.parse_opt_device_size; Init.parse_device_index]),
              [Init.parse_timeout; Init.parse_ninfer], [].
      cbn. rewrite <- !app_assoc. reflexivity.
    + intros [= <- <-]. cbn. split_and!; try done.
      intros _. split_and!; try done.
      eexists (Init.profile_initialize
                 :: (if Init.profile_enabled a then [Init.profile_dump_info] else [])
                 ++ [Init.parse_opt_device_size; Init.parse_device_index]),
              [Init.parse_timeout; Init.parse_ninfer], [_].
      cbn. rewrite <- !app_assoc. reflexivity.
Qed.

(** X13.  Lazy, one-time initialization.  On a model whose device is set
    initialize makes no call, changes no member and returns OK.  On a model
    whose device is not set, a call that returns OK has obtained the device
    and loaded a non-empty executable (apply_for_device before load, both
    answered OK), has found the metadata lists consistent, has set
    max_num_infers_ to the configured value scaled by the device's semaphore
    factor, and has left a semaphore of that capacity unless one was there
    already or NEURON_UNLIMITED_THREADS is yes; the device is set afterwards,
    so that every later call is of the first kind. *)
Theorem X13_initialize_once {DataType} (DataTypeSize : DataType -> Z)
    (scale : Z -> Z -> Z) (a : Init.Answers) (executable : string)
    (node_def : NodeDef DataType) (m m' : Init.Members) (calls : list Init.Call) :
  Init.initialize DataTypeSize scale a executable node_def m = (calls, Ret tt, m') ->
  (Init.neuron_device_ m = true -> calls = [] /\ m' = m)
  /\ (Init.neuron_device_ m = false ->
      executable <> ""%string
      /\ ok (Init.apply_for_device_status a) = true
      /\ ok (Init.load_status a) = true
      /\ ~ metadata_mismatch node_def
      /\ (exists pre mid post,
            calls = pre ++ Init.apply_for_device :: mid ++ Init.load :: post)
      /\ Init.max_num_infers_ m'
         = scale (Init.config_max_num_infers a) (Init.semaphore_factor a)
      /\ Init.infer_sem_ m'
         = match Init.infer_sem_ m with
           | Some c => Some c
           | None =>
               if bool_decide ("yes"%string = Init.unlimited_threads a)
               then None else Some (Init.max_num_infers_ m')
           end)
  /\ Init.neuron_device_ m' = true
  /\ (forall a' executable' (node_def' : NodeDef DataType),
        Init.initialize DataTypeSize scale a' executable' node_def' m'
        = ([], Ret tt, m')).
Proof.
  intros Hrun.
  destruct (initialize_Ret DataTypeSize scale a executable node_def m m' calls Hrun)
    as (Hd' & Hready & Hfresh).
  split_and!; [exact Hready | | exact Hd' |].
  - intros Hd. destruct (Hfresh Hd) as (? & ? & ? & ? & ? & ? & ? & _).
    split_and!; done.
  - intros a' executable' node_def'. by apply initialize_ready.
Qed.

(** A fresh model, four requests at a time on a device with a semaphore
    factor of two, the member an unbounded integer. *)
Lemma X13_initialize_once_witness :
  Init.max_num_infers_
    (Init.initialize SampleTypeSize Z.mul fine_answers "neff" sample_node_def
       fresh_members).2
  = 8
  /\ Init.infer_sem_
       (Init.initialize SampleTypeSize Z.mul fine_answers "neff" sample_node_def
          fresh_members).2
     = Some 8.
Proof.
  destruct (X13_initialize_once SampleTypeSize Z.mul fine_answers "neff" sample_node_def
              fresh_members
              (Init.initialize SampleTypeSize Z.mul fine_answers "neff" sample_node_def
                 fresh_members).2
              (Init.initialize SampleTypeSize Z.mul fine_answers "neff" sample_node_def
                 fresh_members).1.1
              eq_refl) as (_ & Hfresh & _).
  destruct (Hfresh eq_refl) as (_ & _ & _ & _ & _ & Hmax & Hsem).
  split; [exact Hmax|]. rewrite Hsem. reflexivity.
Defined.

(** X14.  A failure after the device was obtained is not retried.  On a
    model whose device is not set, when apply_for_device answers OK and
    initialize then returns an error (the load refused, or the metadata
    lists inconsistent), the device stays set while max_num_infers_ and the
    semaphore stay as constructed; every later call of initialize therefore
    makes no call at all (no load, no metadata check) and returns OK. *)
Theorem X14_failed_load_not_retried {DataType} (DataTypeSize : DataType -> Z)
    (scale : Z -> Z -> Z) (a : Init.Answers) (executable : string)
    (node_def : NodeDef DataType) (m m' : Init.Members) (calls : list Init.Call)
    (s : Status) :
  Init.neuron_device_ m = false ->
  ok (Init.apply_for_device_status a) = true ->
  Init.initialize DataTypeSize scale a executable node_def m = (calls, Fail s, m') ->
  executable <> ""%string ->
  Init.neuron_device_ m' = true
  /\ Init.max_num_infers_ m' = Init.max_num_infers_ m
  /\ Init.infer_sem_ m' = Init.infer_sem_ m
  /\ (s = Init.load_status a \/ (metadata_mismatch node_def /\ code s = FAILED_PRECONDITION))
  /\ (Init.make_semaphore (Init.max_num_infers_ m') ∉ calls)
  /\ (forall a' executable' (node_def' : NodeDef DataType),
        Init.initialize DataTypeSize scale a' executable' node_def' m'
        = ([], Ret tt, m')).
Proof.
  intros Hd Hafd Hrun Hexe.
  assert (Hmain : Init.neuron_device_ m' = true
                  /\ Init.max_num_infers_ m' = Init.max_num_infers_ m
                  /\ Init.infer_sem_ m' = Init.infer_sem_ m
                  /\ (s = Init.load_status a
                      \/ (metadata_mismatch node_def /\ code s = FAILED_PRECONDITION))
                  /\ (Init.make_semaphore (Init.max_num_infers_ m') ∉ calls)).
  { revert Hrun. unfold Init.initialize. rewrite Hd, Hafd.
    rewrite bool_decide_eq_false_2.
    2: { intros Hlen. destruct executable; [done | discriminate]. }
    cbn [negb Init.neuron_device_ Init.set_neuron_device Init.set_profile_enabled
         Init.profile_enabled_ Init.infer_sem_ Init.max_num_infers_].
    destruct (Init.device_assigned a) eqn:Hassigned; cbn [negb]; [|done].
    destruct (ok (Init.load_status a)) eqn:Hload; cbn [negb].
    - destruct (get_io_tensor_sizes DataTypeSize false false node_def) as [sizes| |] eqn:Hsizes.
      + by destruct (_ && _).
      + intros [= <- <- <-]. cbn. split_and!; try done.
        * right. destruct (decide (metadata_mismatch node_def)) as [Hm|Hm].
          -- destruct (get_io_tensor_sizes_mismatch DataTypeSize false false node_def Hm)
               as (s' & Hs' & Hcode).
             split; [done|]. congruence.
          -- rewrite (get_io_tensor_sizes_consistent DataTypeSize false false
                        node_def Hm) in Hsizes by done.
             done.
        * destruct (Init.profile_enabled a); cbn; intros Hin;
            repeat (apply elem_of_cons in Hin as [Hin|Hin]; [discriminate|]);
            by apply elem_of_nil in Hin.
      + done.
    - intros [= <- <- <-]. cbn. split_and!; try done.
      + by left.
      + destruct (Init.profile_enabled a); cbn; intros Hin;
          repeat (apply elem_of_cons in Hin as [Hin|Hin]; [discriminate|]);
          by apply elem_of_nil in Hin. }
  destruct Hmain as (Hd' & Hmax & Hsem & Hs & Hno).
  split_and!; try done.
  intros a' executable' node_def'. by apply initialize_ready.
Qed.

(** A fresh model; the device is obtained and the load is refused. *)
Lemma X14_failed_load_not_retried_witness :
  Init.initialize SampleTypeSize Z.mul fine_answers "neff" sample_node_def
    (Init.initialize SampleTypeSize Z.mul load_refused "neff" sample_node_def
       fresh_members).2
  = ([], Ret tt,
     (Init.initialize SampleTypeSize Z.mul load_refused "neff" sample_node_def
        fresh_members).2).
Proof.
  refine (proj2 (proj2 (proj2 (proj2 (proj2
    (X14_failed_load_not_retried SampleTypeSize Z.mul load_refused "neff"
       sample_node_def fresh_members
       (Init.initialize SampleTypeSize Z.mul load_refused "neff" sample_node_def
          fresh_members).2
       (Init.initialize SampleTypeSize Z.mul load_refused "neff" sample_node_def
          fresh_members).1.1
       (mkStatus UNAVAILABLE "unavailable") _ _ _ _)))))
    fine_answers "neff" sample_node_def).
  - reflexivity.
  - reflexivity.
  - reflexivity.
  - discriminate.
Defined.


(** X15.  The window of compute against the semaphore of initialize.  When
    initialize returns OK on a model with no device and no semaphore, and
    NEURON_UNLIMITED_THREADS is not yes, it has created one semaphore, of
    capacity max_num_infers_, the configured value scaled by the semaphore
    factor, and compute then reads that max_num_infers_ and a non-null
    semaphore.  For any number of sub-batches n >= 1 the window of compute is
    at least 1; it is within the capacity when the capacity is at least 1,
    and it is 1, above the capacity, when the capacity is below 1. *)
Theorem X15_window_fits_semaphore {DataType} (DataTypeSize : DataType -> Z)
    (scale : Z -> Z -> Z) (a : Init.Answers) (executable : string)
    (node_def : NodeDef DataType) (m m' : Init.Members) (calls : list Init.Call) :
  Init.initialize DataTypeSize scale a executable node_def m = (calls, Ret tt, m') ->
  Init.neuron_device_ m = false ->
  Init.infer_sem_ m = None ->
  "yes"%string <> Init.unlimited_threads a ->
  Init.infer_sem_ m'
  = Some (scale (Init.config_max_num_infers a) (Init.semaphore_factor a))
  /\ last calls
     = Some (Init.make_semaphore
               (scale (Init.config_max_num_infers a) (Init.semaphore_factor a)))
  /\ Init.as_model m'
     = mkNeuronModel true
         (scale (Init.config_max_num_infers a) (Init.semaphore_factor a))
         true (Init.profile_enabled a)
  /\ forall n, 1 <= n ->
       1 <= window_size_of (max_num_infers_ (Init.as_model m')) n
       /\ (1 <= scale (Init.config_max_num_infers a) (Init.semaphore_factor a) ->
           window_size_of (max_num_infers_ (Init.as_model m')) n
           <= scale (Init.config_max_num_infers a) (Init.semaphore_factor a))
       /\ (scale (Init.config_max_num_infers a) (Init.semaphore_factor a) < 1 ->
           window_size_of (max_num_infers_ (Init.as_model m')) n = 1).
Proof.
  intros Hrun Hd Hsem Hyes.
  assert (Hm' : m' = Init.mkMembers true
                       (scale (Init.config_max_num_infers a) (Init.semaphore_factor a))
                       (Some (scale (Init.config_max_num_infers a)
                                (Init.semaphore_factor a)))
                       (Init.profile_enabled a)
                /\ last calls
                   = Some (Init.make_semaphore
                             (scale (Init.config_max_num_infers a)
                                (Init.semaphore_factor a)))).
  { revert Hrun. unfold Init.initialize. rewrite Hd.
    case_bool_decide as Hexe; [done|].
    destruct (ok (Init.apply_for_device_status a)); cbn [negb]; [|done].
    cbn [Init.neuron_device_ Init.set_neuron_device Init.set_profile_enabled
         Init.profile_enabled_ Init.infer_sem_ Init.max_num_infers_].
    destruct (Init.device_assigned a); cbn [negb]; [|done].
    destruct (ok (Init.load_status a)); cbn [negb]; [|done].
    destruct (get_io_tensor_sizes DataTypeSize false false node_def) as [sizes| |]; [|done|done].
    cbn [Init.neuron_device_ Init.set_neuron_device Init.set_profile_enabled
         Init.set_max_num_infers Init.set_infer_sem
         Init.profile_enabled_ Init.infer_sem_ Init.max_num_infers_].
    rewrite Hsem.
    rewrite (bool_decide_eq_false_2 (is_Some None)) by (by intros [? ?]).
    rewrite (bool_decide_eq_false_2 ("yes"%string = _)) by done.
    cbn [negb andb]. intros [= <- <-]. split; [done|].
    rewrite app_comm_cons. apply last_snoc. }
  destruct Hm' as [-> Hlast].
  split_and!; [done | done | done |].
  intros n Hn. cbn [Init.as_model Init.max_num_infers_ max_num_infers_].
  unfold window_size_of. case_bool_decide; split_and!; lia.
Qed.

(** A fresh model, four requests at a time on a device with a semaphore
    factor of two, three sub-batches. *)
Lemma X15_window_fits_semaphore_witness :
  window_size_of
    (max_num_infers_
       (Init.as_model
          (Init.initialize SampleTypeSize Z.mul fine_answers "neff" sample_node_def
             fresh_members).2)) 3
  <= 4 * 2.
Proof.
  refine (proj1 (proj2 (proj2 (proj2 (proj2
    (X15_window_fits_semaphore SampleTypeSize Z.mul fine_answers "neff" sample_node_def
       fresh_members
       (Init.initialize SampleTypeSize Z.mul fine_answers "neff" sample_node_def
          fresh_members).2
       (Init.initialize SampleTypeSize Z.mul fine_answers "neff" sample_node_def
          fresh_members).1.1
       _ _ _ _))) 3 _)) _).
  - reflexivity.
  - reflexivity.
  - reflexivity.
  - discriminate.
  - lia.
  - cbn. lia.
Defined.


(** ** The log level of an environment variable *)

Lemma skip_blank ws s :
  blank ws -> logging.skip_whitespace (String.append ws s) = logging.skip_whitespace s.
Proof.
  unfold blank. induction ws as [|c ws IH]; [done|].
  change (String c ws +:+ s) with (String c (ws +:+ s)).
  cbn [logging.skip_whitespace].
  destruct (logging.isspace c); [exact IH | done].
Qed.

Lemma append_cons (c : ascii) (s junk : string) :
  String c s +:+ junk = String c (s +:+ junk).
Proof. reflexivity. Qed.

Lemma read_digits_stop (junk : string) (acc : option Z) :
  no_digit_ahead junk -> logging.read_digits junk acc = acc.
Proof.
  destruct junk as [|c junk]; [done|]. unfold no_digit_ahead. intros Hc.
  cbn [logging.read_digits]. by rewrite Hc.
Qed.

Lemma read_digits_acc (d : Decimal.uint) (junk : string) (acc : positive) :
  no_digit_ahead junk ->
  logging.read_digits
    (String.append (DecimalString.NilEmpty.string_of_uint d) junk) (Some (Z.pos acc))
  = Some (Z.pos (Pos.of_uint_acc d acc)).
Proof.
  intros Hjunk. revert acc.
  induction d as [|d IH|d IH|d IH|d IH|d IH|d IH|d IH|d IH|d IH|d IH]; intros acc;
    cbn [DecimalString.NilEmpty.string_of_uint Pos.of_uint_acc];
    rewrite ?append_cons; cbn [logging.read_digits].
  - change ("" +:+ junk) with junk. by apply read_digits_stop.
  - change (logging.digit "0") with (Some 0). cbn [default from_option id].
    replace (10 * Z.pos acc + 0) with (Z.pos (10 * acc)) by lia. apply IH.
  - change (logging.digit "1") with (Some 1). cbn [default from_option id].
    replace (10 * Z.pos acc + 1) with (Z.pos (1 + 10 * acc)) by lia. apply IH.
  - change (logging.digit "2") with (Some 2). cbn [default from_option id].
    replace (10 * Z.pos acc + 2) with (Z.pos (2 + 10 * acc)) by lia. apply IH.
  - change (logging.digit "3") with (Some 3). cbn [default from_option id].
    replace (10 * Z.pos acc + 3) with (Z.pos (3 + 10 * acc)) by lia. apply IH.
  - change (logging.digit "4") with (Some 4). cbn [default from_option id].
    replace (10 * Z.pos acc + 4) with (Z.pos (4 + 10 * acc)) by lia. apply IH.
  - change (logging.digit "5") with (Some 5). cbn [default from_option id].
    replace (10 * Z.pos acc + 5) with (Z.pos (5 + 10 * acc)) by lia. apply IH.
  - change (logging.digit "6") with (Some 6). cbn [default from_option id].
    replace (10 * Z.pos acc + 6) with (Z.pos (6 + 10 * acc)) by lia. apply IH.
  - change (logging.digit "7") with (Some 7). cbn [default from_option id].
    replace (10 * Z.pos acc + 7) with (Z.pos (7 + 10 * acc)) by lia. apply IH.
  - change (logging.digit "8") with (Some 8). cbn [default from_option id].
    replace (10 * Z.pos acc + 8) with (Z.pos (8 + 10 * acc)) by lia. apply IH.
  - change (logging.digit "9") with (Some 9). cbn [default from_option id].
    replace (10 * Z.pos acc + 9) with (Z.pos (9 + 10 * acc)) by lia. apply IH.
Qed.

Lemma read_digits_uint (d : Decimal.uint) (junk : string) (acc : option Z) :
  no_digit_ahead junk -> d <> Decimal.Nil -> default 0 acc = 0 ->
  logging.read_digits
    (String.append (DecimalString.NilEmpty.string_of_uint d) junk) acc
  = Some (Z.of_N (Pos.of_uint d)).
Proof.
  intros Hjunk. revert acc.
  induction d as [|d IH|d IH|d IH|d IH|d IH|d IH|d IH|d IH|d IH|d IH];
    intros acc Hd Hacc; [done|..];
    cbn [DecimalString.NilEmpty.string_of_uint Pos.of_uint];
    rewrite ?append_cons; cbn [logging.read_digits].
  - change (logging.digit "0") with (Some 0). rewrite Hacc.
    destruct d as [|d'|d'|d'|d'|d'|d'|d'|d'|d'|d'].
    + cbn [DecimalString.NilEmpty.string_of_uint Pos.of_uint].
      change ("" +:+ junk) with junk. by rewrite read_digits_stop.
    + by apply IH.
    + by apply IH.
    + by apply IH.
    + by apply IH.
    + by apply IH.
    + by apply IH.
    + by apply IH.
    + by apply IH.
    + by apply IH.
    + by apply IH.
  - change (logging.digit "1") with (Some 1). rewrite Hacc.
    change (10 * 0 + 1) with (Z.pos 1).
    by rewrite (read_digits_acc d junk 1 Hjunk).
  - change (logging.digit "2") with (Some 2). rewrite Hacc.
    change (10 * 0 + 2) with (Z.pos 2).
    by rewrite (read_digits_acc d junk 2 Hjunk).
  - change (logging.digit "3") with (Some 3). rewrite Hacc.
    change (10 * 0 + 3) with (Z.pos 3).
    by rewrite (read_digits_acc d junk 3 Hjunk).
  - change (logging.digit "4") with (Some 4). rewrite Hacc.
    change (10 * 0 + 4) with (Z.pos 4).
    by rewrite (read_digits_acc d junk 4 Hjunk).
  - change (logging.digit "5") with (Some 5). rewrite Hacc.
    change (10 * 0 + 5) with (Z.pos 5).
    by rewrite (read_digits_acc d junk 5 Hjunk).
  - change (logging.digit "6") with (Some 6). rewrite Hacc.
    change (10 * 0 + 6) with (Z.pos 6).
    by rewrite (read_digits_acc d junk 6 Hjunk).
  - change (logging.digit "7") with (Some 7). rewrite Hacc.
    change (10 * 0 + 7) with (Z.pos 7).
    by rewrite (read_digits_acc d junk 7 Hjunk).
  - change (logging.digit "8") with (Some 8). rewrite Hacc.
    change (10 * 0 + 8) with (Z.pos 8).
    by rewrite (read_digits_acc d junk 8 Hjunk).
  - change (logging.digit "9") with (Some 9). rewrite Hacc.
    change (10 * 0 + 9) with (Z.pos 9).
    by rewrite (read_digits_acc d junk 9 Hjunk).
Qed.

(** The digits of a positive number, as the extraction meets them. *)
Lemma digits_head (p : positive) (junk : string) :
  exists c rest,
    String.append (DecimalString.NilEmpty.string_of_uint (Pos.to_uint p)) junk
    = String c rest
    /\ logging.isspace c = false
    /\ c <> "-"%char /\ c <> "+"%char.
Proof.
  pose proof (DecimalPos.Unsigned.to_uint_nonnil p) as Hnil.
  destruct (Pos.to_uint p); [done|..];
    cbn [DecimalString.NilEmpty.string_of_uint String.append];
    eexists _, _; (split; [reflexivity|]); split_and!; done.
Qed.

Lemma extract_positive (p : positive) (junk : string) :
  no_digit_ahead junk ->
  logging.read_digits
    (String.append (DecimalString.NilEmpty.string_of_uint (Pos.to_uint p)) junk) None
  = Some (Z.pos p).
Proof.
  intros Hjunk.
  rewrite read_digits_uint;
    [|done|apply DecimalPos.Unsigned.to_uint_nonnil|done].
  by rewrite DecimalPos.Unsigned.of_to.
Qed.

Lemma nonnil_string (p : positive) :
  DecimalString.NilZero.string_of_uint (Pos.to_uint p)
  = DecimalString.NilEmpty.string_of_uint (Pos.to_uint p).
Proof.
  pose proof (DecimalPos.Unsigned.to_uint_nonnil p) as Hnil.
  by destruct (Pos.to_uint p).
Qed.

Lemma extract_decimal (L : Z) (junk : string) :
  no_digit_ahead junk ->
  logging.extract_int (String.append (decimal L) junk)
  = if bool_decide (logging.INT_MIN <= L <= logging.INT_MAX) then Some L else None.
Proof.
  intros Hjunk. unfold decimal, logging.extract_int. destruct L as [|p|p].
  - change (DecimalString.NilZero.string_of_int (Z.to_int 0) +:+ junk)
      with (String "0" junk).
    cbn [logging.skip_whitespace]. change (logging.isspace "0") with false.
    cbn [fst snd logging.read_digits]. change (logging.digit "0") with (Some 0).
    cbn [default from_option id].
    by rewrite read_digits_stop.
  - cbn [Z.to_int DecimalString.NilZero.string_of_int]. rewrite nonnil_string.
    destruct (digits_head p junk) as (c & rest & Heq & Hsp & Hm & Hp).
    pose proof (extract_positive p junk Hjunk) as Hread.
    rewrite Heq in Hread |- *. cbn [logging.skip_whitespace]. rewrite Hsp.
    assert (Hsigned : match String c rest with
                      | String "-" s' => (true, s')
                      | String "+" s' => (false, s')
                      | _ => (false, String c rest)
                      end = (false, String c rest)).
    { destruct c as [[] [] [] [] [] [] [] []]; try reflexivity;
        [by destruct Hp | by destruct Hm]. }
    rewrite Hsigned. cbn [fst snd]. rewrite Hread. done.
  - cbn [Z.to_int DecimalString.NilZero.string_of_int]. rewrite nonnil_string.
    rewrite append_cons. cbn [logging.skip_whitespace].
    change (logging.isspace "-") with false. cbn [fst snd].
    rewrite (extract_positive p junk Hjunk). done.
Qed.

(** X16.  LogLevelStrToInt gives -1 for a null pointer.  For a string made
    of white space, the decimal digits of an integer L (with a minus sign
    when negative) and anything that does not start with a digit, it gives L
    when L is an int and the default level 0 when it is not: what follows
    the number is ignored.  It gives 0 as well for a string with nothing but
    white space, and for one whose first character after the white space is
    neither a digit nor a sign: an unreadable level and level 0 are not told
    apart. *)
Theorem X16_log_level_of_string :
  logging.LogLevelStrToInt None = -1
  /\ (forall (ws : string) (L : Z) (junk : string),
        blank ws -> no_digit_ahead junk ->
        logging.LogLevelStrToInt
          (Some (String.append ws (String.append (decimal L) junk)))
        = if bool_decide (logging.INT_MIN <= L <= logging.INT_MAX) then L else 0)
  /\ (forall (ws : string), blank ws -> logging.LogLevelStrToInt (Some ws) = 0)
  /\ (forall (ws : string) (c : ascii) (rest : string),
        blank ws -> logging.isspace c = false -> logging.digit c = None ->
        c <> "-"%char -> c <> "+"%char ->
        logging.LogLevelStrToInt (Some (String.append ws (String c rest))) = 0).
Proof.
  split_and!.
  - reflexivity.
  - intros ws L junk Hws Hjunk. unfold logging.LogLevelStrToInt.
    assert (Hext : logging.extract_int
                     (String.append ws (String.append (decimal L) junk))
                   = logging.extract_int (String.append (decimal L) junk)).
    { unfold logging.extract_int. by rewrite skip_blank. }
    rewrite Hext, extract_decimal by done. by case_bool_decide.
  - intros ws Hws. unfold logging.LogLevelStrToInt, logging.extract_int.
    unfold blank in Hws. by rewrite Hws.
  - intros ws c rest Hws Hsp Hdigit Hm Hp.
    unfold logging.LogLevelStrToInt, logging.extract_int.
    rewrite skip_blank by done. cbn [logging.skip_whitespace]. rewrite Hsp.
    assert (Hsigned : match String c rest with
                      | String "-" s' => (true, s')
                      | String "+" s' => (false, s')
                      | _ => (false, String c rest)
                      end = (false, String c rest)).
    { destruct c as [[] [] [] [] [] [] [] []]; try reflexivity;
        [by destruct Hp | by destruct Hm]. }
    rewrite Hsigned. cbn [fst snd logging.read_digits]. by rewrite Hdigit.
Qed.

(** Level 3, after a space and before a letter. *)
Lemma X16_log_level_of_string_witness :
  logging.LogLevelStrToInt (Some " 3x"%string) = 3.
Proof.
  exact (proj1 (proj2 X16_log_level_of_string) " "%string 3 "x"%string
           eq_refl eq_refl).
Defined.

(** * The batch plan and the semaphore on the runs of the dynamic path *)

(** ** C3: number of sub-batches, padded total and output rows *)

Lemma Forall_prefix {X} (P : X -> Prop) (l1 l2 : list X) :
  l1 `prefix_of` l2 -> Forall P l2 -> Forall P l1.
Proof. intros [k ->] HF. by apply Forall_app in HF as [? _]. Qed.

Lemma drain_calls_after_build {DataType} (plan : Plan DataType) l q :
  Forall after_build (drain_calls plan l q).
Proof.
  revert q. induction l as [|i l IH]; intros q; [constructor|].
  destruct q as [|io q]; [constructor|]. cbn [drain_calls].
  apply Forall_app. split; [repeat constructor | apply IH].
Qed.

Lemma pipeline_calls_after_build {DataType} model (node_def : NodeDef DataType)
    (input_tensors : list (Tensor DataType)) (plan : Plan DataType) :
  Forall after_build (pipeline_calls model node_def input_tensors plan).
Proof.
  unfold pipeline_calls, locked_calls, post_requests_calls.
  repeat (apply Forall_app; split).
  - repeat constructor.
  - destruct (profile_enabled_ model); [|constructor].
    unfold profile_calls. apply Forall_app. split.
    + apply Forall_fmap, Forall_true. intros p. exact I.
    + repeat constructor.
  - repeat constructor.
  - apply Forall_flat_map_intro. intros b. unfold fill_calls, setup_call, post_call.
    destruct (infer_sem_ model); case_bool_decide; repeat constructor.
  - apply Forall_flat_map_intro. intros b. unfold steady_calls, setup_call, post_call.
    case_bool_decide; repeat constructor.
  - unfold wait_posts_calls. apply Forall_fmap, Forall_true. intros io. exact I.
  - apply drain_calls_after_build.
Qed.

Lemma dynamic_calls_agree {DataType} model num_outputs (node_def : NodeDef DataType)
    (input_tensors : list (Tensor DataType)) bi :
  1 <= batch_size bi -> 1 <= k_batch_size bi ->
  plan_fits (batch_size bi) (k_batch_size bi) ->
  Forall (agrees_with_plan (batch_size bi) (k_batch_size bi) (is_batch_output_tensors bi))
         (dynamic_calls model num_outputs node_def input_tensors bi).
Proof.
  intros HR HH Hfit.
  destruct (plan_arith _ _ HR HH Hfit) as [Hpad Hn].
  destruct (ceil_div_bounds _ _ HR HH) as [Hn1 [Hlo Hhi]].
  assert (Hmax : ceil_div (batch_size bi) (k_batch_size bi) * k_batch_size bi
                 <= int64_max) by exact Hfit.
  unfold dynamic_calls. apply Forall_app; split; [|apply Forall_app; split].
  - unfold alloc_calls. apply Forall_fmap, Forall_true. intros p. reflexivity.
  - unfold build_calls. apply Forall_flat_map_intro. intros b.
    apply Forall_flat_map_intro. intros [idx [input flag]].
    unfold build_input_calls. cbn [fst snd]. rewrite Hn, Hpad.
    set (R := batch_size bi) in *. set (H := k_batch_size bi) in *.
    set (n := ceil_div R H) in *.
    assert (Hn64 : n <= int64_max).
    { assert (n * 1 <= n * H) by (apply Z.mul_le_mono_nonneg_l; lia). lia. }
    assert (HH64 : H <= int64_max).
    { assert (1 * H <= n * H) by (apply Z.mul_le_mono_nonneg_r; lia). lia. }
    rewrite (sub64_small n 1) by lia.
    destruct flag; cbn [andb]; [|constructor].
    case_bool_decide as Hb; [|constructor]. subst b.
    rewrite (sub64_small (n * H) R) by lia.
    rewrite (sub64_small H (n * H - R)) by lia.
    rewrite (mul64_small (n - 1) H n) by lia.
    repeat constructor.
  - eapply Forall_impl; [apply pipeline_calls_after_build|].
    intros c Hc. by destruct c.
Qed.

(** C3.  For a runtime batch size [R >= 1] and a hardware batch size
    [H >= 1] (the padded total within [int64_t]) the number of sub-batches
    that [compute] derives is [ceil (R / H)], the least [n] with
    [R <= n * H], and the padded total is that number times [H].  On every
    run of the dynamic path with these sizes, whatever the collaborators
    answer: an output that carries the batch dimension is allocated with [R]
    rows, not with the padded total; only the input of sub-batch [n - 1] is
    padded, by [n * H - R] zeroed rows; and the requests posted are
    sub-batches 0, 1, ... in this order.  When the run falls through all [n]
    of them have been posted and every output has been allocated.  With
    [R = 10] and [H = 4], on a run of [compute] that no collaborator cuts
    short: 3 sub-batches are posted, the last one with 2 rows of the caller
    and 2 zeroed rows (padded total 12), the output is allocated with 10 rows
    and the three requests write its rows 0-3, 4-7 and 8-9. *)
Theorem C3_num_sub_batches (R H : Z) :
  1 <= R -> 1 <= H -> plan_fits R H ->
  num_batches_of R H = ceil_div R H
  /\ (num_batches_of R H - 1) * H < R <= num_batches_of R H * H
  /\ pad_batch_size_of R H = num_batches_of R H * H
  /\ (forall (DataType : Type) (DataTypeSize : DataType -> Z) (model : NeuronModel)
             (num_outputs : nat) (node_def : NodeDef DataType)
             (input_tensors : list (Tensor DataType)) (bi : BatchInfo) (o : Oracle),
        batch_size bi = R -> k_batch_size bi = H ->
        let run := dynamic_path DataTypeSize model num_outputs node_def input_tensors bi o in
        Forall (agrees_with_plan R H (is_batch_output_tensors bi)) (calls_of run.1)
        /\ omap posted (calls_of run.1) `prefix_of` (io_batch <$> seqZ 0 (ceil_div R H))
        /\ (is_Ret run.2 ->
            omap posted (calls_of run.1) = io_batch <$> seqZ 0 (ceil_div R H)
            /\ forall idx : nat,
                 num_outputs = length (output_dtypes node_def) ->
                 num_outputs = length (output_shapes node_def) ->
                 (idx < num_outputs)%nat ->
                 allocate_output idx
                   (if default false (is_batch_output_tensors bi !! idx)
                    then Some R else None)
                 ∈ calls_of run.1))
  /\ (let run := compute SampleTypeSize (sample_model 2) 1 sample_node_def
                   (sample_inputs 10) all_ok in
      num_batches_of 10 4 = 3
      /\ pad_batch_size_of 10 4 = 12
      /\ run.2 = Ret tt
      /\ omap posted (calls_of run.1) = [io_batch 0; io_batch 1; io_batch 2]
      /\ omap zeroed (calls_of run.1) = [(2, 0%nat, 2, 4)]
      /\ omap allocated (calls_of run.1) = [(0%nat, Some 10)]
      /\ omap written (calls_of run.1)
         = [[mkRegion (buf_output 0) 0 [4; 2]];
            [mkRegion (buf_output 0) 4 [4; 2]];
            [mkRegion (buf_output 0) 8 [2; 2]]]).
Proof.
  intros HR HH Hfit.
  destruct (plan_arith R H HR HH Hfit) as [Hpad Hn].
  destruct (ceil_div_bounds R H HR HH) as [_ Hb].
  rewrite Hn, Hpad. split_and!; [done | lia | lia | done | |].
  - intros DataType DataTypeSize model num_outputs node_def input_tensors bi o HRb HHb run.
    subst R H.
    destruct (dynamic_plan_in_range model num_outputs node_def input_tensors bi
                HR HH Hfit) as [Hw _].
    pose proof (posted_pipeline_calls model node_def input_tensors
                  (dynamic_plan model num_outputs node_def input_tensors bi) Hw) as Hp.
    rewrite <- (omap_dynamic_calls posted model num_outputs) in Hp by done.
    change (plan_num_batches (dynamic_plan model num_outputs node_def input_tensors bi))
      with (num_batches_of (batch_size bi) (k_batch_size bi)) in Hp.
    rewrite Hn in Hp.
    destruct (dynamic_path_follows DataTypeSize model num_outputs node_def input_tensors
                bi HR HH Hfit o) as [Hpre Hret].
    fold run in Hpre, Hret.
    split_and!.
    + eapply Forall_prefix; [exact Hpre|]. by apply dynamic_calls_agree.
    + rewrite <- Hp. by apply omap_prefix.
    + intros [st Hst]. destruct (Hret st Hst) as [Hcalls _]. rewrite Hcalls.
      split; [done|]. intros idx Hd Hs Hidx. unfold dynamic_calls.
      apply elem_of_app. left.
      exact (alloc_calls_complete (Some (is_batch_output_tensors bi, batch_size bi))
               num_outputs node_def idx Hd Hs Hidx).
  - vm_compute. split_and!; reflexivity.
Qed.

(** Ten rows on a model compiled for four, at most two requests at a time. *)
Lemma C3_num_sub_batches_witness :
  num_batches_of 10 4 = ceil_div 10 4
  /\ pad_batch_size_of 10 4 = num_batches_of 10 4 * 4
  /\ Forall (agrees_with_plan 10 4 [true]) (calls_of (sample_run 10 2).1)
  /\ omap posted (calls_of (sample_run 10 2).1) = io_batch <$> seqZ 0 (ceil_div 10 4).
Proof.
  assert (Hfit : plan_fits 10 4) by (vm_compute; discriminate).
  pose proof (C3_num_sub_batches 10 4 ltac:(lia) ltac:(lia) Hfit)
    as (Hn & _ & Hpad & Hrun & _).
  destruct (Hrun SampleType SampleTypeSize (sample_model 2) 1%nat sample_node_def
              (sample_inputs 10) (sample_info 10) all_ok eq_refl eq_refl)
    as (Hagree & _ & Hposted).
  split_and!; [exact Hn | exact Hpad | exact Hagree |].
  apply Hposted. eexists. vm_compute. reflexivity.
Defined.

(** ** C6: the semaphore on the runs of the dynamic path *)

Section EmitsRules.

Variable P : Event -> Prop.










End EmitsRules.



Section SemaphoreSites.

Context {DataType : Type}.
Variable DataTypeSize : DataType -> Z.
Variable model : NeuronModel.
Variable node_def : NodeDef DataType.
Variable input_tensors : list (Tensor DataType).
Variable plan : Plan DataType.




End SemaphoreSites.






Section SemaphoreCalls.

Context {DataType : Type}.
Variable model : NeuronModel.
Variable node_def : NodeDef DataType.
Variable input_tensors : list (Tensor DataType).
Variable plan : Plan DataType.

Let n := plan_num_batches plan.
Let w := plan_window_size plan.

Hypothesis window_in_range : 0 <= w <= n.


End SemaphoreCalls.


(** *** The reservation queue *)









(** ** A model that was given no device *)




